(** * goserve: the response-interception and middleware core

    A shallow embedding of [goserve.go] (the later generation of the
    server) and of the parts of the earlier generation that differ, with
    the properties of the status interceptor, of the header-injection and
    compression middleware, of the directory-listing guard and of the
    configuration checks.  A second part follows the start-up code (the
    defaults, the checks, the registration of the handlers) and the
    handlers as [main] composes them.

    Go code that panics, recovers and mutates the response is written in
    a state-and-panic monad [M] over a [World]: the response held by the
    HTTP server for the request being served, and a heap of the objects
    the program allocates while serving it.  The Go standard library is
    the environment of the program; what the program needs of it is
    either written out (the server's response writer, [http.Error],
    [http.StripPrefix], [http.ServeMux], the skeleton of
    [http.FileServer]) or left open in the classes [Env] and
    [RedirectEnv]. *)

From Stdlib Require Import ZArith String Ascii List Bool Lia.
From stdpp Require Import base option gmap strings list pretty.

Open Scope string_scope.
Open Scope list_scope.
Open Scope Z_scope.

(** ** Values *)

(** A Go [[]byte]. *)
Definition bytes := list Byte.byte.

Definition bytes_of (s : string) : bytes := list_byte_of_string s.

(** The line feed that [fmt.Fprintln] appends. *)
Definition LF : string := String (ascii_of_nat 10) EmptyString.

(** [strings.HasPrefix], [strings.HasSuffix] and [strings.Contains]. *)
Definition strings_HasPrefix (s pre : string) : bool := String.prefix pre s.

Definition strings_HasSuffix (s suf : string) : bool :=
  String.eqb (String.substring (String.length s - String.length suf) (String.length suf) s) suf
  && (String.length suf <=? String.length s)%nat.

Fixpoint strings_Contains (s substr : string) : bool :=
  String.prefix substr s ||
  match s with
  | EmptyString => false
  | String _ s' => strings_Contains s' substr
  end.

(** An [http.Header]: canonical header name to the list of its values. *)
Abbreviation Header := (gmap string (list string)).

(** A value handed to [panic].  The program panics with pointers to
    objects it has allocated and compares the recovered value with the
    pointer it holds; [PStr] stands for every other panic. *)
Inductive PanicValue : Type :=
| PPtr (addr : nat)
| PStr (msg : string).

Definition PanicValue_eqb (p q : PanicValue) : bool :=
  match p, q with
  | PPtr a, PPtr b => Nat.eqb a b
  | PStr s, PStr t => String.eqb s t
  | _, _ => false
  end.

(** An [*http.Request], as far as the program reads it. *)
Record Request : Type := mkRequest {
  Method : string;
  Host : string;
  RequestURI : string;
  URL_Path : string;
  URL_RawQuery : string;
  ProtoMajor : Z;
  ProtoMinor : Z;
  Request_Header : Header
}.

Definition ProtoAtLeast (r : Request) (major minor : Z) : bool :=
  (major <? ProtoMajor r) || ((ProtoMajor r =? major) && (minor <=? ProtoMinor r)).

Definition with_URL_Path (r : Request) (p : string) : Request :=
  {| Method := Method r; Host := Host r;
     RequestURI := RequestURI r; URL_Path := p; URL_RawQuery := URL_RawQuery r;
     ProtoMajor := ProtoMajor r; ProtoMinor := ProtoMinor r;
     Request_Header := Request_Header r |}.

(** What [Open] finds on disk. *)
Inductive File : Type :=
| Regular (content : bytes)
| Directory (entries : list string).

Definition IsDir (f : File) : bool :=
  match f with Directory _ => true | Regular _ => false end.

(** ** Code that only drives a response writer

    A [Script] is the behaviour of code that was handed a
    [http.ResponseWriter] and does nothing but call its methods: a
    handler written by somebody else, or a function of [net/http].  It
    reads and edits the header map, sets the status, writes body bytes,
    and may panic. *)
Inductive Script : Type :=
| SDone
| SHeaderGet (key : string) (cont : string -> Script)
| SHeaderSet (key value : string) (cont : Script)
| SHeaderAdd (key value : string) (cont : Script)
| SHeaderDel (key : string) (cont : Script)
| SHeaderKeys (cont : list string -> Script)
| SWriteHeader (code : Z) (cont : Script)
| SWrite (b : bytes) (cont : Script)
| SPanic (p : PanicValue).


(** ** The environment

    Functions of the Go standard library and the file system, which the
    program calls and whose code is not part of it. *)
Class Env : Type := {
  (** [http.StatusText]: the reason phrase of a status code, [""] when
      the code is unknown. *)
  http_StatusText : Z -> string;
  (** [textproto.CanonicalMIMEHeaderKey], applied by [Header.Get],
      [Header.Set], [Header.Add] and [Header.Del]. *)
  CanonicalHeaderKey : string -> string;
  (** [http.DetectContentType]. *)
  http_DetectContentType : bytes -> string;
  (** [path.Clean] and [path.Base]. *)
  path_Clean : string -> string;
  path_Base : string -> string;
  (** [http.Dir(root).Open(name)]: the file, or [None] when the open
      fails. *)
  os_Open : string -> string -> option File;
  (** [os.IsNotExist] of the error of [os.Stat(name)]. *)
  os_Stat_IsNotExist : string -> bool;
  (** [http.ServeFile(w, r, name)] as calls on [w]. *)
  http_ServeFile : Request -> string -> Script;
  (** Inside [http.FileServer]: [serveContent] for a regular file that
      was opened, and the conditional check and [dirList] for a
      directory without index page. *)
  http_serveContent : Request -> string -> bytes -> Script;
  http_dirList : Request -> list string -> Script;
  (** A [gzip.Writer]: the writes it issues on the underlying writer
      when it is given [b] after having been given [hist], and the
      writes issued by [Close]. *)
  gzip_write : bytes -> bytes -> list bytes;
  gzip_close : bytes -> list bytes
}.

(** What [net/http] does to redirect a request. *)
Class RedirectEnv : Type := {
  (** [http.Redirect(w, r, url, code)] as calls on [w]. *)
  http_Redirect : Request -> string -> Z -> Script;
  (** [u.String()] for the copy [u] of [r.URL] whose [Path] is [p]. *)
  URL_String : Request -> string -> string
}.

(** ** The world of one request *)

(** The server's response, as the handlers make it: the header map they
    edit, the status once the header has been written, the headers as
    they were at that moment (those are the ones sent), and the bytes
    handed to [Write], in order.  What the server does below this
    interface (framing, leaving out the body of a [HEAD] request or of a
    304, checking a declared [Content-Length], I/O errors) is not
    modelled. *)
Record response : Type := mkResponse {
  header : Header;
  status : option Z;
  sent : Header;
  body : bytes
}.

(** Objects allocated while a request is served.  A pointer is the index
    of its object in the heap. *)
Inductive Obj : Type :=
| OInterceptResponseWriter
| OErrorHandlingResponseWriter
| OPreventListingDir (root : string)
| OGzipWriter (hist : bytes)
| OGzipResponseWriter (gotContentType : bool).

Record World : Type := mkWorld {
  resp : response;
  heap : list Obj
}.

Definition fresh_response : response :=
  {| header := ∅; status := None; sent := ∅; body := [] |}.

Definition fresh_world : World := {| resp := fresh_response; heap := [] |}.

Definition set_resp (f : response -> response) (σ : World) : World :=
  {| resp := f (resp σ); heap := heap σ |}.

Definition set_header (f : Header -> Header) (ρ : response) : response :=
  {| header := f (header ρ); status := status ρ; sent := sent ρ; body := body ρ |}.

(** ** The monad *)

Inductive Outcome (A : Type) : Type :=
| Ret (a : A)
| Panic (p : PanicValue).
Arguments Ret {A} a.
Arguments Panic {A} p.

Definition M (A : Type) : Type := World -> Outcome A * World.

Definition ret {A} (a : A) : M A := fun σ => (Ret a, σ).

Definition bind {A B} (m : M A) (k : A -> M B) : M B :=
  fun σ =>
    match m σ with
    | (Ret a, σ') => k a σ'
    | (Panic p, σ') => (Panic p, σ')
    end.

Declare Scope go_scope.
Delimit Scope go_scope with go.
Notation "'do' x <- m ; k" := (bind m (fun x => k))
  (at level 10, x name, m at level 100, k at level 200) : go_scope.
Open Scope go_scope.

Definition panic {A} (p : PanicValue) : M A := fun σ => (Panic p, σ).

(** [defer func() { if p := recover(); p != nil { handler p } }()] around
    [m]: a panic of [m] is stopped and [handler] runs in its place. *)
Definition recovering {A} (m : M A) (handler : PanicValue -> M A) : M A :=
  fun σ =>
    match m σ with
    | (Ret a, σ') => (Ret a, σ')
    | (Panic p, σ') => handler p σ'
    end.

(** [defer fin()] around [m]: [fin] runs when [m] returns and when it
    panics; the panic then goes on, unless [fin] panics itself. *)
Definition deferring {A} (m : M A) (fin : M unit) : M A :=
  fun σ =>
    match m σ with
    | (Ret a, σ') =>
        match fin σ' with
        | (Ret _, σ'') => (Ret a, σ'')
        | (Panic q, σ'') => (Panic q, σ'')
        end
    | (Panic p, σ') =>
        match fin σ' with
        | (Ret _, σ'') => (Panic p, σ'')
        | (Panic q, σ'') => (Panic q, σ'')
        end
    end.

(** [&T{...}]: a new object, at a new address. *)
Definition alloc (o : Obj) : M nat :=
  fun σ => (Ret (length (heap σ)), {| resp := resp σ; heap := heap σ ++ [o] |}).

Definition load (a : nat) : M (option Obj) := fun σ => (Ret (heap σ !! a), σ).

Definition store (a : nat) (o : Obj) : M unit :=
  fun σ => (Ret tt, {| resp := resp σ; heap := <[a:=o]> (heap σ) |}).

Definition when (b : bool) (m : M unit) : M unit := if b then m else ret tt.

Fixpoint for_each {A} (l : list A) (f : A -> M unit) : M unit :=
  match l with
  | [] => ret tt
  | x :: l' => do _ <- f x; for_each l' f
  end.

Definition gets {A} (f : World -> A) : M A := fun σ => (Ret (f σ), σ).

Definition modify (f : World -> World) : M unit := fun σ => (Ret tt, f σ).

(** ** net/http, as the program uses it *)

(** The server's own response writer.  [WriteHeader] fixes the status
    and the headers sent; a later call changes nothing (the server only
    logs it).  [Write] first writes the header with status 200 when none
    was written. *)
Definition response_WriteHeader (code : Z) : M unit :=
  fun σ =>
    match status (resp σ) with
    | Some _ => (Ret tt, σ)
    | None =>
        (Ret tt, set_resp (fun ρ => {| header := header ρ; status := Some code;
                                       sent := header ρ; body := body ρ |}) σ)
    end.

Definition response_Write (b : bytes) : M unit :=
  do st <- gets (fun σ => status (resp σ));
  do _ <- when (bool_decide (st = None)) (response_WriteHeader 200);
  modify (set_resp (fun ρ => {| header := header ρ; status := status ρ;
                                sent := sent ρ; body := body ρ ++ b |})).

(** [http.ResponseWriter]: the two methods that differ between writers. *)
Record ResponseWriter : Type := mkResponseWriter {
  Write : bytes -> M unit;
  WriteHeader : Z -> M unit
}.

Definition response_writer : ResponseWriter :=
  {| Write := response_Write; WriteHeader := response_WriteHeader |}.

(** [http.Handler]: its [ServeHTTP]. *)
Abbreviation Handler := (ResponseWriter -> Request -> M unit).

Section Library.
Context {env : Env} {renv : RedirectEnv}.

(** [Header.Get], [Header.Set], [Header.Add], [Header.Del]. *)
Definition Header_Get (h : Header) (key : string) : string :=
  match h !! CanonicalHeaderKey key with
  | Some (v :: _) => v
  | _ => ""
  end.

Definition Header_Set (h : Header) (key value : string) : Header :=
  <[CanonicalHeaderKey key := [value]]> h.

Definition Header_Add (h : Header) (key value : string) : Header :=
  <[CanonicalHeaderKey key := default [] (h !! CanonicalHeaderKey key) ++ [value]]> h.

Definition Header_Del (h : Header) (key : string) : Header :=
  delete (CanonicalHeaderKey key) h.

(** The same on [w.Header()].  Every response writer of the program
    embeds the one it wraps and does not redefine [Header], so
    [w.Header()] is the header map of the server's response whatever
    writer [w] is. *)
Definition wHeader_Get (key : string) : M string :=
  gets (fun σ => Header_Get (header (resp σ)) key).

Definition wHeader_Set (key value : string) : M unit :=
  modify (set_resp (set_header (fun h => Header_Set h key value))).

Definition wHeader_Add (key value : string) : M unit :=
  modify (set_resp (set_header (fun h => Header_Add h key value))).

Definition wHeader_Del (key : string) : M unit :=
  modify (set_resp (set_header (fun h => Header_Del h key))).

(** The keys met by [for k := range w.Header()]. *)
Definition wHeader_keys : M (list string) :=
  gets (fun σ => (map_to_list (header (resp σ))).*1).

(** A script run against a writer. *)
Fixpoint exec (s : Script) (w : ResponseWriter) : M unit :=
  match s with
  | SDone => ret tt
  | SHeaderGet key cont => do v <- wHeader_Get key; exec (cont v) w
  | SHeaderSet key value cont => do _ <- wHeader_Set key value; exec cont w
  | SHeaderAdd key value cont => do _ <- wHeader_Add key value; exec cont w
  | SHeaderDel key cont => do _ <- wHeader_Del key; exec cont w
  | SHeaderKeys cont => do ks <- wHeader_keys; exec (cont ks) w
  | SWriteHeader code cont => do _ <- WriteHeader w code; exec cont w
  | SWrite b cont => do _ <- Write w b; exec cont w
  | SPanic p => panic p
  end.

(** [http.Error]: [Content-Type], the status, then the message and a
    line feed ([fmt.Fprintln]). *)
Definition http_Error (w : ResponseWriter) (error : string) (code : Z) : M unit :=
  do _ <- wHeader_Set "Content-Type" "text/plain; charset=utf-8";
  do _ <- WriteHeader w code;
  Write w (bytes_of (error +:+ LF)).

Definition http_NotFound (w : ResponseWriter) (r : Request) : M unit :=
  http_Error w "404 page not found" 404.

(** [http.ServeFile] on a writer. *)
Definition http_ServeFile_on (w : ResponseWriter) (r : Request) (name : string) : M unit :=
  exec (http_ServeFile r name) w.

(** [http.StripPrefix]. *)
Definition http_StripPrefix (prefix : string) (h : Handler) : Handler :=
  if String.eqb prefix "" then h
  else fun w r =>
    if strings_HasPrefix (URL_Path r) prefix then
      h w (with_URL_Path r (String.substring (String.length prefix)
                              (String.length (URL_Path r) - String.length prefix)
                              (URL_Path r)))
    else http_NotFound w r.

(** [http.FileSystem]: its [Open]; [None] is a failed open. *)
Definition FileSystem : Type := string -> M (option File).

Definition http_Dir (root : string) : FileSystem :=
  fun name => ret (os_Open root name).

(** [localRedirect] of [net/http/fs.go]. *)
Definition localRedirect (w : ResponseWriter) (r : Request) (newPath : string) : M unit :=
  let newPath :=
    if String.eqb (URL_RawQuery r) "" then newPath
    else newPath +:+ "?" +:+ URL_RawQuery r in
  do _ <- wHeader_Set "Location" newPath;
  WriteHeader w 301.

(** [serveFile] of [net/http/fs.go]: the order in which it opens files
    and answers.  The file is opened before anything is written; a
    directory is answered with its [index.html] when that opens. *)
Definition serveFile (w : ResponseWriter) (r : Request) (fs : FileSystem)
    (name : string) (redirect : bool) : M unit :=
  if strings_HasSuffix (URL_Path r) "/index.html" then localRedirect w r "./"
  else
    do f <- fs name;
    match f with
    | None => http_NotFound w r
    | Some d =>
        let url := URL_Path r in
        if redirect && IsDir d && negb (strings_HasSuffix url "/") then
          localRedirect w r (path_Base url +:+ "/")
        else if redirect && negb (IsDir d) && strings_HasSuffix url "/" then
          localRedirect w r ("../" +:+ path_Base url)
        else
          match d with
          | Regular c => exec (http_serveContent r name c) w
          | Directory entries =>
              do ff <- fs (name +:+ "/index.html");
              match ff with
              | Some (Regular c) => exec (http_serveContent r (name +:+ "/index.html") c) w
              | Some (Directory entries') => exec (http_dirList r entries') w
              | None => exec (http_dirList r entries) w
              end
          end
    end.

(** [http.FileServer(root)]. *)
Definition http_FileServer (root : FileSystem) : Handler :=
  fun w r =>
    let upath := URL_Path r in
    let upath := if strings_HasPrefix upath "/" then upath else "/" +:+ upath in
    serveFile w (with_URL_Path r upath) root (path_Clean upath) true.

(** [http.ServeMux], as in the releases of Go the program was written
    for: the patterns registered with [Handle], with their handlers.  A
    pattern that ends in a slash matches the paths it is a prefix of,
    another pattern matches itself; the longest matching pattern wins,
    and without a match the handler is [http.NotFound]. *)
Record ServeMux : Type := mkServeMux {
  ServeMux_m : list (string * Handler)
}.

(** [http.RedirectHandler(url, code)]. *)
Definition http_RedirectHandler (url : string) (code : Z) : Handler :=
  fun w r => exec (http_Redirect r url code) w.

(** [cleanPath] of [net/http/server.go]: the canonical form of a path,
    with the trailing slash that [path.Clean] removes put back. *)
Definition cleanPath (p : string) : string :=
  if String.eqb p "" then "/"
  else
    let p := if strings_HasPrefix p "/" then p else "/" +:+ p in
    let np := path_Clean p in
    if strings_HasSuffix p "/" && negb (String.eqb np "/") then np +:+ "/" else np.

(** [s[strings.Index(s, "/"):]]. *)
Fixpoint from_slash (s : string) : string :=
  match s with
  | EmptyString => EmptyString
  | String c s' => if Ascii.eqb c "/" then s else from_slash s'
  end.

(** The entries that [Handle] adds to [mux.m] by itself: for a
    registered pattern [/tree/], a permanent redirect from [/tree] to
    it, unless [/tree] is registered as well. *)
Definition ServeMux_implicit (m : list (string * Handler)) : list (string * Handler) :=
  flat_map (fun e =>
    let pattern := e.1 in
    let n := String.length pattern in
    let key := String.substring 0 (n - 1) pattern in
    if strings_HasSuffix pattern "/" && negb (existsb (fun e' => String.eqb e'.1 key) m)
    then
      let path := if strings_HasPrefix pattern "/" then pattern else from_slash pattern in
      [(key, http_RedirectHandler path 301)]
    else []) m.

(** [mux.hosts]: some registered pattern names a host. *)
Definition ServeMux_hosts (mux : ServeMux) : bool :=
  existsb (fun e => negb (strings_HasPrefix e.1 "/")) (ServeMux_m mux).

Definition pathMatch (pattern path : string) : bool :=
  if String.eqb pattern "" then false
  else if strings_HasSuffix pattern "/" then strings_HasPrefix path pattern
  else String.eqb pattern path.

Fixpoint ServeMux_match (entries : list (string * Handler)) (path : string)
    (best : option (string * Handler)) : option (string * Handler) :=
  match entries with
  | [] => best
  | (pattern, h) :: rest =>
      if pathMatch pattern path then
        match best with
        | Some (p, _) =>
            if (String.length p <? String.length pattern)%nat
            then ServeMux_match rest path (Some (pattern, h))
            else ServeMux_match rest path best
        | None => ServeMux_match rest path (Some (pattern, h))
        end
      else ServeMux_match rest path best
  end.

(** [mux.handler(host, path)]: a pattern with the host comes before the
    patterns without. *)
Definition ServeMux_handler (mux : ServeMux) (host path : string) : Handler :=
  let entries := ServeMux_m mux ++ ServeMux_implicit (ServeMux_m mux) in
  let found :=
    if ServeMux_hosts mux then ServeMux_match entries (host +:+ path) None else None in
  let found :=
    match found with
    | Some e => Some e
    | None => ServeMux_match entries path None
    end in
  match found with
  | Some (_, h) => h
  | None => http_NotFound
  end.

(** [mux.Handler(r)]: a request whose path is not in canonical form is
    answered with a permanent redirect to the canonical path, unless its
    method is [CONNECT]. *)
Definition ServeMux_Handler (mux : ServeMux) (r : Request) : Handler :=
  if negb (String.eqb (Method r) "CONNECT")
     && negb (String.eqb (cleanPath (URL_Path r)) (URL_Path r))
  then http_RedirectHandler (URL_String r (cleanPath (URL_Path r))) 301
  else ServeMux_handler mux (Host r) (URL_Path r).

(** What the server does with a handler: it runs it on the response of
    the request and, when the handler returns without having written
    the header, writes it with status 200 ([finishRequest]).  A panic
    that leaves the handler ends the connection with what was written. *)
Definition finishRequest : M unit :=
  do st <- gets (fun σ => status (resp σ));
  when (bool_decide (st = None)) (response_WriteHeader 200).

Definition serve (h : Handler) (r : Request) (σ : World) : World :=
  match h response_writer r σ with
  | (Ret _, σ') => (finishRequest σ').2
  | (Panic _, σ') => σ'
  end.

(** A handler that only drives the writer it is given. *)
Definition scripted (f : Request -> Script) : Handler :=
  fun w r => exec (f r) w.

(** [Keeps K s]: the script [s] never sets, adds to or deletes the
    header of canonical name [K]. *)
Inductive Keeps (K : string) : Script -> Prop :=
| Keeps_Done : Keeps K SDone
| Keeps_Get key cont :
    (forall v, Keeps K (cont v)) -> Keeps K (SHeaderGet key cont)
| Keeps_Set key value cont :
    CanonicalHeaderKey key <> K -> Keeps K cont -> Keeps K (SHeaderSet key value cont)
| Keeps_Add key value cont :
    CanonicalHeaderKey key <> K -> Keeps K cont -> Keeps K (SHeaderAdd key value cont)
| Keeps_Del key cont :
    CanonicalHeaderKey key <> K -> Keeps K cont -> Keeps K (SHeaderDel key cont)
| Keeps_Keys cont :
    (forall ks, Keeps K (cont ks)) -> Keeps K (SHeaderKeys cont)
| Keeps_WriteHeader code cont :
    Keeps K cont -> Keeps K (SWriteHeader code cont)
| Keeps_Write b cont :
    Keeps K cont -> Keeps K (SWrite b cont)
| Keeps_Panic p : Keeps K (SPanic p).

(** [Emits K s chunks]: the script [s] returns after having written the
    chunks [chunks], in this order, and keeps the header [K]. *)
Inductive Emits (K : string) : Script -> list bytes -> Prop :=
| Emits_Done : Emits K SDone []
| Emits_Get key cont chunks :
    (forall v, Emits K (cont v) chunks) -> Emits K (SHeaderGet key cont) chunks
| Emits_Set key value cont chunks :
    CanonicalHeaderKey key <> K -> Emits K cont chunks ->
    Emits K (SHeaderSet key value cont) chunks
| Emits_Add key value cont chunks :
    CanonicalHeaderKey key <> K -> Emits K cont chunks ->
    Emits K (SHeaderAdd key value cont) chunks
| Emits_Del key cont chunks :
    CanonicalHeaderKey key <> K -> Emits K cont chunks ->
    Emits K (SHeaderDel key cont) chunks
| Emits_Keys cont chunks :
    (forall ks, Emits K (cont ks) chunks) -> Emits K (SHeaderKeys cont) chunks
| Emits_WriteHeader code cont chunks :
    Emits K cont chunks -> Emits K (SWriteHeader code cont) chunks
| Emits_Write b cont chunks :
    Emits K cont chunks -> Emits K (SWrite b cont) (b :: chunks).

End Library.

(** ** goserve.go: the configuration *)

(** [type Headers map[string]string].  The program only ranges over it:
    the list holds its entries in the order of that iteration, which the
    Go runtime chooses. *)
Abbreviation Headers := (list (string * string)).

Record Listener : Type := mkListener {
  Listener_Protocol : string;
  Listener_Addr : string;
  Listener_CertFile : string;
  Listener_KeyFile : string;
  Listener_Headers : Headers;
  Listener_Gzip : bool
}.

Record Serve : Type := mkServe {
  Serve_Target : string;
  Serve_Path : string;
  Serve_Error : Z;
  Serve_PreventListing : bool;
  Serve_Headers : Headers
}.

Record Redirect : Type := mkRedirect {
  Redirect_From : string;
  Redirect_To : string;
  Redirect_With : Z
}.

Record Error : Type := mkError {
  Error_Status : Z;
  Error_Target : string
}.

Record ServerConfig : Type := mkServerConfig {
  Listeners : list Listener;
  Serves : list Serve;
  Errors : list Error;
  Redirects : list Redirect
}.

(** A check returns its verdict and the lines it logged. *)
Definition Checked : Type := bool * list string.

Section Program.
Context {env : Env} {renv : RedirectEnv}.

Definition Listener_check (l : Listener) (label : string) : Checked :=
  let ok := true in
  if String.eqb (Listener_Protocol l) "http" then
    if negb (String.eqb (Listener_CertFile l) "") || negb (String.eqb (Listener_KeyFile l) "")
    then (false, [label +:+ ": certificate supplied for non-HTTPS listener"])
    else (ok, [])
  else if String.eqb (Listener_Protocol l) "https" then
    let '(ok, log1) :=
      if os_Stat_IsNotExist (Listener_CertFile l)
      then (false, [label +:+ ": cert file `" +:+ Listener_CertFile l +:+ "` does not exist"])
      else (ok, []) in
    let '(ok, log2) :=
      if os_Stat_IsNotExist (Listener_KeyFile l)
      then (false, [label +:+ ": key file `" +:+ Listener_KeyFile l +:+ "` does not exist"])
      else (ok, []) in
    (ok, log1 ++ log2)
  else (false, [label +:+ ": invalid protocol `" +:+ Listener_Protocol l +:+ "`"]).

Definition Serve_check (s : Serve) (label : string) : Checked :=
  let ok := true in
  let '(ok, log1) :=
    if String.eqb (Serve_Path s) "" then (false, [label +:+ ": no path specified"])
    else (ok, []) in
  let '(ok, log2) :=
    if (Serve_Error s =? 0) && String.eqb (Serve_Target s) ""
    then (false, [label +:+ ": no target path specified"])
    else (ok, []) in
  let '(ok, log3) :=
    if negb (Serve_Error s =? 0) && negb (String.eqb (Serve_Target s) "")
    then (false, [label +:+ ": error specified with target path"])
    else (ok, []) in
  (ok, log1 ++ log2 ++ log3).

(** [Redirect.check].  The named result [ok] starts as [false] and is
    set to [false] for a missing path; the function ends with
    [return true]. *)
Definition Redirect_check (r : Redirect) (label : string) : Checked :=
  let ok := false in
  let '(ok, log1) :=
    if String.eqb (Redirect_From r) "" then (false, [label +:+ ": no `from` path"])
    else (ok, []) in
  let '(ok, log2) :=
    if String.eqb (Redirect_To r) "" then (false, [label +:+ ": no `to` path"])
    else (ok, []) in
  (true, log1 ++ log2).

Definition Error_check (e : Error) : bool := true.

(** [for i, x := range xs { ok = x.check(fmt.Sprintf(fmt, i)) && ok }]. *)
Fixpoint check_each {A} (check : A -> string -> Checked) (what : string)
    (i : nat) (xs : list A) (acc : Checked) : Checked :=
  match xs with
  | [] => acc
  | x :: xs' =>
      let '(ok, log) := acc in
      let '(ok', log') := check x (what +:+ " #" +:+ pretty i +:+ ":") in
      check_each check what (S i) xs' (ok' && ok, log ++ log')
  end.

Definition ServerConfig_check (c : ServerConfig) : Checked :=
  let acc := (true, []) in
  let acc :=
    if (length (Listeners c) =? 0)%nat then (false, acc.2 ++ ["No listeners defined!"])
    else acc in
  let acc := check_each Listener_check "Listener" 0 (Listeners c) acc in
  let acc :=
    if (length (Serves c) =? 0)%nat then (false, acc.2 ++ ["No serves defined!"])
    else acc in
  let acc := check_each Serve_check "Serve" 0 (Serves c) acc in
  check_each Redirect_check "Redirect" 0 (Redirects c) acc.

(** ** goserve.go: middleware *)

(** [CustomHeadersHandler]: each header is set when [Get] finds it
    empty, then the wrapped handler runs. *)
Definition CustomHeadersHandler (h : Handler) (headers : Headers) : Handler :=
  fun w r =>
    do _ <- for_each headers (fun kv =>
              do cur <- wHeader_Get kv.1;
              when (String.eqb cur "") (wHeader_Set kv.1 kv.2));
    h w r.

(** [gzip.Writer.Write] and [Close], on the writer allocated at [gz]
    that writes to [w]. *)
Definition gzip_Writer_Write (gz : nat) (w : ResponseWriter) (b : bytes) : M unit :=
  do o <- load gz;
  match o with
  | Some (OGzipWriter hist) =>
      do _ <- store gz (OGzipWriter (hist ++ b));
      for_each (gzip_write hist b) (Write w)
  | _ => panic (PStr "invalid memory address or nil pointer dereference")
  end.

Definition gzip_Writer_Close (gz : nat) (w : ResponseWriter) : M unit :=
  do o <- load gz;
  match o with
  | Some (OGzipWriter hist) => for_each (gzip_close hist) (Write w)
  | _ => panic (PStr "invalid memory address or nil pointer dereference")
  end.

(** [GzipResponseWriter.Write], for the writer allocated at [grw] with
    fields [Writer: gz] and [ResponseWriter: w]. *)
Definition GzipResponseWriter_Write (grw gz : nat) (w : ResponseWriter) (b : bytes) : M unit :=
  do o <- load grw;
  match o with
  | Some (OGzipResponseWriter gotContentType) =>
      do _ <- when (negb gotContentType) (
        do ct <- wHeader_Get "Content-Type";
        do _ <- when (String.eqb ct "")
                  (wHeader_Set "Content-Type" (http_DetectContentType b));
        store grw (OGzipResponseWriter true));
      gzip_Writer_Write gz w b
  | _ => panic (PStr "invalid memory address or nil pointer dereference")
  end.

Definition GzipResponseWriter (grw gz : nat) (w : ResponseWriter) : ResponseWriter :=
  {| Write := GzipResponseWriter_Write grw gz w; WriteHeader := WriteHeader w |}.

Definition GzipHandler (h : Handler) : Handler :=
  fun w r =>
    if negb (strings_Contains (Header_Get (Request_Header r) "Accept-Encoding") "gzip")
    then h w r
    else
      do _ <- wHeader_Set "Content-Encoding" "gzip";
      do gz <- alloc (OGzipWriter []);
      deferring
        (do grw <- alloc (OGzipResponseWriter false);
         h (GzipResponseWriter grw gz w) r)
        (gzip_Writer_Close gz w).

(** [PreventListingDir.Open], for the directory allocated at [dir]. *)
Definition PreventListingDir_Open (dir : nat) (root : string) : FileSystem :=
  fun name =>
    do f <- http_Dir root name;
    match f with
    | None => panic (PPtr dir)
    | Some _ => ret f
    end.

(** ** goserve.go: handlers *)

Definition Serve_handler (s : Serve) : Handler :=
  let h : Handler :=
    if 0 <? Serve_Error s then
      let errStatus := Serve_Error s in
      fun w r => http_Error w (http_StatusText errStatus) errStatus
    else if Serve_PreventListing s then
      let target := Serve_Target s in
      fun w r =>
        do d <- alloc (OPreventListingDir target);
        let h := http_FileServer (PreventListingDir_Open d target) in
        recovering (h w r)
          (fun p =>
             if PanicValue_eqb p (PPtr d)
             then http_Error w (http_StatusText 403) 403
             else panic p)
    else http_FileServer (http_Dir (Serve_Target s)) in
  let h :=
    if (0 <? length (Serve_Headers s))%nat
    then CustomHeadersHandler h (Serve_Headers s)
    else h in
  http_StripPrefix (Serve_Path s) h.

Definition Error_handler (e : Error) : Handler :=
  fun w r =>
    do _ <- wHeader_Del "Content-Type";
    http_ServeFile_on w r (Error_Target e).

(** ** goserve.go: the interceptor *)

Record StaticServeMux : Type := mkStaticServeMux {
  StaticServeMux_ServeMux : ServeMux;
  errors : gmap Z Handler
}.

Definition statusResponseWriter_WriteHeader (w : ResponseWriter) (Status : Z)
    (status : Z) : M unit :=
  if Status <? 0 then ret tt
  else if 0 <? Status then WriteHeader w Status
  else WriteHeader w status.

Definition statusResponseWriter (w : ResponseWriter) (Status : Z) : ResponseWriter :=
  {| Write := Write w; WriteHeader := statusResponseWriter_WriteHeader w Status |}.

Definition intercept (s : StaticServeMux) (status : Z) (w : ResponseWriter)
    (req : Request) : M bool :=
  match errors s !! status with
  | Some h =>
      do _ <- h (statusResponseWriter w status) req;
      ret true
  | None =>
      if status <? 400 then ret false
      else
        do _ <- http_Error w (http_StatusText status) status;
        ret true
  end.

(** [interceptResponseWriter.WriteHeader], for the writer allocated at
    [h] with fields [ResponseWriter: w], [r] and [m]. *)
Definition interceptResponseWriter_WriteHeader (h : nat) (w : ResponseWriter)
    (r : Request) (m : StaticServeMux) (status : Z) : M unit :=
  do intercepted <- intercept m status w r;
  if intercepted then panic (PPtr h)
  else WriteHeader w status.

Definition interceptResponseWriter (h : nat) (w : ResponseWriter) (r : Request)
    (m : StaticServeMux) : ResponseWriter :=
  {| Write := Write w; WriteHeader := interceptResponseWriter_WriteHeader h w r m |}.

Definition interceptHandler (s : StaticServeMux) (handler : Handler) : Handler :=
  fun w r =>
    do irw <- alloc OInterceptResponseWriter;
    recovering (handler (interceptResponseWriter irw w r s) r)
      (fun p => if PanicValue_eqb p (PPtr irw) then ret tt else panic p).

Definition StaticServeMux_ServeHTTP (s : StaticServeMux) : Handler :=
  fun w r =>
    if String.eqb (RequestURI r) "*" then
      do _ <- when (ProtoAtLeast r 1 1) (wHeader_Set "Connection" "close");
      WriteHeader w 400
    else
      let h := ServeMux_Handler (StaticServeMux_ServeMux s) r in
      let h := interceptHandler s h in
      h w r.

(** [Unintercepted s script]: every status that [script] sets is below
    400 and has no override in [s], so the interceptor passes it on. *)
Inductive Unintercepted (s : StaticServeMux) : Script -> Prop :=
| Unintercepted_Done : Unintercepted s SDone
| Unintercepted_Get key cont :
    (forall v, Unintercepted s (cont v)) -> Unintercepted s (SHeaderGet key cont)
| Unintercepted_Set key value cont :
    Unintercepted s cont -> Unintercepted s (SHeaderSet key value cont)
| Unintercepted_Add key value cont :
    Unintercepted s cont -> Unintercepted s (SHeaderAdd key value cont)
| Unintercepted_Del key cont :
    Unintercepted s cont -> Unintercepted s (SHeaderDel key cont)
| Unintercepted_Keys cont :
    (forall ks, Unintercepted s (cont ks)) -> Unintercepted s (SHeaderKeys cont)
| Unintercepted_WriteHeader code cont :
    errors s !! code = None -> code < 400 ->
    Unintercepted s cont -> Unintercepted s (SWriteHeader code cont)
| Unintercepted_Write b cont :
    Unintercepted s cont -> Unintercepted s (SWrite b cont)
| Unintercepted_Panic p : Unintercepted s (SPanic p).

(** A handler that runs [pre], sets the status [c] and goes on with
    [rest]. *)
Definition sets_status (pre : Handler) (c : Z) (rest : Handler) : Handler :=
  fun w r =>
    do _ <- pre w r;
    do _ <- WriteHeader w c;
    rest w r.

(** The handler [main] gives to a listener. *)
Definition listener_handler (listener : Listener) (mux : StaticServeMux) : Handler :=
  let h := StaticServeMux_ServeHTTP mux in
  let h :=
    if (0 <? length (Listener_Headers listener))%nat
    then CustomHeadersHandler h (Listener_Headers listener)
    else h in
  let h := if Listener_Gzip listener then GzipHandler h else h in
  h.

End Program.

(** [header_kept K v σ]: the header [K] has the values [v] in the header
    map, and in the headers sent when the header has been written. *)
Definition header_kept (K : string) (v : option (list string)) (σ : World) : Prop :=
  header (resp σ) !! K = v
  /\ (status (resp σ) = None \/ sent (resp σ) !! K = v).

(** [header_sent st hs σ]: the header has been written, with status
    [st] and headers [hs]. *)
Definition header_sent (st : Z) (hs : Header) (σ : World) : Prop :=
  status (resp σ) = Some st /\ sent (resp σ) = hs.

(** From a world in [P], the computation [mx] ends in a world in [Q],
    whether it returns or panics. *)
Definition hoare {A} (P : World -> Prop) (mx : M A) (Q : World -> Prop) : Prop :=
  forall σ, P σ -> Q (mx σ).2.

(** The methods of [w] keep [J]. *)
Definition writer_keeps (J : World -> Prop) (w : ResponseWriter) : Prop :=
  (forall b σ, J σ -> J (Write w b σ).2)
  /\ (forall code σ, J σ -> J (WriteHeader w code σ).2).

(** The request that [http.StripPrefix(prefix, h)] hands to [h] when the
    path has the prefix, and the path [http.FileServer] then looks up. *)
Definition stripped_request (prefix : string) (r : Request) : Request :=
  if String.eqb prefix "" then r
  else with_URL_Path r (String.substring (String.length prefix)
                          (String.length (URL_Path r) - String.length prefix)
                          (URL_Path r)).

Definition file_server_path (r : Request) : string :=
  if strings_HasPrefix (URL_Path r) "/" then URL_Path r else "/" +:+ URL_Path r.

(** The handler [h] keeps [J] on every writer that keeps it. *)
Definition handler_keeps (J : World -> Prop) (h : Handler) : Prop :=
  forall w r, writer_keeps J w -> hoare J (h w r) J.

(** What a [gzip.Writer] that has been given [hist] writes to the
    underlying writer when it is given [chunks] one by one and is then
    closed. *)
Fixpoint gzip_stream {env : Env} (hist : bytes) (chunks : list bytes) : list bytes :=
  match chunks with
  | [] => gzip_close hist
  | b :: rest => gzip_write hist b ++ gzip_stream (hist ++ b) rest
  end.

(** ** The earlier generation, where it differs *)

Module Gen1.
Section Program.
Context {env : Env}.

Definition Redirect_check (r : Redirect) (label : string) : Checked :=
  let ok := false in
  let '(ok, log1) :=
    if String.eqb (Redirect_From r) "" then (false, [label +:+ ": no `from` path"])
    else (ok, []) in
  let '(ok, log2) :=
    if String.eqb (Redirect_To r) "" then (false, [label +:+ ": no `to` path"])
    else (ok, []) in
  (true, log1 ++ log2).

(** [NoHeaderResponseWriter]: [WriteHeader] does nothing. *)
Definition NoHeaderResponseWriter (w : ResponseWriter) : ResponseWriter :=
  {| Write := Write w; WriteHeader := fun status => ret tt |}.

Definition Error_handler (e : Error) : Handler :=
  fun w r =>
    do ks <- wHeader_keys;
    do _ <- for_each ks wHeader_Del;
    do _ <- WriteHeader w (Error_Status e);
    http_ServeFile_on (NoHeaderResponseWriter w) r (Error_Target e).

(** [ErrorHandlingResponseWriter.WriteHeader], for the writer allocated
    at [h]. *)
Definition ErrorHandlingResponseWriter_WriteHeader (h : nat) (w : ResponseWriter)
    (r : Request) (ErrorHandlers : gmap Z Handler) (status : Z) : M unit :=
  match ErrorHandlers !! status with
  | Some handler =>
      do _ <- handler w r;
      panic (PPtr h)
  | None => WriteHeader w status
  end.

Definition ErrorHandlingResponseWriter (h : nat) (w : ResponseWriter) (r : Request)
    (ErrorHandlers : gmap Z Handler) : ResponseWriter :=
  {| Write := Write w;
     WriteHeader := ErrorHandlingResponseWriter_WriteHeader h w r ErrorHandlers |}.

Definition ErrorHandler (handler : Handler) (errorHandlers : gmap Z Handler) : Handler :=
  fun w r =>
    do ehrw <- alloc OErrorHandlingResponseWriter;
    recovering (handler (ErrorHandlingResponseWriter ehrw w r errorHandlers) r)
      (fun p => if PanicValue_eqb p (PPtr ehrw) then ret tt else panic p).

End Program.
End Gen1.

(** ** goserve.go: defaults *)

(** [Listener.sanitise], [Serve.sanitise], [Redirect.sanitise] and
    [Error.sanitise] have pointer receivers: each is given as the
    receiver after the call, with the lines it logged. *)
Definition Listener_sanitise (l : Listener) : Listener * list string :=
  let l :=
    if String.eqb (Listener_Protocol l) ""
    then {| Listener_Protocol := "http"; Listener_Addr := Listener_Addr l;
            Listener_CertFile := Listener_CertFile l; Listener_KeyFile := Listener_KeyFile l;
            Listener_Headers := Listener_Headers l; Listener_Gzip := Listener_Gzip l |}
    else l in
  let l :=
    if String.eqb (Listener_Addr l) ""
    then {| Listener_Protocol := Listener_Protocol l; Listener_Addr := ":http";
            Listener_CertFile := Listener_CertFile l; Listener_KeyFile := Listener_KeyFile l;
            Listener_Headers := Listener_Headers l; Listener_Gzip := Listener_Gzip l |}
    else l in
  (l, []).

Definition Serve_sanitise (s : Serve) : Serve * list string :=
  let s :=
    if String.eqb (Serve_Path s) ""
    then {| Serve_Target := Serve_Target s; Serve_Path := "/"; Serve_Error := Serve_Error s;
            Serve_PreventListing := Serve_PreventListing s; Serve_Headers := Serve_Headers s |}
    else s in
  (s, []).

Definition Redirect_sanitise (r : Redirect) : Redirect * list string :=
  if Redirect_With r =? 0 then
    let r := {| Redirect_From := Redirect_From r; Redirect_To := Redirect_To r;
                Redirect_With := 301 |} in
    (r, ["Defaulting status code " +:+ pretty (Redirect_With r) +:+ " for redirect "
         +:+ Redirect_From r +:+ LF])
  else (r, []).

Definition Error_sanitise (e : Error) : Error * list string := (e, []).

(** [for _, x := range xs { x.sanitise() }].  The loop variable [x]
    holds a copy of the element: the method is called on the variable
    and changes the variable, which is dropped at the end of the
    iteration; nothing is stored back into the slice.  The result is the
    slice after the loop, with the lines logged. *)
Fixpoint range_copy {A} (method : A -> A * list string) (xs : list A)
    : list A * list string :=
  match xs with
  | [] => ([], [])
  | x :: xs' =>
      let '(_, log) := method x in
      let '(rest, log') := range_copy method xs' in
      (x :: rest, log ++ log')
  end.

(** [ServerConfig.sanitise]: the configuration as the caller holds it
    after the call, and the lines logged. *)
Definition ServerConfig_sanitise (c : ServerConfig) : ServerConfig * list string :=
  let '(ls, log1) := range_copy Listener_sanitise (Listeners c) in
  let '(ss, log2) := range_copy Serve_sanitise (Serves c) in
  let '(rs, log3) := range_copy Redirect_sanitise (Redirects c) in
  let '(es, log4) := range_copy Error_sanitise (Errors c) in
  ({| Listeners := ls; Serves := ss; Errors := es; Redirects := rs |},
   log1 ++ log2 ++ log3 ++ log4).

(** [defaultServerConfig], for the values of the flag [-addr] and of
    the first argument. *)
Definition defaultServerConfig (defaultAddr arg0 : string) : ServerConfig :=
  let target := arg0 in
  let target := if String.eqb target "" then "." else target in
  {| Listeners := [ {| Listener_Protocol := "http"; Listener_Addr := defaultAddr;
                       Listener_CertFile := ""; Listener_KeyFile := "";
                       Listener_Headers := []; Listener_Gzip := false |} ];
     Serves := [ {| Serve_Target := target; Serve_Path := "/"; Serve_Error := 0;
                    Serve_PreventListing := false; Serve_Headers := [] |} ];
     Errors := [];
     Redirects := [] |}.

(** ** goserve.go: start-up *)

(** Start-up code runs before any request: it returns or panics, and
    has no response to write to. *)
Definition obind {A B} (o : Outcome A) (k : A -> Outcome B) : Outcome B :=
  match o with
  | Ret a => k a
  | Panic p => Panic p
  end.

(** [for _, x := range xs { step(x) }] on a state that [step] updates. *)
Fixpoint ofold {A S} (step : S -> A -> Outcome S) (xs : list A) (s : S) : Outcome S :=
  match xs with
  | [] => Ret s
  | x :: xs' => obind (step s x) (ofold step xs')
  end.

Definition NewStaticServeMux : StaticServeMux :=
  {| StaticServeMux_ServeMux := {| ServeMux_m := [] |}; errors := ∅ |}.

(** [HandleError].  The handlers given to it are not nil, so
    [s.errors[status] != nil] holds when the status has an entry. *)
Definition HandleError (s : StaticServeMux) (status : Z) (handler : Handler)
    : Outcome StaticServeMux :=
  match errors s !! status with
  | Some _ => Panic (PStr "Handler for error already registered")
  | None =>
      Ret {| StaticServeMux_ServeMux := StaticServeMux_ServeMux s;
             errors := <[status := handler]> (errors s) |}
  end.

(** [http.ServeMux.Handle]: it panics for the empty pattern and for a
    pattern that was registered before. *)
Definition ServeMux_Handle (mux : ServeMux) (pattern : string) (handler : Handler)
    : Outcome ServeMux :=
  if String.eqb pattern "" then Panic (PStr ("http: invalid pattern " +:+ pattern))
  else if existsb (fun e => String.eqb e.1 pattern) (ServeMux_m mux)
  then Panic (PStr ("http: multiple registrations for " +:+ pattern))
  else Ret {| ServeMux_m := ServeMux_m mux ++ [(pattern, handler)] |}.

(** [mux.Handle] on a [StaticServeMux], which embeds the [ServeMux]. *)
Definition StaticServeMux_Handle (s : StaticServeMux) (pattern : string) (handler : Handler)
    : Outcome StaticServeMux :=
  obind (ServeMux_Handle (StaticServeMux_ServeMux s) pattern handler)
    (fun mux => Ret {| StaticServeMux_ServeMux := mux; errors := errors s |}).

Section Startup.
Context {env : Env} {renv : RedirectEnv}.

(** [Redirect.handler]: [http.RedirectHandler(r.To, r.With)]. *)
Definition Redirect_handler (r : Redirect) : Handler :=
  scripted (fun req => http_Redirect req (Redirect_To r) (Redirect_With r)).

(** [main], from the configuration that was read to the verdict on it:
    [cfg.sanitise()], then [cfg.check()]. *)
Definition main_check (cfg : ServerConfig) : Checked :=
  let '(cfg, log) := ServerConfig_sanitise cfg in
  let '(ok, log') := ServerConfig_check cfg in
  (ok, log ++ log').

(** [main], "Setup handlers": the mux it builds from a configuration. *)
Definition main_mux (cfg : ServerConfig) : Outcome StaticServeMux :=
  let mux := NewStaticServeMux in
  obind (ofold (fun mux e => HandleError mux (Error_Status e) (Error_handler e))
           (Errors cfg) mux) (fun mux =>
  obind (ofold (fun mux serve =>
                  StaticServeMux_Handle mux (Serve_Path serve) (Serve_handler serve))
           (Serves cfg) mux) (fun mux =>
  ofold (fun mux redirect =>
           StaticServeMux_Handle mux (Redirect_From redirect) (Redirect_handler redirect))
    (Redirects cfg) mux)).

End Startup.

(** The patterns [main] registers, in the order of registration. *)
Definition main_patterns (cfg : ServerConfig) : list string :=
  map Serve_Path (Serves cfg) ++ map Redirect_From (Redirects cfg).

(** What [main] needs of a configuration to register its handlers:
    no status with two error pages, no pattern registered twice, no
    empty pattern. *)
Definition main_registrable (cfg : ServerConfig) : Prop :=
  NoDup (map Error_Status (Errors cfg))
  /\ NoDup (main_patterns cfg)
  /\ ~ In "" (main_patterns cfg).

(** ** Predicates on worlds and scripts *)

(** [J] does not look at the header map or at the heap. *)
Definition header_blind (J : World -> Prop) : Prop :=
  (forall f σ, J σ -> J (set_resp (set_header f) σ))
  /\ (forall ρ hp hp', J {| resp := ρ; heap := hp |} -> J {| resp := ρ; heap := hp' |}).

(** [Codes P s]: every status that the script [s] sets satisfies [P]. *)
Inductive Codes (P : Z -> Prop) : Script -> Prop :=
| Codes_Done : Codes P SDone
| Codes_Get key cont :
    (forall v, Codes P (cont v)) -> Codes P (SHeaderGet key cont)
| Codes_Set key value cont :
    Codes P cont -> Codes P (SHeaderSet key value cont)
| Codes_Add key value cont :
    Codes P cont -> Codes P (SHeaderAdd key value cont)
| Codes_Del key cont :
    Codes P cont -> Codes P (SHeaderDel key cont)
| Codes_Keys cont :
    (forall ks, Codes P (cont ks)) -> Codes P (SHeaderKeys cont)
| Codes_WriteHeader code cont :
    P code -> Codes P cont -> Codes P (SWriteHeader code cont)
| Codes_Write b cont :
    Codes P cont -> Codes P (SWrite b cont)
| Codes_Panic p : Codes P (SPanic p).

(** One iteration of the loop of [CustomHeadersHandler], on the header
    map. *)
Definition set_if_empty {env : Env} (hd : Header) (kv : string * string) : Header :=
  if String.eqb (Header_Get hd kv.1) "" then Header_Set hd kv.1 kv.2 else hd.

(** The names in the header map are canonical, as [Set], [Add] and the
    server leave them. *)
Definition canonical_keys {env : Env} (hd : Header) : Prop :=
  forall k, is_Some (hd !! k) -> CanonicalHeaderKey k = k.

(** The computation [mx] neither reads nor changes the heap. *)
Definition heap_free {A} (mx : M A) : Prop :=
  forall ρ, exists o ρ',
    forall hp, mx {| resp := ρ; heap := hp |} = (o, {| resp := ρ'; heap := hp |}).

(** [SetsFirst code s]: the first thing [s] does besides reading and
    editing headers is to set the status [code]. *)
Inductive SetsFirst (code : Z) : Script -> Prop :=
| SetsFirst_WriteHeader cont : SetsFirst code (SWriteHeader code cont)
| SetsFirst_Get key cont :
    (forall v, SetsFirst code (cont v)) -> SetsFirst code (SHeaderGet key cont)
| SetsFirst_Set key value cont :
    SetsFirst code cont -> SetsFirst code (SHeaderSet key value cont)
| SetsFirst_Add key value cont :
    SetsFirst code cont -> SetsFirst code (SHeaderAdd key value cont)
| SetsFirst_Del key cont :
    SetsFirst code cont -> SetsFirst code (SHeaderDel key cont)
| SetsFirst_Keys cont :
    (forall ks, SetsFirst code (cont ks)) -> SetsFirst code (SHeaderKeys cont).

(** ** The earlier generation: start-up *)

Module Gen1Main.
Section Program.
Context {env : Env}.

(** [main]: [errorHandlers[e.Status] = e.handler()] for each configured
    error, in order. *)
Definition errorHandlers (errs : list Error) : gmap Z Handler :=
  foldl (fun m e => <[Error_Status e := Gen1.Error_handler e]> m) ∅ errs.

(** [main]: the handler registered for a serve with the given target
    and path. *)
Definition serve_handler (target path : string) (errorHandlers : gmap Z Handler) : Handler :=
  let fh := http_FileServer (http_Dir target) in
  let eh := Gen1.ErrorHandler fh errorHandlers in
  http_StripPrefix path eh.

End Program.
End Gen1Main.

(** ** A small environment and small inputs, to run the program on *)

Definition sample_StatusText (c : Z) : string :=
  if c =? 200 then "OK"
  else if c =? 400 then "Bad Request"
  else if c =? 403 then "Forbidden"
  else if c =? 404 then "Not Found"
  else if c =? 500 then "Internal Server Error"
  else "".

(** [path.Clean] and [path.Base], on the elements of the path: empty
    elements and [.] are dropped, [..] drops the element before it. *)
Fixpoint path_elements (s cur : string) : list string :=
  match s with
  | EmptyString => [cur]
  | String c s' =>
      if Ascii.eqb c "/" then cur :: path_elements s' ""
      else path_elements s' (cur +:+ String c EmptyString)
  end.

Definition sample_Clean (p : string) : string :=
  let rooted := strings_HasPrefix p "/" in
  let stack :=
    foldl (fun st e =>
             if String.eqb e "" || String.eqb e "." then st
             else if String.eqb e ".." then
               match st with
               | top :: rest => if String.eqb top ".." then e :: st else rest
               | [] => if rooted then [] else [e]
               end
             else e :: st)
      [] (path_elements p "") in
  let out := (if rooted then "/" else "") +:+ String.concat "/" (rev stack) in
  if String.eqb out "" then "." else out.

Definition sample_Base (p : string) : string :=
  match rev (filter (fun e => e <> "") (path_elements p "")) with
  | e :: _ => e
  | [] => if String.eqb p "" then "." else "/"
  end.

(** Under [/srv]: [a.txt], and the directory [docs] without index page. *)
Definition sample_Open (root name : string) : option File :=
  if negb (String.eqb root "/srv") then None
  else if String.eqb name "/" then Some (Directory ["a.txt"; "docs"])
  else if String.eqb name "/a.txt" then Some (Regular (bytes_of "hello"))
  else if String.eqb name "/docs" then Some (Directory ["b.txt"])
  else None.

Definition sample_serveContent (r : Request) (name : string) (c : bytes) : Script :=
  SHeaderGet "Content-Type" (fun ct =>
    let send := SWriteHeader 200 (SWrite c SDone) in
    if String.eqb ct "" then SHeaderSet "Content-Type" "text/plain; charset=utf-8" send
    else send).

Definition sample_dirList (r : Request) (entries : list string) : Script :=
  SHeaderSet "Content-Type" "text/html; charset=utf-8"
    (SWrite (bytes_of (String.concat LF entries)) SDone).

Definition sample_ServeFile (r : Request) (name : string) : Script :=
  if String.eqb name "/srv/404.html"
  then sample_serveContent r name (bytes_of "<h1>gone</h1>")
  else SHeaderSet "Content-Type" "text/plain; charset=utf-8"
         (SWriteHeader 404 (SWrite (bytes_of ("404 page not found" +:+ LF)) SDone)).

(** A stand-in for gzip: nothing is written before [Close], which writes
    the two magic bytes and then everything it was given. *)
Definition sample_magic : bytes := [Byte.x1f; Byte.x8b].

Definition sample_gunzip (b : bytes) : option bytes :=
  match b with
  | Byte.x1f :: Byte.x8b :: rest => Some rest
  | _ => None
  end.

Definition sample_env : Env := {|
  http_StatusText := sample_StatusText;
  CanonicalHeaderKey := fun key => key;
  http_DetectContentType := fun _ => "text/plain; charset=utf-8";
  path_Clean := sample_Clean;
  path_Base := sample_Base;
  os_Open := sample_Open;
  os_Stat_IsNotExist := fun _ => true;
  http_ServeFile := sample_ServeFile;
  http_serveContent := sample_serveContent;
  http_dirList := sample_dirList;
  gzip_write := fun _ _ => [];
  gzip_close := fun hist => [sample_magic ++ hist]
|}.

Definition sample_request (path : string) : Request :=
  {| Method := "GET"; Host := "localhost";
     RequestURI := path; URL_Path := path; URL_RawQuery := "";
     ProtoMajor := 1; ProtoMinor := 1; Request_Header := ∅ |}.

Definition sample_gzip_request (path : string) : Request :=
  {| Method := "GET"; Host := "localhost";
     RequestURI := path; URL_Path := path; URL_RawQuery := "";
     ProtoMajor := 1; ProtoMinor := 1;
     Request_Header := {[ "Accept-Encoding" := ["gzip, deflate"] ]} |}.

Definition no_routes : ServeMux := {| ServeMux_m := [] |}.

(** No override registered. *)
Definition sample_mux : StaticServeMux :=
  {| StaticServeMux_ServeMux := no_routes; errors := ∅ |}.

(** The page [/srv/404.html] registered for status 404. *)
Definition sample_mux_404 : StaticServeMux :=
  {| StaticServeMux_ServeMux := no_routes;
     errors := {[ 404 := Error_handler (env := sample_env)
                           {| Error_Status := 404; Error_Target := "/srv/404.html" |} ]} |}.

(** An original handler: it queues [X-Stale: 1], sets the status and
    then writes [late]. *)
Definition sample_pre : Handler :=
  fun w r => wHeader_Set (env := sample_env) "X-Stale" "1".

Definition sample_rest : Handler :=
  fun w r => Write w (bytes_of "late").

(** The world in which the original handler has queued [X-Stale: 1] and
    a [Content-Type], and sets the status. *)
Definition sample_queued_world : World :=
  {| resp := {| header := {[ "X-Stale" := ["1"]; "Content-Type" := ["text/stale"] ]};
                status := None; sent := ∅; body := [] |};
     heap := [OInterceptResponseWriter] |}.

(** The world in which the header has been written with status 200. *)
Definition sample_sent_world : World :=
  {| resp := {| header := ∅; status := Some 200; sent := ∅; body := [] |};
     heap := [OInterceptResponseWriter] |}.


(** A serve and a listener that both configure [X-Frame-Options]. *)
Definition sample_serve : Serve :=
  {| Serve_Target := "/srv"; Serve_Path := "/"; Serve_Error := 0;
     Serve_PreventListing := true;
     Serve_Headers := [("X-Frame-Options", "SAMEORIGIN")] |}.

Definition sample_listener (gz : bool) : Listener :=
  {| Listener_Protocol := "http"; Listener_Addr := ":8080";
     Listener_CertFile := ""; Listener_KeyFile := "";
     Listener_Headers := [("X-Frame-Options", "DENY")]; Listener_Gzip := gz |}.

Definition sample_mux_serve : StaticServeMux :=
  {| StaticServeMux_ServeMux :=
       {| ServeMux_m := [("/", Serve_handler (env := sample_env) sample_serve)] |};
     errors := ∅ |}.

(** The same tree served without guard and without headers. *)
Definition sample_plain_serve : Serve :=
  {| Serve_Target := "/srv"; Serve_Path := "/"; Serve_Error := 0;
     Serve_PreventListing := false; Serve_Headers := [] |}.

Definition sample_mux_plain : StaticServeMux :=
  {| StaticServeMux_ServeMux :=
       {| ServeMux_m := [("/", Serve_handler (env := sample_env) sample_plain_serve)] |};
     errors := ∅ |}.


(** A handler that serves the file [a.txt]. *)
Definition sample_file_handler (r : Request) : Script :=
  sample_serveContent r "/a.txt" (bytes_of "hello").

(** Nothing before the status is set. *)
Definition no_pre : Handler := fun w r => ret tt.

(** A serve with a negative error status and no target. *)
Definition sample_negative_serve : Serve :=
  {| Serve_Target := ""; Serve_Path := "/old/"; Serve_Error := -1;
     Serve_PreventListing := false; Serve_Headers := [] |}.

(** [http.Redirect], without the note it writes for a [GET]. *)
Definition sample_redirect_env : RedirectEnv :=
  {| http_Redirect := fun r url code => SHeaderSet "Location" url (SWriteHeader code SDone);
     URL_String := fun r p =>
       if String.eqb (URL_RawQuery r) "" then p else p +:+ "?" +:+ URL_RawQuery r |}.

(** The default configuration, with a redirect that has no [from]. *)
Definition sample_config_empty_from : ServerConfig :=
  {| Listeners := Listeners (defaultServerConfig ":8080" "");
     Serves := Serves (defaultServerConfig ":8080" "");
     Errors := [];
     Redirects := [ {| Redirect_From := ""; Redirect_To := "/new"; Redirect_With := 301 |} ] |}.

(** An environment whose [serveContent] refuses the range asked for. *)
Definition sample_env_416 : Env := {|
  http_StatusText := fun c => if c =? 416 then "Requested Range Not Satisfiable"
                              else sample_StatusText c;
  CanonicalHeaderKey := fun key => key;
  http_DetectContentType := fun _ => "text/plain; charset=utf-8";
  path_Clean := sample_Clean;
  path_Base := sample_Base;
  os_Open := sample_Open;
  os_Stat_IsNotExist := fun _ => true;
  http_ServeFile := sample_ServeFile;
  http_serveContent := fun r name c =>
    SHeaderSet "Content-Range" "bytes */5"
      (SWriteHeader 416 (SWrite (bytes_of "invalid range") SDone));
  http_dirList := sample_dirList;
  gzip_write := fun _ _ => [];
  gzip_close := fun hist => [sample_magic ++ hist]
|}.

Definition sample_mux_serve_416 : StaticServeMux :=
  {| StaticServeMux_ServeMux :=
       {| ServeMux_m := [("/", Serve_handler (env := sample_env_416) sample_serve)] |};
     errors := ∅ |}.

(** A world in which [GzipHandler] has allocated its two writers. *)
Definition sample_gzip_world : World :=
  {| resp := fresh_response; heap := [OGzipWriter []; OGzipResponseWriter false] |}.

(** A handler that writes and then panics. *)
Definition sample_failing_handler (r : Request) : Script :=
  SWrite (bytes_of "par") (SPanic (PStr "boom")).

(** A route whose handler answers 404 and goes on writing. *)
Definition sample_handler_404 (r : Request) : Script :=
  SWriteHeader 404 (SWrite (bytes_of "late") SDone).

Definition sample_mux_scripted_404 : StaticServeMux :=
  {| StaticServeMux_ServeMux :=
       {| ServeMux_m := [("/", scripted (env := sample_env) sample_handler_404)] |};
     errors := ∅ |}.

(** A serve that answers every request under [/old/] with 403, and the
    same with 200. *)
Definition sample_error_serve (code : Z) : Serve :=
  {| Serve_Target := ""; Serve_Path := "/old/"; Serve_Error := code;
     Serve_PreventListing := false; Serve_Headers := [("X-Frame-Options", "DENY")] |}.

Definition sample_mux_error_serve (code : Z) : StaticServeMux :=
  {| StaticServeMux_ServeMux :=
       {| ServeMux_m := [("/old/", Serve_handler (env := sample_env)
                                     (sample_error_serve code))] |};
     errors := ∅ |}.

(** A handler that answers 404 with a text of its own. *)
Definition sample_own_404 (r : Request) : Script :=
  SWriteHeader 404 (SWrite (bytes_of "nothing here") SDone).

(** Two pages configured for 404, and one for 500. *)
Definition sample_errors : list Error :=
  [ {| Error_Status := 404; Error_Target := "/srv/first.html" |};
    {| Error_Status := 500; Error_Target := "/srv/500.html" |};
    {| Error_Status := 404; Error_Target := "/srv/404.html" |} ].

(** The page [/srv/404.html] configured for 404. *)
Definition sample_errors_404 : list Error :=
  [ {| Error_Status := 404; Error_Target := "/srv/404.html" |} ].




(** The default configuration, with a redirect that has no status. *)
Definition sample_config_redirect : ServerConfig :=
  {| Listeners := Listeners (defaultServerConfig ":8080" "");
     Serves := Serves (defaultServerConfig ":8080" "");
     Errors := [];
     Redirects := [ {| Redirect_From := "/old"; Redirect_To := "/new"; Redirect_With := 0 |} ] |}.

(** * Properties *)

(** ** Configuration checks *)

Lemma Redirect_check_fst (r : Redirect) (label : string) :
  (Redirect_check r label).1 = true.
Proof.
  unfold Redirect_check.
  destruct (String.eqb (Redirect_From r) ""), (String.eqb (Redirect_To r) ""); reflexivity.
Qed.

Lemma Gen1_Redirect_check_fst (r : Redirect) (label : string) :
  (Gen1.Redirect_check r label).1 = true.
Proof.
  unfold Gen1.Redirect_check.
  destruct (String.eqb (Redirect_From r) ""), (String.eqb (Redirect_To r) ""); reflexivity.
Qed.

(** The loop over the redirects leaves the verdict as it found it. *)
Lemma check_each_Redirect_check (rs : list Redirect) :
  forall (i : nat) (acc : Checked),
    (check_each Redirect_check "Redirect" i rs acc).1 = acc.1.
Proof.
  induction rs as [|r rs IH]; intros i [ok log]; simpl.
  - reflexivity.
  - pose proof (Redirect_check_fst r ("Redirect" +:+ " #" +:+ pretty i +:+ ":")) as Hr.
    destruct (Redirect_check r _) as [ok' log']. simpl in Hr. subst ok'.
    rewrite IH. reflexivity.
Qed.

(** C10.  [Redirect.check] returns [true] for every redirect and every
    label, in both generations, whether or not [from] and [to] are
    empty; the verdict of [ServerConfig.check] is therefore the one of
    the same configuration without its redirects. *)
Theorem Redirect_check_returns_true {env : Env} :
  (forall (r : Redirect) (label : string),
      (Redirect_check r label).1 = true /\ (Gen1.Redirect_check r label).1 = true)
  /\ (forall (label : string) (w : Z),
        (Redirect_check {| Redirect_From := ""; Redirect_To := ""; Redirect_With := w |}
           label).1 = true)
  /\ (forall (c : ServerConfig),
        (ServerConfig_check c).1 =
        (ServerConfig_check {| Listeners := Listeners c; Serves := Serves c;
                               Errors := Errors c; Redirects := [] |}).1).
Proof.
  split; [|split].
  - intros r label. split.
    + apply Redirect_check_fst.
    + apply Gen1_Redirect_check_fst.
  - intros label w. apply Redirect_check_fst.
  - intros c. unfold ServerConfig_check. simpl.
    rewrite check_each_Redirect_check. reflexivity.
Qed.

(** ** The monad and the server's writer *)

Lemma bind_Ret {A B} (mx : M A) (k : A -> M B) (σ σ' : World) (a : A) :
  mx σ = (Ret a, σ') -> bind mx k σ = k a σ'.
Proof. intros H. unfold bind. rewrite H. reflexivity. Qed.

Lemma deferring_Ret {A} (mx : M A) (fin : M unit) (σ σ' σ'' : World) (a : A) :
  mx σ = (Ret a, σ') -> fin σ' = (Ret tt, σ'') -> deferring mx fin σ = (Ret a, σ'').
Proof. intros Hm Hf. unfold deferring. rewrite Hm, Hf. reflexivity. Qed.

(** ** The wildcard request *)

(** C8.  A request whose target is [*] is answered by the dispatcher
    itself: [Connection: close] for HTTP/1.1 or later, then status 400
    on the writer it was given.  No route, no handler and no override is
    looked at (the answer is the same for every mux), and on the
    server's writer the status sent is 400, no body byte is written and
    no interceptor is allocated. *)
Theorem wildcard_request_is_answered_400 {env : Env} {renv : RedirectEnv} :
  forall (s : StaticServeMux) (r : Request),
    RequestURI r = "*" ->
    (forall (w : ResponseWriter),
        StaticServeMux_ServeHTTP s w r =
        (do _ <- when (ProtoAtLeast r 1 1) (wHeader_Set "Connection" "close");
         WriteHeader w 400))
    /\ (forall (s' : StaticServeMux) (w : ResponseWriter),
          StaticServeMux_ServeHTTP s' w r = StaticServeMux_ServeHTTP s w r)
    /\ (forall (σ : World),
          status (resp σ) = None ->
          exists σ',
            StaticServeMux_ServeHTTP s response_writer r σ = (Ret tt, σ')
            /\ status (resp σ') = Some 400
            /\ body (resp σ') = body (resp σ)
            /\ heap σ' = heap σ).
Proof.
  intros s r Huri.
  assert (Hw : forall s0 (w : ResponseWriter),
             StaticServeMux_ServeHTTP s0 w r =
             (do _ <- when (ProtoAtLeast r 1 1) (wHeader_Set "Connection" "close");
              WriteHeader w 400)).
  { intros s0 w. unfold StaticServeMux_ServeHTTP. rewrite Huri. reflexivity. }
  split; [|split].
  - apply Hw.
  - intros s' w. rewrite !Hw. reflexivity.
  - intros σ Hst. rewrite Hw.
    unfold bind, when, wHeader_Set, modify, ret. simpl.
    destruct (ProtoAtLeast r 1 1); simpl;
      unfold response_WriteHeader; simpl; rewrite Hst;
      eexists; (split; [reflexivity|]); simpl; auto.
Qed.

(** C8 on an HTTP/1.1 request for [*]. *)
Lemma wildcard_request_is_answered_400_witness :
  RequestURI (sample_request "*") = "*"
  /\ status (resp (StaticServeMux_ServeHTTP (env := sample_env) (renv := sample_redirect_env)
      sample_mux_404
                     response_writer (sample_request "*") fresh_world).2) = Some 400.
Proof.
  split; [reflexivity|].
  destruct (wildcard_request_is_answered_400 (env := sample_env) (renv := sample_redirect_env)
      sample_mux_404
              (sample_request "*") eq_refl) as (_ & _ & H).
  destruct (H fresh_world eq_refl) as (σ' & Hrun & Hst & _).
  rewrite Hrun. exact Hst.
Defined.

(** ** Interception *)

(** What [interceptResponseWriter.WriteHeader] does for a status with a
    registered override: the override handler runs on the wrapped
    writer, restricted to the intercepted status, and the call panics
    with the interceptor. *)
Lemma WriteHeader_intercepted {env : Env} (s : StaticServeMux) (c : Z) (over : Handler)
    (irw : nat) (w : ResponseWriter) (r : Request) (σ : World) :
  errors s !! c = Some over ->
  interceptResponseWriter_WriteHeader irw w r s c σ =
  match over (statusResponseWriter w c) r σ with
  | (Ret _, σ') => (Panic (PPtr irw), σ')
  | (Panic p, σ') => (Panic p, σ')
  end.
Proof.
  intros Hc. unfold interceptResponseWriter_WriteHeader, intercept, bind.
  rewrite Hc. destruct (over _ r σ) as [[[]|p] σ']; reflexivity.
Qed.

(** C1.  Let the handler run [pre], set a status [c] that has a
    registered override [over], and go on with [rest] (one statement
    after the other, with no [recover] of its own around the call).
    Whatever [rest] is, the exchange is the same: nothing of [rest] is
    executed.  When [pre] and the override handler return, the exchange
    ends normally in the world the override handler left, so the client
    receives what the override handler wrote. *)
Theorem interception_aborts_original_handler {env : Env} :
  forall (s : StaticServeMux) (c : Z) (over pre rest : Handler)
         (w : ResponseWriter) (r : Request) (σ : World),
    errors s !! c = Some over ->
    (forall rest' : Handler,
        interceptHandler s (sets_status pre c rest') w r σ =
        interceptHandler s (sets_status pre c rest) w r σ)
    /\ (forall σ1 σ2 : World,
          pre (interceptResponseWriter (length (heap σ)) w r s) r
              {| resp := resp σ; heap := heap σ ++ [OInterceptResponseWriter] |}
            = (Ret tt, σ1) ->
          over (statusResponseWriter w c) r σ1 = (Ret tt, σ2) ->
          interceptHandler s (sets_status pre c rest) w r σ = (Ret tt, σ2)).
Proof.
  intros s c over pre rest w r σ Hc.
  assert (Hshape : forall rest0 : Handler,
             interceptHandler s (sets_status pre c rest0) w r σ =
             match pre (interceptResponseWriter (length (heap σ)) w r s) r
                       {| resp := resp σ; heap := heap σ ++ [OInterceptResponseWriter] |} with
             | (Ret _, σ1) =>
                 match over (statusResponseWriter w c) r σ1 with
                 | (Ret _, σ2) => (Ret tt, σ2)
                 | (Panic p, σ2) =>
                     if PanicValue_eqb p (PPtr (length (heap σ)))
                     then (Ret tt, σ2) else (Panic p, σ2)
                 end
             | (Panic p, σ1) =>
                 if PanicValue_eqb p (PPtr (length (heap σ)))
                 then (Ret tt, σ1) else (Panic p, σ1)
             end).
  { intros rest0.
    unfold interceptHandler, sets_status, recovering, alloc, bind at 1. simpl.
    unfold bind at 1.
    destruct (pre _ r _) as [[[]|p] σ1];
      [|destruct (PanicValue_eqb p _); reflexivity].
    unfold bind. simpl. rewrite (WriteHeader_intercepted s c over _ w r σ1 Hc).
    destruct (over _ r σ1) as [[[]|p] σ2]; simpl.
    - rewrite Nat.eqb_refl. reflexivity.
    - destruct (PanicValue_eqb p _); reflexivity. }
  split.
  - intros rest'. rewrite !Hshape. reflexivity.
  - intros σ1 σ2 Hpre Hover. rewrite Hshape, Hpre, Hover. reflexivity.
Qed.

(** C1 on the sample handler, with the page registered for 404: the
    client gets the page and not [late]. *)
Lemma interception_aborts_original_handler_witness :
  errors sample_mux_404 !! 404
    = Some (Error_handler (env := sample_env)
              {| Error_Status := 404; Error_Target := "/srv/404.html" |})
  /\ body (resp (interceptHandler (env := sample_env) sample_mux_404
                   (sets_status sample_pre 404 sample_rest)
                   response_writer (sample_request "/x") fresh_world).2)
     = bytes_of "<h1>gone</h1>".
Proof.
  split; [reflexivity|].
  destruct (interception_aborts_original_handler (env := sample_env) sample_mux_404 404
              (Error_handler (env := sample_env)
                 {| Error_Status := 404; Error_Target := "/srv/404.html" |})
              sample_pre sample_rest response_writer (sample_request "/x") fresh_world
              eq_refl) as [_ H].
  erewrite H; [| reflexivity | reflexivity].
  reflexivity.
Defined.

(** ** Error statuses without override *)

(** [http.Error] on the server's writer, before the header is written. *)
Lemma http_Error_unsent {env : Env} (msg : string) (code : Z) (σ : World) :
  status (resp σ) = None ->
  http_Error response_writer msg code σ =
  (Ret tt,
   {| resp := {| header := Header_Set (header (resp σ)) "Content-Type"
                             "text/plain; charset=utf-8";
                 status := Some code;
                 sent := Header_Set (header (resp σ)) "Content-Type"
                           "text/plain; charset=utf-8";
                 body := body (resp σ) ++ bytes_of (msg +:+ LF) |};
      heap := heap σ |}).
Proof.
  intros Hst. unfold http_Error, bind, wHeader_Set, modify. simpl.
  unfold response_WriteHeader. simpl. rewrite Hst.
  unfold response_Write, bind, gets, when. simpl. reflexivity.
Qed.

(** C2, as the code has it.  When the handler sets a status [c] of 400
    or more that has no registered override, and the header was not
    written before, the exchange ends normally with status [c]; the body
    is the reason phrase of [c] followed by a line feed, and the
    [Content-Type] sent is [text/plain; charset=utf-8].  Nothing the
    handler does after setting the status is executed. *)
Theorem unmatched_error_status_text {env : Env} :
  forall (s : StaticServeMux) (c : Z) (pre rest : Handler) (r : Request) (σ σ1 : World),
    400 <= c <= 599 ->
    errors s !! c = None ->
    pre (interceptResponseWriter (length (heap σ)) response_writer r s) r
        {| resp := resp σ; heap := heap σ ++ [OInterceptResponseWriter] |}
      = (Ret tt, σ1) ->
    status (resp σ1) = None ->
    exists σ',
      interceptHandler s (sets_status pre c rest) response_writer r σ = (Ret tt, σ')
      /\ status (resp σ') = Some c
      /\ body (resp σ') = body (resp σ1) ++ bytes_of (http_StatusText c +:+ LF)
      /\ sent (resp σ') !! CanonicalHeaderKey "Content-Type"
         = Some ["text/plain; charset=utf-8"].
Proof.
  intros s c pre rest r σ σ1 Hc Hnone Hpre Hst.
  unfold interceptHandler, sets_status, recovering, alloc, bind at 1. simpl.
  unfold bind at 1. rewrite Hpre.
  unfold bind at 1. simpl.
  unfold interceptResponseWriter_WriteHeader, intercept, bind at 1.
  rewrite Hnone.
  destruct (Z.ltb_spec c 400) as [Hlt|_]; [lia|].
  unfold bind at 1. rewrite (http_Error_unsent _ _ _ Hst).
  simpl. rewrite Nat.eqb_refl.
  eexists. split; [reflexivity|]. simpl.
  split; [reflexivity|]. split; [reflexivity|].
  unfold Header_Set. apply lookup_insert_eq.
Qed.

(** C2 on status 404 without override. *)
Lemma unmatched_error_status_text_witness :
  400 <= 404 <= 599
  /\ body (resp (interceptHandler (env := sample_env) sample_mux
                   (sets_status no_pre 404 sample_rest)
                   response_writer (sample_request "/x") fresh_world).2)
     = bytes_of ("Not Found" +:+ LF).
Proof.
  split; [lia|].
  destruct (unmatched_error_status_text (env := sample_env) sample_mux 404 no_pre
              sample_rest (sample_request "/x") fresh_world
              {| resp := fresh_response; heap := [OInterceptResponseWriter] |}
              ltac:(lia) eq_refl eq_refl eq_refl) as (σ' & Hrun & _ & Hbody & _).
  rewrite Hrun. exact Hbody.
Defined.

(** C2 as the specification words it fails on status 404: the body is
    not the bare reason phrase (a line feed follows it) and the
    [Content-Type] is not the bare [text/plain]. *)
Lemma unmatched_error_status_text_counterexample :
  let σ' := (interceptHandler (env := sample_env) sample_mux
               (sets_status no_pre 404 sample_rest)
               response_writer (sample_request "/x") fresh_world).2 in
  errors sample_mux !! 404 = None
  /\ status (resp σ') = Some 404
  /\ body (resp σ') <> bytes_of (http_StatusText (Env := sample_env) 404)
  /\ sent (resp σ') !! "Content-Type" <> Some ["text/plain"].
Proof.
  cbv zeta. split; [reflexivity|]. split; [reflexivity|].
  split; intros H; vm_compute in H; discriminate H.
Qed.

(** ** Headers across an interception *)

Lemma response_writer_keeps_header (K : string) (v : option (list string)) :
  writer_keeps (header_kept K v) response_writer.
Proof.
  split.
  - intros b σ [Hh Hs]. unfold header_kept. simpl.
    unfold response_Write, bind, gets, when, response_WriteHeader, modify. simpl.
    destruct (status (resp σ)) as [st|] eqn:Hst; simpl.
    + rewrite Hst. simpl. split; [exact Hh|].
      destruct Hs as [Hs|Hs]; [discriminate|]. right. exact Hs.
    + rewrite Hst. simpl. split; [exact Hh|]. right. exact Hh.
  - intros code σ [Hh Hs]. unfold header_kept. simpl.
    unfold response_WriteHeader.
    destruct (status (resp σ)) as [st|] eqn:Hst; simpl.
    + rewrite Hst. split; [exact Hh|].
      destruct Hs as [Hs|Hs]; [discriminate|]. right. exact Hs.
    + split; [exact Hh|]. right. exact Hh.
Qed.

Lemma statusResponseWriter_keeps {env : Env} (J : World -> Prop) (w : ResponseWriter) (c : Z) :
  writer_keeps J w -> writer_keeps J (statusResponseWriter w c).
Proof.
  intros [HW HWH]. split.
  - exact HW.
  - intros code σ HJ. simpl. unfold statusResponseWriter_WriteHeader.
    destruct (c <? 0); [exact HJ|].
    destruct (0 <? c); apply HWH; exact HJ.
Qed.

(** A script that keeps the header [K], run on a writer that keeps it,
    leaves it as it was: in the header map and, once the header is
    written, in the headers sent. *)
Lemma exec_header_kept {env : Env} (K : string) (v : option (list string))
    (w : ResponseWriter) (s : Script) :
  writer_keeps (header_kept K v) w ->
  Keeps K s ->
  forall σ, header_kept K v σ -> header_kept K v (exec s w σ).2.
Proof.
  intros [HW HWH] Hs. induction Hs as
    [ | key cont _ IH | key value cont Hk _ IH | key value cont Hk _ IH
      | key cont Hk _ IH | cont _ IH | code cont _ IH | b cont _ IH | p ];
    intros σ HJ; simpl.
  - exact HJ.
  - unfold bind, wHeader_Get, gets. apply IH. exact HJ.
  - unfold bind, wHeader_Set, modify. apply IH.
    destruct HJ as [Hh Hst]. split; simpl; [|exact Hst].
    unfold Header_Set. rewrite lookup_insert_ne; [exact Hh|exact Hk].
  - unfold bind, wHeader_Add, modify. apply IH.
    destruct HJ as [Hh Hst]. split; simpl; [|exact Hst].
    unfold Header_Add. rewrite lookup_insert_ne; [exact Hh|exact Hk].
  - unfold bind, wHeader_Del, modify. apply IH.
    destruct HJ as [Hh Hst]. split; simpl; [|exact Hst].
    unfold Header_Del. rewrite lookup_delete_ne; [exact Hh|exact Hk].
  - unfold bind, wHeader_keys, gets. apply IH. exact HJ.
  - unfold bind. pose proof (HWH code σ HJ) as HJ'.
    destruct (WriteHeader w code σ) as [[[]|p] σ1]; simpl in HJ'.
    + apply IH. exact HJ'.
    + exact HJ'.
  - unfold bind. pose proof (HW b σ HJ) as HJ'.
    destruct (Write w b σ) as [[[]|p] σ1]; simpl in HJ'.
    + apply IH. exact HJ'.
    + exact HJ'.
  - exact HJ.
Qed.

(** C3, as the later generation has it.  When the override registered
    for the intercepted status is a configured error page, the
    interception deletes the [Content-Type] header queued by the original
    handler and then serves the page on the restricted writer; it
    deletes no other header.  A queued header that the page-serving code
    does not touch itself is sent to the client as the original handler
    queued it. *)
Theorem interception_deletes_content_type_only {env : Env} :
  forall (s : StaticServeMux) (c : Z) (e : Error) (r : Request) (σ : World),
    errors s !! c = Some (Error_handler e) ->
    status (resp σ) = None ->
    intercept s c response_writer r σ =
      (do _ <- http_ServeFile_on (statusResponseWriter response_writer c) r (Error_Target e);
       ret true)
        (set_resp (set_header (fun h => delete (CanonicalHeaderKey "Content-Type") h)) σ)
    /\ (forall K : string,
          K <> CanonicalHeaderKey "Content-Type" ->
          Keeps K (http_ServeFile r (Error_Target e)) ->
          status (resp (intercept s c response_writer r σ).2) <> None ->
          sent (resp (intercept s c response_writer r σ).2) !! K = header (resp σ) !! K).
Proof.
  intros s c e r σ Hc Hst.
  assert (Heq : intercept s c response_writer r σ =
      (do _ <- http_ServeFile_on (statusResponseWriter response_writer c) r (Error_Target e);
       ret true)
        (set_resp (set_header (fun h => delete (CanonicalHeaderKey "Content-Type") h)) σ)).
  { unfold intercept. rewrite Hc. reflexivity. }
  split; [exact Heq|].
  intros K HK Hkeeps Hsent.
  rewrite Heq in Hsent |- *.
  set (σd := set_resp (set_header (fun h => delete (CanonicalHeaderKey "Content-Type") h)) σ)
    in *.
  assert (HJ : header_kept K (header (resp σ) !! K) σd).
  { split; simpl.
    - rewrite lookup_delete_ne; [reflexivity|]. intros Heq'. apply HK. symmetry. exact Heq'.
    - left. exact Hst. }
  pose proof (exec_header_kept K _ (statusResponseWriter response_writer c) _
                (statusResponseWriter_keeps _ _ c (response_writer_keeps_header K _))
                Hkeeps σd HJ) as [_ Hend].
  unfold bind, http_ServeFile_on in Hsent |- *.
  destruct (exec (http_ServeFile r (Error_Target e))
              (statusResponseWriter response_writer c) σd) as [[[]|p] σ'];
    simpl in *; (destruct Hend as [Hend|Hend]; [contradiction|exact Hend]).
Qed.

Lemma sample_ServeFile_Keeps (r : Request) (name K : string) :
  K <> "Content-Type" -> Keeps (env := sample_env) K (sample_ServeFile r name).
Proof.
  intros HK. unfold sample_ServeFile, sample_serveContent.
  destruct (String.eqb name "/srv/404.html").
  - apply Keeps_Get. intros v. destruct (String.eqb v "").
    + apply Keeps_Set; [intros H; apply HK; symmetry; exact H|].
      apply Keeps_WriteHeader, Keeps_Write, Keeps_Done.
    + apply Keeps_WriteHeader, Keeps_Write, Keeps_Done.
  - apply Keeps_Set; [intros H; apply HK; symmetry; exact H|].
    apply Keeps_WriteHeader, Keeps_Write, Keeps_Done.
Qed.

(** C3 on the page registered for 404: the queued [X-Stale] is sent. *)
Lemma interception_deletes_content_type_only_witness :
  errors sample_mux_404 !! 404
    = Some (Error_handler (env := sample_env)
              {| Error_Status := 404; Error_Target := "/srv/404.html" |})
  /\ status (resp sample_queued_world) = None
  /\ sent (resp (intercept (env := sample_env) sample_mux_404 404 response_writer
                   (sample_request "/x") sample_queued_world).2) !! "X-Stale"
     = Some ["1"].
Proof.
  split; [reflexivity|]. split; [reflexivity|].
  destruct (interception_deletes_content_type_only (env := sample_env) sample_mux_404 404
              {| Error_Status := 404; Error_Target := "/srv/404.html" |}
              (sample_request "/x") sample_queued_world eq_refl eq_refl) as [_ H].
  rewrite (H "X-Stale").
  - reflexivity.
  - discriminate.
  - apply sample_ServeFile_Keeps. discriminate.
  - vm_compute. discriminate.
Defined.

(** C3 as the specification words it fails: the original handler queues
    [X-Stale: 1] and sets status 404, for which a page is registered;
    the client gets the page, and [X-Stale: 1] with it. *)
Lemma interception_clears_headers_counterexample :
  let σ' := (interceptHandler (env := sample_env) sample_mux_404
               (sets_status sample_pre 404 sample_rest)
               response_writer (sample_request "/x") fresh_world).2 in
  body (resp σ') = bytes_of "<h1>gone</h1>"
  /\ sent (resp σ') !! "X-Stale" = Some ["1"].
Proof. cbv zeta. split; reflexivity. Qed.

(** ** After the header is written *)

Lemma response_writer_keeps_sent (st : Z) (hs : Header) :
  writer_keeps (header_sent st hs) response_writer.
Proof.
  split.
  - intros b σ [Hst Hs]. unfold header_sent. simpl.
    unfold response_Write, bind, gets, when, modify. simpl.
    rewrite Hst. simpl. rewrite Hst. auto.
  - intros code σ [Hst Hs]. unfold header_sent. simpl.
    unfold response_WriteHeader. rewrite Hst. simpl. auto.
Qed.

(** Once the header is written, no script changes the status or the
    headers sent, on a writer whose methods do not. *)
Lemma exec_header_sent {env : Env} (st : Z) (hs : Header) (w : ResponseWriter) (s : Script) :
  writer_keeps (header_sent st hs) w ->
  forall σ, header_sent st hs σ -> header_sent st hs (exec s w σ).2.
Proof.
  intros [HW HWH].
  induction s as
    [ | key cont IH | key value cont IH | key value cont IH | key cont IH
      | cont IH | code cont IH | b cont IH | p ];
    intros σ HJ; simpl.
  - exact HJ.
  - unfold bind, wHeader_Get, gets. apply IH. exact HJ.
  - unfold bind, wHeader_Set, modify. apply IH. exact HJ.
  - unfold bind, wHeader_Add, modify. apply IH. exact HJ.
  - unfold bind, wHeader_Del, modify. apply IH. exact HJ.
  - unfold bind, wHeader_keys, gets. apply IH. exact HJ.
  - unfold bind. pose proof (HWH code σ HJ) as HJ'.
    destruct (WriteHeader w code σ) as [[[]|p] σ1]; simpl in HJ'.
    + apply IH. exact HJ'.
    + exact HJ'.
  - unfold bind. pose proof (HW b σ HJ) as HJ'.
    destruct (Write w b σ) as [[[]|p] σ1]; simpl in HJ'.
    + apply IH. exact HJ'.
    + exact HJ'.
  - exact HJ.
Qed.

(** C4, as the code has it.  Let the header have been written, with
    status [st] and headers [hs], and let the handler set a status [c]
    again through the interceptor.  The status and the headers sent stay
    [st] and [hs]: no second status line.  When [c] is below 400 and has
    no override the call returns and changes nothing.  (For the other
    statuses the interceptor runs the substitution again, whose body
    bytes are written, and panics to abort the handler.) *)
Theorem second_status_keeps_status_line {env : Env} :
  forall (s : StaticServeMux) (irw : nat) (r : Request) (c st : Z) (hs : Header)
         (σ : World),
    header_sent st hs σ ->
    (forall h, errors s !! c = Some h -> exists f, h = scripted f) ->
    header_sent st hs (interceptResponseWriter_WriteHeader irw response_writer r s c σ).2
    /\ (c < 400 -> errors s !! c = None ->
        interceptResponseWriter_WriteHeader irw response_writer r s c σ = (Ret tt, σ)).
Proof.
  intros s irw r c st hs σ HJ Hscripted. split.
  - unfold interceptResponseWriter_WriteHeader, intercept.
    destruct (errors s !! c) as [h|] eqn:Hc.
    + destruct (Hscripted h eq_refl) as [f ->].
      pose proof (exec_header_sent st hs (statusResponseWriter response_writer c) (f r)
                    (statusResponseWriter_keeps _ _ c (response_writer_keeps_sent st hs))
                    σ HJ) as HJ'.
      unfold bind, scripted.
      destruct (exec (f r) (statusResponseWriter response_writer c) σ) as [[[]|p] σ'];
        exact HJ'.
    + destruct (c <? 400).
      * unfold bind, ret. simpl.
        apply (proj2 (response_writer_keeps_sent st hs)). exact HJ.
      * destruct HJ as [Hst Hs].
        unfold bind, http_Error, bind, wHeader_Set, modify. simpl.
        unfold response_WriteHeader. simpl. rewrite Hst.
        unfold response_Write, bind, gets, when, modify. simpl. rewrite Hst. simpl.
        split; simpl; assumption.
  - intros Hlt Hnone.
    unfold interceptResponseWriter_WriteHeader, intercept. rewrite Hnone.
    destruct (Z.ltb_spec c 400) as [_|Hge]; [|lia].
    unfold bind, ret. simpl. unfold response_WriteHeader.
    destruct HJ as [Hst _]. rewrite Hst. reflexivity.
Qed.

(** C4 on status 304 after the header was written with status 200. *)
Lemma second_status_keeps_status_line_witness :
  header_sent 200 ∅ sample_sent_world
  /\ interceptResponseWriter_WriteHeader (env := sample_env) 0 response_writer
       (sample_request "/x") sample_mux 304 sample_sent_world
     = (Ret tt, sample_sent_world).
Proof.
  assert (H : header_sent 200 ∅ sample_sent_world) by (split; reflexivity).
  split; [exact H|].
  apply (second_status_keeps_status_line (env := sample_env) sample_mux 0
           (sample_request "/x") 304 200 ∅ sample_sent_world H).
  - intros h Hh. vm_compute in Hh. discriminate Hh.
  - lia.
  - reflexivity.
Defined.

(** C4 as the specification words it fails: after the header was
    written with status 200, setting status 404 (no override) is not a
    no-op.  The call panics, which aborts the handler, and the reason
    phrase has been written to the body. *)
Lemma second_status_is_no_op_counterexample :
  let res := interceptResponseWriter_WriteHeader (env := sample_env) 0 response_writer
               (sample_request "/x") sample_mux 404 sample_sent_world in
  status (resp sample_sent_world) = Some 200
  /\ body (resp sample_sent_world) = []
  /\ res.1 = Panic (PPtr 0)
  /\ body (resp res.2) = bytes_of ("Not Found" +:+ LF)
  /\ res <> (Ret tt, sample_sent_world).
Proof.
  cbv zeta. split; [reflexivity|]. split; [reflexivity|].
  split; [reflexivity|]. split; [reflexivity|].
  intros H. apply (f_equal fst) in H. vm_compute in H. discriminate H.
Qed.

(** ** The status of a substituted response *)

(** The configured error page is a handler that only drives its writer. *)
Lemma Error_handler_scripted {env : Env} (e : Error) :
  Error_handler e
  = scripted (fun r => SHeaderDel "Content-Type" (http_ServeFile r (Error_Target e))).
Proof. reflexivity. Qed.





(** The same on the restricted writer alone: an override handler that
    writes body bytes without setting a status gets the status 200 of
    the first [Write]. *)
Example override_that_only_writes :
  status (resp (exec (env := sample_env) (SWrite (bytes_of "oops") SDone)
                  (statusResponseWriter response_writer 500) fresh_world).2)
  = Some 200.
Proof. reflexivity. Qed.

(** ** Rules for [hoare] *)

Lemma hoare_bind {A B} (P Q R : World -> Prop) (mx : M A) (k : A -> M B) :
  hoare P mx Q ->
  (forall σ, Q σ -> R σ) ->
  (forall a, hoare Q (k a) R) ->
  hoare P (bind mx k) R.
Proof.
  intros Hm HQR Hk σ HP. unfold bind.
  pose proof (Hm σ HP) as HQ.
  destruct (mx σ) as [[a|p] σ1]; simpl in HQ.
  - apply Hk. exact HQ.
  - simpl. apply HQR. exact HQ.
Qed.

Lemma keeps_bind {A B} (J : World -> Prop) (mx : M A) (k : A -> M B) :
  hoare J mx J -> (forall a, hoare J (k a) J) -> hoare J (bind mx k) J.
Proof. intros Hm Hk. apply (hoare_bind J J J); auto. Qed.

Lemma keeps_ret {A} (J : World -> Prop) (a : A) : hoare J (ret a) J.
Proof. intros σ HJ. exact HJ. Qed.

Lemma keeps_panic {A} (J : World -> Prop) (p : PanicValue) : hoare J (@panic A p) J.
Proof. intros σ HJ. exact HJ. Qed.

Lemma keeps_when (J : World -> Prop) (b : bool) (mx : M unit) :
  hoare J mx J -> hoare J (when b mx) J.
Proof. intros Hm. destruct b; [exact Hm|apply keeps_ret]. Qed.

Lemma keeps_for_each {A} (J : World -> Prop) (l : list A) (f : A -> M unit) :
  (forall x, hoare J (f x) J) -> hoare J (for_each l f) J.
Proof.
  intros Hf. induction l as [|x l IH]; simpl.
  - apply keeps_ret.
  - apply keeps_bind; [apply Hf|intros _; exact IH].
Qed.

Lemma hoare_recovering {A} (P Q : World -> Prop) (mx : M A) (handler : PanicValue -> M A) :
  hoare P mx Q -> (forall p, hoare Q (handler p) Q) -> hoare P (recovering mx handler) Q.
Proof.
  intros Hm Hh σ HP. unfold recovering.
  pose proof (Hm σ HP) as HQ.
  destruct (mx σ) as [[a|p] σ1]; simpl in HQ.
  - exact HQ.
  - apply Hh. exact HQ.
Qed.

Lemma hoare_deferring {A} (P Q : World -> Prop) (mx : M A) (fin : M unit) :
  hoare P mx Q -> hoare Q fin Q -> hoare P (deferring mx fin) Q.
Proof.
  intros Hm Hf σ HP. unfold deferring.
  pose proof (Hm σ HP) as HQ.
  destruct (mx σ) as [[a|p] σ1]; simpl in HQ;
    pose proof (Hf σ1 HQ) as HQ';
    destruct (fin σ1) as [[[]|q] σ2]; exact HQ'.
Qed.

(** ** A header that nothing downstream touches *)

Section Kept.
Context {env : Env} (K : string) (v : option (list string)).

Lemma kept_alloc (o : Obj) : hoare (header_kept K v) (alloc o) (header_kept K v).
Proof. intros σ HJ. exact HJ. Qed.

Lemma kept_load (a : nat) : hoare (header_kept K v) (load a) (header_kept K v).
Proof. intros σ HJ. exact HJ. Qed.

Lemma kept_store (a : nat) (o : Obj) :
  hoare (header_kept K v) (store a o) (header_kept K v).
Proof. intros σ HJ. exact HJ. Qed.

Lemma kept_Get (key : string) : hoare (header_kept K v) (wHeader_Get key) (header_kept K v).
Proof. intros σ HJ. exact HJ. Qed.

Lemma kept_Set (key value : string) :
  CanonicalHeaderKey key <> K ->
  hoare (header_kept K v) (wHeader_Set key value) (header_kept K v).
Proof.
  intros Hk σ [Hh Hs]. split; simpl; [|exact Hs].
  unfold Header_Set. rewrite lookup_insert_ne; [exact Hh|exact Hk].
Qed.

Lemma kept_Del (key : string) :
  CanonicalHeaderKey key <> K ->
  hoare (header_kept K v) (wHeader_Del key) (header_kept K v).
Proof.
  intros Hk σ [Hh Hs]. split; simpl; [|exact Hs].
  unfold Header_Del. rewrite lookup_delete_ne; [exact Hh|exact Hk].
Qed.

Lemma kept_exec (w : ResponseWriter) (s : Script) :
  writer_keeps (header_kept K v) w ->
  Keeps K s ->
  hoare (header_kept K v) (exec s w) (header_kept K v).
Proof. intros Hw Hs σ HJ. apply exec_header_kept; assumption. Qed.

Lemma kept_http_Error (w : ResponseWriter) (msg : string) (code : Z) :
  K <> CanonicalHeaderKey "Content-Type" ->
  writer_keeps (header_kept K v) w ->
  hoare (header_kept K v) (http_Error w msg code) (header_kept K v).
Proof.
  intros HK [HW HWH]. unfold http_Error.
  apply keeps_bind; [apply kept_Set; auto|intros _].
  apply keeps_bind; [exact (HWH code)|intros _].
  exact (HW _).
Qed.

Lemma kept_localRedirect (w : ResponseWriter) (r : Request) (newPath : string) :
  K <> CanonicalHeaderKey "Location" ->
  writer_keeps (header_kept K v) w ->
  hoare (header_kept K v) (localRedirect w r newPath) (header_kept K v).
Proof.
  intros HK [HW HWH]. unfold localRedirect.
  apply keeps_bind; [apply kept_Set; auto|intros _].
  exact (HWH 301).
Qed.

Lemma kept_GzipResponseWriter (grw gz : nat) (w : ResponseWriter) :
  K <> CanonicalHeaderKey "Content-Type" ->
  writer_keeps (header_kept K v) w ->
  writer_keeps (header_kept K v) (GzipResponseWriter grw gz w).
Proof.
  intros HCT Hw. split; [|exact (proj2 Hw)].
  intros b.
  change (hoare (header_kept K v)
            (GzipResponseWriter_Write grw gz w b)
            (header_kept K v)).
  unfold GzipResponseWriter_Write.
  apply keeps_bind; [apply kept_load|intros [[| | | |got]|]]; try apply keeps_panic.
  apply keeps_bind.
  - apply keeps_when. apply keeps_bind; [apply kept_Get|intros ct].
    apply keeps_bind; [|intros _; apply kept_store].
    apply keeps_when. apply kept_Set. auto.
  - intros _. unfold gzip_Writer_Write.
    apply keeps_bind; [apply kept_load|intros [[| | |hist|]|]]; try apply keeps_panic.
    apply keeps_bind; [apply kept_store|intros _].
    apply keeps_for_each. exact (proj1 Hw).
Qed.

Lemma kept_gzip_Close (gz : nat) (w : ResponseWriter) :
  writer_keeps (header_kept K v) w ->
  hoare (header_kept K v)
    (gzip_Writer_Close gz w)
    (header_kept K v).
Proof.
  intros Hw. unfold gzip_Writer_Close.
  apply keeps_bind; [apply kept_load|intros [[| | |hist|]|]]; try apply keeps_panic.
  apply keeps_for_each. exact (proj1 Hw).
Qed.

End Kept.

Section KeptChain.
Context {env : Env} {renv : RedirectEnv} (K : string) (vL : string) (vs : list string).
Hypothesis HvL : vL <> "".
Hypothesis HCT : K <> CanonicalHeaderKey "Content-Type".
Hypothesis HLoc : K <> CanonicalHeaderKey "Location".
Hypothesis HConn : K <> CanonicalHeaderKey "Connection".
Hypothesis HserveContent : forall r name c, Keeps K (http_serveContent r name c).
Hypothesis HdirList : forall r entries, Keeps K (http_dirList r entries).
Hypothesis HRedirect : forall r url code, Keeps K (http_Redirect r url code).

Lemma kept_serveFile (w : ResponseWriter) (r : Request) (fs : FileSystem)
    (name : string) (redirect : bool) :
  writer_keeps (header_kept K (Some (vL :: vs))) w ->
  (forall n, hoare (header_kept K (Some (vL :: vs))) (fs n) (header_kept K (Some (vL :: vs)))) ->
  hoare (header_kept K (Some (vL :: vs)))
    (serveFile w r fs name redirect)
    (header_kept K (Some (vL :: vs))).
Proof.
  intros Hw Hfs. unfold serveFile.
  destruct (strings_HasSuffix (URL_Path r) "/index.html");
    [apply kept_localRedirect; assumption|].
  apply keeps_bind; [apply Hfs|intros [d|]];
    [|apply kept_http_Error; assumption].
  destruct (redirect && IsDir d && negb (strings_HasSuffix (URL_Path r) "/"));
    [apply kept_localRedirect; assumption|].
  destruct (redirect && negb (IsDir d) && strings_HasSuffix (URL_Path r) "/");
    [apply kept_localRedirect; assumption|].
  destruct d as [c|entries].
  - apply kept_exec; [assumption|apply HserveContent].
  - apply keeps_bind; [apply Hfs|intros [[c|entries']|]];
      apply kept_exec; auto.
Qed.

Lemma kept_FileServer (fs : FileSystem) :
  (forall n, hoare (header_kept K (Some (vL :: vs))) (fs n) (header_kept K (Some (vL :: vs)))) ->
  handler_keeps (header_kept K (Some (vL :: vs))) (http_FileServer fs).
Proof.
  intros Hfs w r Hw. unfold http_FileServer. apply kept_serveFile; assumption.
Qed.

(** Set-if-absent leaves a header that is present and not empty. *)
Lemma kept_CustomHeadersHandler (h : Handler) (headers : Headers) :
  handler_keeps (header_kept K (Some (vL :: vs))) h ->
  handler_keeps (header_kept K (Some (vL :: vs))) (CustomHeadersHandler h headers).
Proof.
  intros Hh w r Hw. unfold CustomHeadersHandler.
  apply keeps_bind; [|intros _; apply Hh; exact Hw].
  apply keeps_for_each. intros [k v] σ HJ. simpl.
  unfold bind, wHeader_Get, gets. simpl.
  destruct (decide (CanonicalHeaderKey k = K)) as [Heq|Hne].
  - unfold Header_Get. rewrite Heq. rewrite (proj1 HJ).
    apply String.eqb_neq in HvL. rewrite HvL. exact HJ.
  - apply keeps_when; [|exact HJ]. apply kept_Set. exact Hne.
Qed.

Lemma kept_StripPrefix (prefix : string) (h : Handler) :
  handler_keeps (header_kept K (Some (vL :: vs))) h ->
  handler_keeps (header_kept K (Some (vL :: vs))) (http_StripPrefix prefix h).
Proof.
  intros Hh. unfold http_StripPrefix.
  destruct (String.eqb prefix ""); [exact Hh|].
  intros w r Hw.
  destruct (strings_HasPrefix (URL_Path r) prefix).
  - apply Hh. exact Hw.
  - apply kept_http_Error; assumption.
Qed.

Lemma kept_Serve_handler (sv : Serve) :
  handler_keeps (header_kept K (Some (vL :: vs))) (Serve_handler sv).
Proof.
  unfold Serve_handler.
  apply kept_StripPrefix.
  assert (Hterminal : handler_keeps (header_kept K (Some (vL :: vs)))
            (if 0 <? Serve_Error sv
             then fun w r => http_Error w (http_StatusText (Serve_Error sv)) (Serve_Error sv)
             else if Serve_PreventListing sv
                  then fun w r =>
                         do d <- alloc (OPreventListingDir (Serve_Target sv));
                         recovering
                           (http_FileServer (PreventListingDir_Open d (Serve_Target sv)) w r)
                           (fun p => if PanicValue_eqb p (PPtr d)
                                     then http_Error w (http_StatusText 403) 403
                                     else panic p)
                  else http_FileServer (http_Dir (Serve_Target sv)))).
  { destruct (0 <? Serve_Error sv).
    - intros w r Hw. apply kept_http_Error; assumption.
    - destruct (Serve_PreventListing sv).
      + intros w r Hw. apply keeps_bind; [apply kept_alloc|intros d].
        apply hoare_recovering.
        * apply kept_FileServer; [|exact Hw].
          intros n. unfold PreventListingDir_Open.
          apply keeps_bind; [intros σ HJ; exact HJ|intros [f|]].
          -- apply keeps_ret.
          -- apply keeps_panic.
        * intros p. destruct (PanicValue_eqb p (PPtr d)).
          -- apply kept_http_Error; assumption.
          -- apply keeps_panic.
      + apply kept_FileServer. intros n σ HJ. exact HJ. }
  destruct (0 <? length (Serve_Headers sv))%nat;
    [apply kept_CustomHeadersHandler|]; exact Hterminal.
Qed.

Lemma kept_intercept (s : StaticServeMux) (status : Z) (w : ResponseWriter) (r : Request) :
  (forall c h, errors s !! c = Some h ->
  handler_keeps (header_kept K (Some (vL :: vs))) h) ->
  writer_keeps (header_kept K (Some (vL :: vs))) w ->
  hoare (header_kept K (Some (vL :: vs)))
    (intercept s status w r)
    (header_kept K (Some (vL :: vs))).
Proof.
  intros Hover Hw. unfold intercept.
  destruct (errors s !! status) as [h|] eqn:Hc.
  - apply keeps_bind; [|intros _; apply keeps_ret].
    apply (Hover _ _ Hc). apply statusResponseWriter_keeps. exact Hw.
  - destruct (status <? 400); [apply keeps_ret|].
    apply keeps_bind; [|intros _; apply keeps_ret].
    apply kept_http_Error; assumption.
Qed.

Lemma kept_interceptResponseWriter (s : StaticServeMux) (irw : nat) (w : ResponseWriter)
    (r : Request) :
  (forall c h, errors s !! c = Some h ->
  handler_keeps (header_kept K (Some (vL :: vs))) h) ->
  writer_keeps (header_kept K (Some (vL :: vs))) w ->
  writer_keeps (header_kept K (Some (vL :: vs))) (interceptResponseWriter irw w r s).
Proof.
  intros Hover Hw. split.
  - exact (proj1 Hw).
  - intros code.
    change (hoare (header_kept K (Some (vL :: vs)))
              (interceptResponseWriter_WriteHeader irw w r s code)
              (header_kept K (Some (vL :: vs)))).
    unfold interceptResponseWriter_WriteHeader.
    apply keeps_bind; [apply kept_intercept; assumption|intros [|]].
    + apply keeps_panic.
    + exact (proj2 Hw code).
Qed.

Lemma kept_interceptHandler (s : StaticServeMux) (h : Handler) :
  (forall c h, errors s !! c = Some h ->
  handler_keeps (header_kept K (Some (vL :: vs))) h) ->
  handler_keeps (header_kept K (Some (vL :: vs))) h ->
  handler_keeps (header_kept K (Some (vL :: vs))) (interceptHandler s h).
Proof.
  intros Hover Hh w r Hw. unfold interceptHandler.
  apply keeps_bind; [apply kept_alloc|intros irw].
  apply hoare_recovering.
  - apply Hh. apply kept_interceptResponseWriter; assumption.
  - intros p. destruct (PanicValue_eqb p (PPtr irw)); [apply keeps_ret|apply keeps_panic].
Qed.

Lemma ServeMux_match_In (entries : list (string * Handler)) (path : string) :
  forall best p h,
    ServeMux_match entries path best = Some (p, h) ->
    In (p, h) entries \/ best = Some (p, h).
Proof.
  induction entries as [|[pattern h0] rest IH]; intros best p h Hm; simpl in Hm.
  - right. exact Hm.
  - destruct (pathMatch pattern path).
    + destruct best as [[p0 h1]|].
      * destruct (String.length p0 <? String.length pattern)%nat.
        -- destruct (IH _ _ _ Hm) as [Hin|Hb].
           ++ left. right. exact Hin.
           ++ left. left. injection Hb as <- <-. reflexivity.
        -- destruct (IH _ _ _ Hm) as [Hin|Hb].
           ++ left. right. exact Hin.
           ++ right. exact Hb.
      * destruct (IH _ _ _ Hm) as [Hin|Hb].
        -- left. right. exact Hin.
        -- left. left. injection Hb as <- <-. reflexivity.
    + destruct (IH _ _ _ Hm) as [Hin|Hb].
      * left. right. exact Hin.
      * right. exact Hb.
Qed.

Lemma ServeMux_implicit_In (m : list (string * Handler)) (key : string) (h : Handler) :
  In (key, h) (ServeMux_implicit m) -> exists url, h = http_RedirectHandler url 301.
Proof.
  unfold ServeMux_implicit. intros Hin.
  apply in_flat_map in Hin as [e [_ Hin]]. cbv zeta in Hin.
  destruct (strings_HasSuffix e.1 "/" && _); [|destruct Hin].
  destruct Hin as [Heq|[]]. injection Heq as _ <-. eexists. reflexivity.
Qed.

(** What [mux.Handler] returns: a redirect of its own, a registered
    handler, or [http.NotFound]. *)
Lemma ServeMux_Handler_cases (mux : ServeMux) (r : Request) :
  (exists url, ServeMux_Handler mux r = http_RedirectHandler url 301)
  \/ (exists p, In (p, ServeMux_Handler mux r) (ServeMux_m mux))
  \/ ServeMux_Handler mux r = http_NotFound.
Proof.
  unfold ServeMux_Handler.
  destruct (negb (String.eqb (Method r) "CONNECT") && _);
    [left; eexists; reflexivity|].
  unfold ServeMux_handler.
  set (entries := ServeMux_m mux ++ ServeMux_implicit (ServeMux_m mux)).
  assert (Hfound : forall path p h,
             ServeMux_match entries path None = Some (p, h) ->
             (exists url, h = http_RedirectHandler url 301)
             \/ (exists p', In (p', h) (ServeMux_m mux))).
  { intros path p h Hm.
    destruct (ServeMux_match_In _ _ _ _ _ Hm) as [Hin|Hb]; [|discriminate].
    apply in_app_or in Hin as [Hin|Hin].
    - right. exists p. exact Hin.
    - left. exact (ServeMux_implicit_In _ _ _ Hin). }
  assert (Hplain : (exists url,
                      match ServeMux_match entries (URL_Path r) None with
                      | Some (_, h) => h
                      | None => http_NotFound
                      end = http_RedirectHandler url 301)
                   \/ (exists p,
                         In (p, match ServeMux_match entries (URL_Path r) None with
                                | Some (_, h) => h
                                | None => http_NotFound
                                end) (ServeMux_m mux))
                   \/ match ServeMux_match entries (URL_Path r) None with
                      | Some (_, h) => h
                      | None => http_NotFound
                      end = http_NotFound).
  { destruct (ServeMux_match entries (URL_Path r) None) as [[p h]|] eqn:Hm.
    - destruct (Hfound _ _ _ Hm) as [Hr|Hi]; [left; exact Hr|right; left; exact Hi].
    - right. right. reflexivity. }
  destruct (ServeMux_hosts mux); [|exact Hplain].
  destruct (ServeMux_match entries (Host r +:+ URL_Path r) None) as [[p h]|] eqn:Hm;
    [|exact Hplain].
  destruct (Hfound _ _ _ Hm) as [Hr|Hi]; [left; exact Hr|right; left; exact Hi].
Qed.

Lemma kept_ServeHTTP (s : StaticServeMux) :
  (forall c h, errors s !! c = Some h ->
  handler_keeps (header_kept K (Some (vL :: vs))) h) ->
  (forall p h, In (p, h) (ServeMux_m (StaticServeMux_ServeMux s)) ->
  handler_keeps (header_kept K (Some (vL :: vs))) h) ->
  handler_keeps (header_kept K (Some (vL :: vs))) (StaticServeMux_ServeHTTP s).
Proof.
  intros Hover Hroutes w r Hw. unfold StaticServeMux_ServeHTTP.
  destruct (String.eqb (RequestURI r) "*").
  - apply keeps_bind; [|intros _; exact (proj2 Hw 400)].
    apply keeps_when. apply kept_Set. auto.
  - apply kept_interceptHandler; [exact Hover| |exact Hw].
    destruct (ServeMux_Handler_cases (StaticServeMux_ServeMux s) r)
      as [[url ->]|[[p Hin]| ->]].
    + intros w' r' Hw'. apply kept_exec; [exact Hw'|apply HRedirect].
    + exact (Hroutes _ _ Hin).
    + intros w' r' Hw'. apply kept_http_Error; assumption.
Qed.

End KeptChain.

(** ** Requests that the mux redirects *)

(** A request for [//a.txt] is not given to the serve registered for
    [/]: the mux answers it with a permanent redirect to [/a.txt]. *)
Example noncanonical_path_is_redirected :
  let σ' := (StaticServeMux_ServeHTTP (env := sample_env)
               (renv := sample_redirect_env) sample_mux_plain response_writer
               (sample_request "//a.txt") fresh_world).2 in
  status (resp σ') = Some 301
  /\ sent (resp σ') !! "Location" = Some ["/a.txt"]
  /\ body (resp σ') = [].
Proof. cbv zeta. split; [reflexivity|]. split; reflexivity. Qed.

(** A request for [/old], where [/old/] is registered and [/old] is
    not, is answered with a permanent redirect to [/old/]. *)
Example subtree_root_is_redirected :
  let σ' := (StaticServeMux_ServeHTTP (env := sample_env)
               (renv := sample_redirect_env) (sample_mux_error_serve 403) response_writer
               (sample_request "/old") fresh_world).2 in
  status (resp σ') = Some 301
  /\ sent (resp σ') !! "Location" = Some ["/old/"]
  /\ body (resp σ') = [].
Proof. cbv zeta. split; [reflexivity|]. split; reflexivity. Qed.

(** ** Listener headers and serve headers *)

(** The loop of [CustomHeadersHandler] over headers that give [vL] to
    the name [K], started before the header is written and while [K] is
    absent: it leaves [K] with the value [vL]. *)
Lemma inject_establishes {env : Env} (K vL : string) (headers : Headers) :
  vL <> "" ->
  (forall k v, In (k, v) headers -> CanonicalHeaderKey k = K -> v = vL) ->
  forall σ,
    status (resp σ) = None ->
    header (resp σ) !! K = Some [vL]
    \/ (header (resp σ) !! K = None
        /\ exists k1, In (k1, vL) headers /\ CanonicalHeaderKey k1 = K) ->
    header_kept K (Some [vL])
      (for_each headers (fun kv =>
         do cur <- wHeader_Get kv.1;
         when (String.eqb cur "") (wHeader_Set kv.1 kv.2)) σ).2.
Proof.
  intros HvL. induction headers as [|[k v] rest IH]; intros Hall σ Hst Hcases.
  - destruct Hcases as [Hsome|[_ [k1 [[] _]]]].
    split; [exact Hsome|left; exact Hst].
  - simpl. unfold bind at 1. unfold bind at 1. unfold wHeader_Get, gets. simpl.
    assert (Hrest : forall k' v', In (k', v') rest -> CanonicalHeaderKey k' = K -> v' = vL).
    { intros k' v' Hin. apply Hall. right. exact Hin. }
    destruct (decide (CanonicalHeaderKey k = K)) as [Heq|Hne].
    + assert (v = vL) as -> by (apply (Hall k); [left; reflexivity|exact Heq]).
      destruct Hcases as [Hsome|[Hnone _]].
      * unfold Header_Get. rewrite Heq, Hsome.
        apply String.eqb_neq in HvL. rewrite HvL. simpl.
        apply IH; [exact Hrest|exact Hst|left; exact Hsome].
      * unfold Header_Get. rewrite Heq, Hnone. simpl.
        apply IH; [exact Hrest|exact Hst|].
        left. simpl. unfold Header_Set. rewrite Heq. apply lookup_insert_eq.
    + assert (Hstep : forall σ1,
                 (when (String.eqb (Header_Get (header (resp σ)) k) "") (wHeader_Set k v) σ).2 = σ1 ->
                 status (resp σ1) = None /\ header (resp σ1) !! K = header (resp σ) !! K).
      { intros σ1 <-. destruct (String.eqb _ ""); simpl.
        - split; [exact Hst|]. unfold Header_Set. apply lookup_insert_ne. exact Hne.
        - split; [exact Hst|reflexivity]. }
      destruct (when (String.eqb (Header_Get (header (resp σ)) k) "") (wHeader_Set k v) σ)
        as [[[]|p] σ1] eqn:Hw.
      * destruct (Hstep σ1 eq_refl) as [Hst1 Hh1].
        apply IH; [exact Hrest|exact Hst1|]. rewrite Hh1.
        destruct Hcases as [Hsome|[Hnone [k1 [Hin Hk1]]]]; [left; exact Hsome|].
        right. split; [exact Hnone|]. exists k1. split; [|exact Hk1].
        destruct Hin as [Heq|Hin]; [|exact Hin].
        injection Heq as -> ->. contradiction.
      * exfalso. destruct (String.eqb _ ""); discriminate Hw.
Qed.

Lemma finishRequest_keeps_header (K : string) (v : option (list string)) :
  hoare (header_kept K v) finishRequest (header_kept K v).
Proof.
  intros σ [Hh Hs]. unfold finishRequest, bind, gets, when, response_WriteHeader. simpl.
  destruct (status (resp σ)) as [st|] eqn:Hst; simpl.
  - split; [exact Hh|]. rewrite Hst. exact Hs.
  - rewrite Hst. split; simpl; [exact Hh|right; exact Hh].
Qed.

(** C6, as the code has it.  Let a listener inject the value [vL], not
    empty, for the header name of [k1], and let the routes be serves
    (whatever headers they inject themselves, the same name included) or
    handlers that do not touch that header, with overrides, file-serving
    code and a redirect of [net/http] that do not touch it either.  Let
    the name be none of those the program and [net/http] set themselves:
    [Content-Type] ([http.Error]), [Location] (the file server's
    redirect), [Connection] (the answer to [*]) and [Content-Encoding]
    ([GzipHandler]).  Whenever the response header is written, it
    carries the listener's value under that name: the per-listener
    injection runs first and the per-serve injection, which sets a
    header only when it is absent, leaves it alone. *)
Theorem listener_header_wins {env : Env} {renv : RedirectEnv} :
  forall (listener : Listener) (s : StaticServeMux) (r : Request) (σ : World)
         (k1 vL : string),
    In (k1, vL) (Listener_Headers listener) ->
    (forall k v, In (k, v) (Listener_Headers listener) ->
                 CanonicalHeaderKey k = CanonicalHeaderKey k1 -> v = vL) ->
    vL <> "" ->
    (forall p h, In (p, h) (ServeMux_m (StaticServeMux_ServeMux s)) ->
                 (exists sv, h = Serve_handler sv)
                 \/ (exists f, h = scripted f
                               /\ forall r', Keeps (CanonicalHeaderKey k1) (f r'))) ->
    (forall c h, errors s !! c = Some h ->
                 exists f, h = scripted f /\ forall r', Keeps (CanonicalHeaderKey k1) (f r')) ->
    CanonicalHeaderKey k1 <> CanonicalHeaderKey "Content-Type" ->
    CanonicalHeaderKey k1 <> CanonicalHeaderKey "Location" ->
    CanonicalHeaderKey k1 <> CanonicalHeaderKey "Connection" ->
    CanonicalHeaderKey k1 <> CanonicalHeaderKey "Content-Encoding" ->
    (forall r' name c, Keeps (CanonicalHeaderKey k1) (http_serveContent r' name c)) ->
    (forall r' entries, Keeps (CanonicalHeaderKey k1) (http_dirList r' entries)) ->
    (forall r' url code, Keeps (CanonicalHeaderKey k1) (http_Redirect r' url code)) ->
    header (resp σ) !! CanonicalHeaderKey k1 = None ->
    status (resp σ) = None ->
    status (resp (serve (listener_handler listener s) r σ)) <> None ->
    sent (resp (serve (listener_handler listener s) r σ)) !! CanonicalHeaderKey k1
      = Some [vL].
Proof.
  intros listener s r σ k1 vL Hin Hall HvL Hroutes Hover HCT HLoc HConn HCE
    HsC HdL HRd Hnone Hst.
  set (K := CanonicalHeaderKey k1) in *.
  set (J := header_kept K (Some [vL])).
  assert (Hmux : handler_keeps J (StaticServeMux_ServeHTTP s)).
  { apply kept_ServeHTTP; try assumption.
    - intros c h Hc. destruct (Hover c h Hc) as [f [-> Hf]].
      intros w r' Hw. apply kept_exec; [exact Hw|apply Hf].
    - intros p h Hp. destruct (Hroutes p h Hp) as [[sv ->]|[f [-> Hf]]].
      + apply kept_Serve_handler; assumption.
      + intros w r' Hw. apply kept_exec; [exact Hw|apply Hf]. }
  assert (Hinject : forall (w : ResponseWriter) σ0,
             writer_keeps J w ->
             status (resp σ0) = None -> header (resp σ0) !! K = None ->
             J (CustomHeadersHandler (StaticServeMux_ServeHTTP s)
                  (Listener_Headers listener) w r σ0).2).
  { intros w σ0 Hw Hst0 Hnone0. unfold CustomHeadersHandler.
    apply (hoare_bind (fun σ1 => σ1 = σ0) J J); [| auto | | reflexivity].
    - intros σ1 ->. apply inject_establishes; try assumption.
      right. split; [exact Hnone0|]. exists k1. split; [exact Hin|reflexivity].
    - intros _. apply Hmux. exact Hw. }
  assert (Hchain : J (listener_handler listener s response_writer r σ).2).
  { unfold listener_handler.
    destruct (Listener_Headers listener) as [|kv rest] eqn:Hheaders; [destruct Hin|].
    change (0 <? length (kv :: rest))%nat with true. cbv iota.
    destruct (Listener_Gzip listener).
    - unfold GzipHandler.
      destruct (negb (strings_Contains _ "gzip")).
      + apply Hinject; [apply response_writer_keeps_header|exact Hst|exact Hnone].
      + unfold bind at 1. unfold wHeader_Set at 1, modify. simpl.
        unfold bind at 1. unfold alloc at 1. simpl.
        apply (hoare_deferring (fun σ1 => status (resp σ1) = None
                                          /\ header (resp σ1) !! K = None) J).
        * intros σ1 [Hst1 Hnone1]. unfold bind, alloc. simpl.
          apply Hinject; [|exact Hst1|exact Hnone1].
          apply kept_GzipResponseWriter; [exact HCT|].
          apply response_writer_keeps_header.
        * apply kept_gzip_Close. apply response_writer_keeps_header.
        * simpl. split; [exact Hst|].
          unfold Header_Set. rewrite lookup_insert_ne; [exact Hnone|].
          intros Heq. apply HCE. symmetry. exact Heq.
    - apply Hinject; [apply response_writer_keeps_header|exact Hst|exact Hnone]. }
  assert (Hserve : J (serve (listener_handler listener s) r σ)).
  { unfold serve.
    destruct (listener_handler listener s response_writer r σ) as [[[]|p] σ'];
      simpl in Hchain.
    - apply finishRequest_keeps_header. exact Hchain.
    - exact Hchain. }
  intros Hsent. destruct Hserve as [_ [Hs|Hs]]; [contradiction|exact Hs].
Qed.

Lemma sample_scripts_Keep (K : string) :
  K <> "Content-Type" ->
  (forall r name c, Keeps (env := sample_env) K (sample_serveContent r name c))
  /\ (forall r entries, Keeps (env := sample_env) K (sample_dirList r entries)).
Proof.
  intros HK. split.
  - intros r name c. unfold sample_serveContent.
    apply Keeps_Get. intros v. destruct (String.eqb v "").
    + apply Keeps_Set; [intros H; apply HK; symmetry; exact H|].
      apply Keeps_WriteHeader, Keeps_Write, Keeps_Done.
    + apply Keeps_WriteHeader, Keeps_Write, Keeps_Done.
  - intros r entries. unfold sample_dirList.
    apply Keeps_Set; [intros H; apply HK; symmetry; exact H|].
    apply Keeps_Write, Keeps_Done.
Qed.

(** C6 on a listener that injects [X-Frame-Options: DENY] in front of a
    serve that injects [X-Frame-Options: SAMEORIGIN]. *)
Lemma listener_header_wins_witness :
  In ("X-Frame-Options", "DENY") (Listener_Headers (sample_listener false))
  /\ In ("X-Frame-Options", "SAMEORIGIN") (Serve_Headers sample_serve)
  /\ sent (resp (serve (listener_handler (env := sample_env) (renv := sample_redirect_env)
      (sample_listener false)
                          sample_mux_serve)
                   (sample_request "/a.txt") fresh_world)) !! "X-Frame-Options"
     = Some ["DENY"].
Proof.
  split; [left; reflexivity|]. split; [left; reflexivity|].
  apply (listener_header_wins (env := sample_env) (renv := sample_redirect_env)
      (sample_listener false) sample_mux_serve
           (sample_request "/a.txt") fresh_world "X-Frame-Options" "DENY").
  - left. reflexivity.
  - intros k v [H|[]] _. injection H as _ <-. reflexivity.
  - discriminate.
  - intros p h [H|[]]. injection H as _ <-. left. exists sample_serve. reflexivity.
  - intros c h H. vm_compute in H. discriminate H.
  - discriminate.
  - discriminate.
  - discriminate.
  - discriminate.
  - apply sample_scripts_Keep. discriminate.
  - apply sample_scripts_Keep. discriminate.
  - intros r' url code. apply Keeps_Set; [discriminate|].
    apply Keeps_WriteHeader, Keeps_Done.
  - reflexivity.
  - reflexivity.
  - vm_compute. discriminate.
Defined.

(** C6 as the specification words it fails: the listener injects
    [X-Frame-Options: DENY], the serve injects
    [X-Frame-Options: SAMEORIGIN], the file is served with status 200,
    and the client observes [DENY], the per-listener value. *)
Lemma serve_header_wins_counterexample :
  let σ' := serve (listener_handler (env := sample_env) (renv := sample_redirect_env)
      (sample_listener false)
                     sample_mux_serve)
              (sample_request "/a.txt") fresh_world in
  In ("X-Frame-Options", "DENY") (Listener_Headers (sample_listener false))
  /\ In ("X-Frame-Options", "SAMEORIGIN") (Serve_Headers sample_serve)
  /\ status (resp σ') = Some 200
  /\ sent (resp σ') !! "X-Frame-Options" = Some ["DENY"]
  /\ sent (resp σ') !! "X-Frame-Options" <> Some ["SAMEORIGIN"].
Proof.
  cbv zeta. split; [left; reflexivity|]. split; [left; reflexivity|].
  split; [reflexivity|]. split; [reflexivity|].
  intros H. vm_compute in H. discriminate H.
Qed.

(** ** The directory-listing guard *)

Lemma StripPrefix_strips {env : Env} (prefix : string) (h : Handler)
    (w : ResponseWriter) (r : Request) :
  prefix = "" \/ strings_HasPrefix (URL_Path r) prefix = true ->
  http_StripPrefix prefix h w r = h w (stripped_request prefix r).
Proof.
  intros H. unfold http_StripPrefix, stripped_request.
  destruct (String.eqb prefix "") eqn:E; [reflexivity|].
  destruct H as [->|H]; [rewrite String.eqb_refl in E; discriminate E|].
  rewrite H. reflexivity.
Qed.

(** The file server on a [PreventListingDir], inside the [recover] of
    [Serve.handler]: when an open fails, what happens is
    [http.Error(w, "Forbidden", 403)], and nothing was written before. *)
Lemma guarded_FileServer_failed_open {env : Env} (target : string)
    (w : ResponseWriter) (r : Request) (d : nat) (σ : World) :
  strings_HasSuffix (file_server_path r) "/index.html" = false ->
  os_Open target (path_Clean (file_server_path r)) = None
  \/ ((exists entries,
         os_Open target (path_Clean (file_server_path r)) = Some (Directory entries))
      /\ strings_HasSuffix (file_server_path r) "/" = true
      /\ os_Open target (path_Clean (file_server_path r) +:+ "/index.html") = None) ->
  recovering (http_FileServer (PreventListingDir_Open d target) w r)
    (fun p => if PanicValue_eqb p (PPtr d)
              then http_Error w (http_StatusText 403) 403
              else panic p) σ
  = http_Error w (http_StatusText 403) 403 σ.
Proof.
  intros Hidx Hopen.
  unfold recovering, http_FileServer, serveFile.
  change (if strings_HasPrefix (URL_Path r) "/" then URL_Path r else "/" +:+ URL_Path r)
    with (file_server_path r).
  change (URL_Path (with_URL_Path r (file_server_path r))) with (file_server_path r).
  rewrite Hidx.
  unfold bind at 1. unfold PreventListingDir_Open at 1, http_Dir, bind at 1, ret.
  destruct Hopen as [Hnone|[[entries Hdir] [Hslash Hindex]]].
  - rewrite Hnone. simpl. rewrite Nat.eqb_refl. reflexivity.
  - rewrite Hdir. simpl. rewrite Hslash. simpl.
    unfold bind at 1. unfold PreventListingDir_Open at 1, http_Dir, bind at 1, ret.
    rewrite Hindex. simpl. rewrite Nat.eqb_refl. reflexivity.
Qed.

(** The loop of [CustomHeadersHandler] returns, and only edits the
    header map. *)
Lemma inject_runs {env : Env} (headers : Headers) :
  forall σ, exists h',
    for_each headers (fun kv =>
      do cur <- wHeader_Get kv.1;
      when (String.eqb cur "") (wHeader_Set kv.1 kv.2)) σ
    = (Ret tt, set_resp (set_header (fun _ => h')) σ).
Proof.
  induction headers as [|[k v] rest IH]; intros σ.
  - exists (header (resp σ)). destruct σ as [[hd st sn bd] hp]. reflexivity.
  - assert (Hbody : exists h1,
               (do cur <- wHeader_Get (k, v).1;
                when (String.eqb cur "") (wHeader_Set (k, v).1 (k, v).2)) σ
               = (Ret tt, set_resp (set_header (fun _ => h1)) σ)).
    { unfold bind, wHeader_Get, gets. simpl.
      destruct (String.eqb (Header_Get (header (resp σ)) k) ""); simpl.
      - eexists. reflexivity.
      - exists (header (resp σ)). destruct σ as [[hd st sn bd] hp]. reflexivity. }
    destruct Hbody as [h1 Hh1].
    destruct (IH (set_resp (set_header (fun _ => h1)) σ)) as [h' Hh'].
    exists h'. change (for_each ((k, v) :: rest) ?f) with (do _ <- f (k, v); for_each rest f).
    unfold bind at 1. rewrite Hh1, Hh'. reflexivity.
Qed.

(** C9.  Under a serve with [PreventListing] (and no fixed error), a
    request whose file cannot be opened, or whose directory has no
    [index.html] that can be opened, is answered with status 403 and the
    reason phrase of 403, before the header was written otherwise.  For
    the file that cannot be opened, the same serve without the guard
    answers 404. *)
Theorem prevent_listing_failed_open_is_403 {env : Env} :
  forall (sv : Serve) (r : Request) (σ : World),
    Serve_Error sv <= 0 ->
    Serve_PreventListing sv = true ->
    status (resp σ) = None ->
    Serve_Path sv = "" \/ strings_HasPrefix (URL_Path r) (Serve_Path sv) = true ->
    let upath := file_server_path (stripped_request (Serve_Path sv) r) in
    strings_HasSuffix upath "/index.html" = false ->
    os_Open (Serve_Target sv) (path_Clean upath) = None
    \/ ((exists entries,
           os_Open (Serve_Target sv) (path_Clean upath) = Some (Directory entries))
        /\ strings_HasSuffix upath "/" = true
        /\ os_Open (Serve_Target sv) (path_Clean upath +:+ "/index.html") = None) ->
    (exists σ',
        Serve_handler sv response_writer r σ = (Ret tt, σ')
        /\ status (resp σ') = Some 403
        /\ body (resp σ') = body (resp σ) ++ bytes_of (http_StatusText 403 +:+ LF))
    /\ (os_Open (Serve_Target sv) (path_Clean upath) = None ->
        exists σ',
          Serve_handler {| Serve_Target := Serve_Target sv; Serve_Path := Serve_Path sv;
                           Serve_Error := Serve_Error sv; Serve_PreventListing := false;
                           Serve_Headers := Serve_Headers sv |} response_writer r σ
            = (Ret tt, σ')
          /\ status (resp σ') = Some 404).
Proof.
  intros sv r σ Herr Hguard Hst Hprefix upath Hidx Hopen.
  assert (Herr' : (0 <? Serve_Error sv) = false) by (apply Z.ltb_ge; exact Herr).
  split.
  - unfold Serve_handler. rewrite Herr', Hguard.
    rewrite (StripPrefix_strips _ _ _ _ Hprefix).
    set (r' := stripped_request (Serve_Path sv) r) in *.
    assert (Hcore : forall σ0, status (resp σ0) = None -> body (resp σ0) = body (resp σ) ->
              exists σ',
                (do d <- alloc (OPreventListingDir (Serve_Target sv));
                 recovering
                   (http_FileServer (PreventListingDir_Open d (Serve_Target sv))
                      response_writer r')
                   (fun p => if PanicValue_eqb p (PPtr d)
                             then http_Error response_writer (http_StatusText 403) 403
                             else panic p)) σ0 = (Ret tt, σ')
                /\ status (resp σ') = Some 403
                /\ body (resp σ') = body (resp σ) ++ bytes_of (http_StatusText 403 +:+ LF)).
    { intros σ0 Hst0 Hbody0. unfold bind, alloc. simpl.
      rewrite (guarded_FileServer_failed_open _ _ _ _ _ Hidx Hopen).
      rewrite http_Error_unsent by exact Hst0.
      eexists. split; [reflexivity|]. simpl. rewrite Hbody0. split; reflexivity. }
    destruct (0 <? length (Serve_Headers sv))%nat.
    + unfold CustomHeadersHandler, bind at 1.
      destruct (inject_runs (Serve_Headers sv) σ) as [h' ->].
      apply Hcore; [exact Hst|reflexivity].
    + apply Hcore; [exact Hst|reflexivity].
  - intros Hnone. unfold Serve_handler. simpl. rewrite Herr'.
    rewrite (StripPrefix_strips _ _ _ _ Hprefix).
    set (r' := stripped_request (Serve_Path sv) r) in *.
    assert (Hcore : forall σ0, status (resp σ0) = None ->
              exists σ',
                http_FileServer (http_Dir (Serve_Target sv)) response_writer r' σ0
                  = (Ret tt, σ')
                /\ status (resp σ') = Some 404).
    { intros σ0 Hst0. unfold http_FileServer, serveFile.
      change (if strings_HasPrefix (URL_Path r') "/" then URL_Path r'
              else "/" +:+ URL_Path r') with upath.
      change (URL_Path (with_URL_Path r' upath)) with upath.
      rewrite Hidx.
      unfold bind at 1. unfold http_Dir at 1, ret. rewrite Hnone.
      unfold http_NotFound. rewrite http_Error_unsent by exact Hst0.
      eexists. split; reflexivity. }
    destruct (0 <? length (Serve_Headers sv))%nat.
    + unfold CustomHeadersHandler, bind at 1.
      destruct (inject_runs (Serve_Headers sv) σ) as [h' ->].
      apply Hcore. exact Hst.
    + apply Hcore. exact Hst.
Qed.



(** C9 on a file that does not exist under the guarded serve. *)
Lemma prevent_listing_failed_open_is_403_witness :
  os_Open (Env := sample_env) (Serve_Target sample_serve) "/nope" = None
  /\ status (resp (Serve_handler (env := sample_env) sample_serve response_writer
                     (sample_request "/nope") fresh_world).2) = Some 403.
Proof.
  split; [reflexivity|].
  destruct (prevent_listing_failed_open_is_403 (env := sample_env) sample_serve
              (sample_request "/nope") fresh_world
              ltac:(simpl; lia) eq_refl eq_refl (or_intror eq_refl) eq_refl
              (or_introl eq_refl)) as [(σ' & Hrun & Hst & _) _].
  rewrite Hrun. exact Hst.
Defined.

(** The directory [docs] has no index page: 403 as well. *)
Example prevent_listing_directory_without_index :
  status (resp (Serve_handler (env := sample_env) sample_serve response_writer
                  (sample_request "/docs/") fresh_world).2) = Some 403.
Proof. reflexivity. Qed.

(** ** Compression *)

Lemma response_Write_runs (b : bytes) (σ : World) :
  exists ρ',
    response_Write b σ = (Ret tt, {| resp := ρ'; heap := heap σ |})
    /\ body ρ' = body (resp σ) ++ b.
Proof.
  unfold response_Write, bind, gets, when, response_WriteHeader, modify. simpl.
  destruct (status (resp σ)) as [st|] eqn:Hst; simpl.
  - eexists. split; reflexivity.
  - rewrite Hst. eexists. split; reflexivity.
Qed.

Lemma for_each_response_Write (cs : list bytes) :
  forall σ, exists ρ',
    for_each cs response_Write σ = (Ret tt, {| resp := ρ'; heap := heap σ |})
    /\ body ρ' = body (resp σ) ++ concat cs.
Proof.
  induction cs as [|b cs IH]; intros σ.
  - exists (resp σ). simpl. rewrite app_nil_r. destruct σ. split; reflexivity.
  - destruct (response_Write_runs b σ) as (ρ1 & Hrun1 & Hbody1).
    destruct (IH {| resp := ρ1; heap := heap σ |}) as (ρ' & Hrun & Hbody).
    exists ρ'. split.
    + simpl. unfold bind. rewrite Hrun1. exact Hrun.
    + rewrite Hbody. simpl. rewrite Hbody1, app_assoc. reflexivity.
Qed.

Lemma gzip_Writer_Write_runs {env : Env} (gz : nat) (hist b : bytes) (σ : World) :
  heap σ !! gz = Some (OGzipWriter hist) ->
  exists ρ',
    gzip_Writer_Write gz response_writer b σ
    = (Ret tt, {| resp := ρ'; heap := <[gz := OGzipWriter (hist ++ b)]> (heap σ) |})
    /\ body ρ' = body (resp σ) ++ concat (gzip_write hist b).
Proof.
  intros Hgz. unfold gzip_Writer_Write, bind at 1, load. rewrite Hgz.
  unfold bind at 1, store.
  destruct (for_each_response_Write (gzip_write hist b)
              {| resp := resp σ; heap := <[gz := OGzipWriter (hist ++ b)]> (heap σ) |})
    as (ρ' & Hrun & Hbody).
  exists ρ'. split; [exact Hrun|exact Hbody].
Qed.

Lemma GzipResponseWriter_Write_runs {env : Env} (grw gz : nat) (hist b : bytes)
    (got : bool) (σ : World) :
  heap σ !! gz = Some (OGzipWriter hist) ->
  heap σ !! grw = Some (OGzipResponseWriter got) ->
  exists σ',
    GzipResponseWriter_Write grw gz response_writer b σ = (Ret tt, σ')
    /\ heap σ' !! gz = Some (OGzipWriter (hist ++ b))
    /\ heap σ' !! grw = Some (OGzipResponseWriter true)
    /\ body (resp σ') = body (resp σ) ++ concat (gzip_write hist b).
Proof.
  intros Hgz Hgrw.
  assert (Hne : gz <> grw) by (intros ->; rewrite Hgz in Hgrw; discriminate Hgrw).
  assert (Hlt_gz : (gz < length (heap σ))%nat) by (eapply lookup_lt_Some; exact Hgz).
  assert (Hlt_grw : (grw < length (heap σ))%nat) by (eapply lookup_lt_Some; exact Hgrw).
  unfold GzipResponseWriter_Write, bind at 1, load. rewrite Hgrw.
  assert (Hsniff : exists σ1,
             when (negb got)
               (do ct <- wHeader_Get "Content-Type";
                do _ <- when (String.eqb ct "")
                          (wHeader_Set "Content-Type" (http_DetectContentType b));
                store grw (OGzipResponseWriter true)) σ = (Ret tt, σ1)
             /\ heap σ1 !! gz = Some (OGzipWriter hist)
             /\ heap σ1 !! grw = Some (OGzipResponseWriter true)
             /\ body (resp σ1) = body (resp σ)).
  { destruct got; simpl.
    - exists σ. repeat split; assumption.
    - unfold bind, wHeader_Get, gets, store. simpl.
      destruct (String.eqb (Header_Get (header (resp σ)) "Content-Type") ""); simpl;
        (eexists; split; [reflexivity|]; simpl; split;
         [rewrite list_lookup_insert_ne by (intros Heq; apply Hne; symmetry; exact Heq);
          exact Hgz
         |split; [apply list_lookup_insert_eq; exact Hlt_grw|reflexivity]]). }
  destruct Hsniff as (σ1 & Hrun1 & Hgz1 & Hgrw1 & Hbody1).
  unfold bind at 1. rewrite Hrun1.
  destruct (gzip_Writer_Write_runs gz hist b σ1 Hgz1) as (ρ' & Hrun & Hbody).
  eexists. split; [exact Hrun|]. simpl.
  assert (Hlt1 : (gz < length (heap σ1))%nat) by (eapply lookup_lt_Some; exact Hgz1).
  split; [apply list_lookup_insert_eq; exact Hlt1|].
  split; [rewrite list_lookup_insert_ne by exact Hne; exact Hgrw1|].
  rewrite Hbody, Hbody1. reflexivity.
Qed.

(** A script that writes [chunks], run on the compressing writer: the
    [gzip.Writer] has then been given all the chunks, and the body holds
    what it has written so far. *)
Lemma exec_emits_gzip {env : Env} (K : string) (grw gz : nat) (s : Script)
    (chunks : list bytes) :
  Emits K s chunks ->
  forall (σ : World) (hist : bytes) (got : bool),
    heap σ !! gz = Some (OGzipWriter hist) ->
    heap σ !! grw = Some (OGzipResponseWriter got) ->
    exists σ' got',
      exec s (GzipResponseWriter grw gz response_writer) σ = (Ret tt, σ')
      /\ heap σ' !! gz = Some (OGzipWriter (hist ++ concat chunks))
      /\ heap σ' !! grw = Some (OGzipResponseWriter got')
      /\ body (resp σ') ++ concat (gzip_close (hist ++ concat chunks))
         = body (resp σ) ++ concat (gzip_stream hist chunks).
Proof.
  intros Hs. induction Hs as
    [ | key cont chunks _ IH | key value cont chunks _ _ IH | key value cont chunks _ _ IH
      | key cont chunks _ _ IH | cont chunks _ IH | code cont chunks _ IH
      | b cont chunks _ IH ];
    intros σ hist got Hgz Hgrw; simpl exec.
  - exists σ, got. simpl. rewrite app_nil_r. repeat split; assumption.
  - unfold bind, wHeader_Get, gets. apply (IH _ σ hist got Hgz Hgrw).
  - exact (IH (set_resp (set_header (fun h => Header_Set h key value)) σ)
             hist got Hgz Hgrw).
  - exact (IH (set_resp (set_header (fun h => Header_Add h key value)) σ)
             hist got Hgz Hgrw).
  - exact (IH (set_resp (set_header (fun h => Header_Del h key)) σ)
             hist got Hgz Hgrw).
  - unfold bind, wHeader_keys, gets. apply (IH _ σ hist got Hgz Hgrw).
  - unfold bind at 1. simpl WriteHeader.
    assert (Hwh : exists ρ1, response_WriteHeader code σ
                             = (Ret tt, {| resp := ρ1; heap := heap σ |})
                             /\ body ρ1 = body (resp σ)).
    { unfold response_WriteHeader. destruct (status (resp σ)).
      - exists (resp σ). destruct σ. split; reflexivity.
      - eexists. split; reflexivity. }
    destruct Hwh as (ρ1 & -> & Hbody1).
    destruct (IH {| resp := ρ1; heap := heap σ |} hist got Hgz Hgrw)
      as (σ' & got' & Hrun & Hgz' & Hgrw' & Hbody).
    exists σ', got'. simpl in Hbody. rewrite Hbody1 in Hbody.
    repeat split; assumption.
  - unfold bind at 1. simpl Write.
    destruct (GzipResponseWriter_Write_runs grw gz hist b got σ Hgz Hgrw)
      as (σ1 & -> & Hgz1 & Hgrw1 & Hbody1).
    destruct (IH σ1 (hist ++ b) true Hgz1 Hgrw1)
      as (σ' & got' & Hrun & Hgz' & Hgrw' & Hbody).
    exists σ', got'. simpl concat. rewrite app_assoc.
    split; [exact Hrun|]. split; [exact Hgz'|]. split; [exact Hgrw'|].
    rewrite Hbody, Hbody1. simpl gzip_stream.
    rewrite concat_app, !app_assoc. reflexivity.
Qed.

Lemma Emits_Keeps {env : Env} (K : string) (s : Script) (chunks : list bytes) :
  Emits K s chunks -> Keeps K s.
Proof.
  intros Hs. induction Hs; constructor; assumption.
Qed.

(** The same script on the server's writer: the body receives the
    chunks as they are. *)
Lemma exec_emits_plain {env : Env} (K : string) (s : Script) (chunks : list bytes) :
  Emits K s chunks ->
  forall σ, exists σ',
    exec s response_writer σ = (Ret tt, σ')
    /\ body (resp σ') = body (resp σ) ++ concat chunks.
Proof.
  intros Hs. induction Hs as
    [ | key cont chunks _ IH | key value cont chunks _ _ IH | key value cont chunks _ _ IH
      | key cont chunks _ _ IH | cont chunks _ IH | code cont chunks _ IH
      | b cont chunks _ IH ];
    intros σ; simpl exec.
  - exists σ. simpl. rewrite app_nil_r. split; reflexivity.
  - unfold bind, wHeader_Get, gets. apply IH.
  - exact (IH (set_resp (set_header (fun h => Header_Set h key value)) σ)).
  - exact (IH (set_resp (set_header (fun h => Header_Add h key value)) σ)).
  - exact (IH (set_resp (set_header (fun h => Header_Del h key)) σ)).
  - unfold bind, wHeader_keys, gets. apply IH.
  - unfold bind at 1. simpl WriteHeader.
    assert (Hwh : exists ρ1, response_WriteHeader code σ
                             = (Ret tt, {| resp := ρ1; heap := heap σ |})
                             /\ body ρ1 = body (resp σ)).
    { unfold response_WriteHeader. destruct (status (resp σ)).
      - exists (resp σ). destruct σ. split; reflexivity.
      - eexists. split; reflexivity. }
    destruct Hwh as (ρ1 & -> & Hbody1).
    destruct (IH {| resp := ρ1; heap := heap σ |}) as (σ' & Hrun & Hbody).
    exists σ'. simpl in Hbody. rewrite Hbody1 in Hbody. split; assumption.
  - unfold bind at 1. simpl Write.
    destruct (response_Write_runs b σ) as (ρ1 & -> & Hbody1).
    destruct (IH {| resp := ρ1; heap := heap σ |}) as (σ' & Hrun & Hbody).
    exists σ'. split; [exact Hrun|].
    rewrite Hbody. simpl. rewrite Hbody1, app_assoc. reflexivity.
Qed.

Lemma finishRequest_runs (σ : World) :
  exists ρ',
    finishRequest σ = (Ret tt, {| resp := ρ'; heap := heap σ |})
    /\ body ρ' = body (resp σ)
    /\ status ρ' <> None.
Proof.
  unfold finishRequest, bind, gets, when, response_WriteHeader. simpl.
  destruct (status (resp σ)) as [st|] eqn:Hst; simpl.
  - exists (resp σ). destruct σ as [ρ hp]. simpl in *.
    split; [reflexivity|]. split; [reflexivity|]. rewrite Hst. discriminate.
  - rewrite Hst. eexists. split; [reflexivity|]. split; [reflexivity|]. discriminate.
Qed.

Lemma gzip_Writer_Close_runs {env : Env} (gz : nat) (hist : bytes) (σ : World) :
  heap σ !! gz = Some (OGzipWriter hist) ->
  exists ρ',
    gzip_Writer_Close gz response_writer σ = (Ret tt, {| resp := ρ'; heap := heap σ |})
    /\ body ρ' = body (resp σ) ++ concat (gzip_close hist).
Proof.
  intros Hgz. unfold gzip_Writer_Close, bind at 1, load. rewrite Hgz.
  apply for_each_response_Write.
Qed.

(** The compressing branch of [GzipHandler] around a handler that
    returns: the stream is closed on the world the handler left. *)
Lemma GzipHandler_around {env : Env} (h : Handler) (r : Request) (σ σ4 : World)
    (hist : bytes) :
  strings_Contains (Header_Get (Request_Header r) "Accept-Encoding") "gzip" = true ->
  h (GzipResponseWriter (length (heap σ ++ [OGzipWriter []])) (length (heap σ))
       response_writer) r
    {| resp := set_header (fun hd => Header_Set hd "Content-Encoding" "gzip") (resp σ);
       heap := (heap σ ++ [OGzipWriter []]) ++ [OGzipResponseWriter false] |}
    = (Ret tt, σ4) ->
  heap σ4 !! length (heap σ) = Some (OGzipWriter hist) ->
  exists ρ',
    GzipHandler h response_writer r σ = (Ret tt, {| resp := ρ'; heap := heap σ4 |})
    /\ body ρ' = body (resp σ4) ++ concat (gzip_close hist)
    /\ (forall K v, header_kept K v σ4 ->
                    header_kept K v {| resp := ρ'; heap := heap σ4 |}).
Proof.
  intros Haccept Hrun Hgz4. unfold GzipHandler. rewrite Haccept.
  change (negb true) with false. cbv iota.
  set (σ1 := set_resp (set_header (fun hd => Header_Set hd "Content-Encoding" "gzip")) σ).
  set (gz := length (heap σ)) in *.
  set (σ1' := {| resp := resp σ1; heap := heap σ ++ [OGzipWriter []] |}).
  set (grw := length (heap σ ++ [OGzipWriter []])) in *.
  rewrite (bind_Ret (wHeader_Set "Content-Encoding" "gzip") _ σ σ1 tt eq_refl).
  rewrite (bind_Ret (alloc (OGzipWriter [])) _ σ1 σ1' gz eq_refl).
  destruct (gzip_Writer_Close_runs gz _ σ4 Hgz4) as (ρ' & Hclose & Hbody').
  exists ρ'. split; [|split].
  - apply (deferring_Ret _ _ σ1' σ4); [|exact Hclose].
    rewrite (bind_Ret (alloc (OGzipResponseWriter false)) _ σ1'
               {| resp := resp σ1; heap := heap σ1' ++ [OGzipResponseWriter false] |}
               grw eq_refl).
    exact Hrun.
  - exact Hbody'.
  - intros K v HJ.
    pose proof (kept_gzip_Close K v gz response_writer
                  (response_writer_keeps_header K v) σ4 HJ) as HJ'.
    rewrite Hclose in HJ'. exact HJ'.
Qed.

(** The compressing branch of [GzipHandler] around a handler that writes
    [chunks]: it returns, and the body has received the whole stream of
    the [gzip.Writer]. *)
Lemma GzipHandler_compresses {env : Env} (f : Request -> Script) (r : Request)
    (chunks : list bytes) (σ : World) :
  strings_Contains (Header_Get (Request_Header r) "Accept-Encoding") "gzip" = true ->
  Emits (CanonicalHeaderKey "Content-Encoding") (f r) chunks ->
  exists σ',
    GzipHandler (scripted f) response_writer r σ = (Ret tt, σ')
    /\ body (resp σ') = body (resp σ) ++ concat (gzip_stream [] chunks).
Proof.
  intros Haccept Hemits.
  set (gz := length (heap σ)).
  set (grw := length (heap σ ++ [OGzipWriter []])).
  set (σ2 := {| resp := set_header (fun hd => Header_Set hd "Content-Encoding" "gzip")
                          (resp σ);
                heap := (heap σ ++ [OGzipWriter []]) ++ [OGzipResponseWriter false] |}).
  assert (Hgz : heap σ2 !! gz = Some (OGzipWriter [])).
  { subst σ2 gz. simpl. rewrite lookup_app_l by (rewrite length_app; simpl; lia).
    apply list_lookup_middle. reflexivity. }
  assert (Hgrw : heap σ2 !! grw = Some (OGzipResponseWriter false)).
  { subst σ2 grw. simpl. apply list_lookup_middle. reflexivity. }
  destruct (exec_emits_gzip _ grw gz (f r) chunks Hemits σ2 [] false Hgz Hgrw)
    as (σ3 & got' & Hrun & Hgz3 & _ & Hbody3).
  destruct (GzipHandler_around (scripted f) r σ σ3 _ Haccept Hrun Hgz3)
    as (ρ' & Hgzip & Hbody' & _).
  eexists. split; [exact Hgzip|].
  simpl. rewrite Hbody'. simpl in Hbody3. exact Hbody3.
Qed.

(** C7.  Let the wrapped handler serve a known file: it writes the
    file's bytes, in any number of chunks, and leaves [Content-Encoding]
    alone; let the response be fresh.  For a request whose
    [Accept-Encoding] contains [gzip], the response is sent with
    [Content-Encoding: gzip] and its body is the stream of a
    [gzip.Writer] that was given the file's bytes and closed, so it
    decompresses to these bytes.  For any other request the body is the
    file's bytes and no [Content-Encoding] is sent. *)
Theorem gzip_roundtrip {env : Env} :
  forall (gunzip : bytes -> option bytes) (f : Request -> Script) (r : Request)
         (chunks : list bytes) (σ : World),
    (forall cs, gunzip (concat (gzip_stream [] cs)) = Some (concat cs)) ->
    CanonicalHeaderKey "Content-Type" <> CanonicalHeaderKey "Content-Encoding" ->
    Emits (CanonicalHeaderKey "Content-Encoding") (f r) chunks ->
    status (resp σ) = None ->
    body (resp σ) = [] ->
    header (resp σ) !! CanonicalHeaderKey "Content-Encoding" = None ->
    let σ' := serve (GzipHandler (scripted f)) r σ in
    if strings_Contains (Header_Get (Request_Header r) "Accept-Encoding") "gzip"
    then sent (resp σ') !! CanonicalHeaderKey "Content-Encoding" = Some ["gzip"]
         /\ body (resp σ') = concat (gzip_stream [] chunks)
         /\ gunzip (body (resp σ')) = Some (concat chunks)
    else sent (resp σ') !! CanonicalHeaderKey "Content-Encoding" = None
         /\ body (resp σ') = concat chunks.
Proof.
  intros gunzip f r chunks σ Hlaw Hkeys Hemits Hst Hbody Hnone σ'.
  set (CE := CanonicalHeaderKey "Content-Encoding") in *.
  pose proof (Emits_Keeps _ _ _ Hemits) as Hkeeps.
  destruct (strings_Contains (Header_Get (Request_Header r) "Accept-Encoding") "gzip")
    eqn:Haccept.
  - destruct (GzipHandler_compresses f r chunks σ Haccept Hemits) as (σ1 & Hrun & Hbody1).
    assert (HJ : header_kept CE (Some ["gzip"]) σ1).
    { replace σ1 with (GzipHandler (scripted f) response_writer r σ).2
        by (rewrite Hrun; reflexivity).
      unfold GzipHandler. rewrite Haccept. change (negb true) with false. cbv iota.
      unfold bind at 1. unfold wHeader_Set at 1, modify.
      unfold bind at 1. unfold alloc at 1.
      apply (hoare_deferring (header_kept CE (Some ["gzip"])) (header_kept CE (Some ["gzip"]))).
      - apply keeps_bind; [apply kept_alloc|intros grw].
        unfold scripted. apply kept_exec; [|exact Hkeeps].
        apply kept_GzipResponseWriter.
        + intros Heq. apply Hkeys. symmetry. exact Heq.
        + apply response_writer_keeps_header.
      - apply kept_gzip_Close. apply response_writer_keeps_header.
      - split; simpl.
        + unfold Header_Set. apply lookup_insert_eq.
        + left. exact Hst. }
    subst σ'. unfold serve. rewrite Hrun.
    pose proof (finishRequest_keeps_header CE _ σ1 HJ) as [_ Hsent].
    destruct (finishRequest_runs σ1) as (ρ' & Hfin & Hbody' & Hst').
    rewrite Hfin in Hsent |- *. simpl in Hsent |- *.
    destruct Hsent as [Hsent|Hsent]; [contradiction|].
    assert (Hb : body ρ' = concat (gzip_stream [] chunks)).
    { rewrite Hbody', Hbody1, Hbody. reflexivity. }
    split; [exact Hsent|]. split; [exact Hb|]. rewrite Hb. apply Hlaw.
  - assert (Hplain : GzipHandler (scripted f) response_writer r σ
                     = exec (f r) response_writer σ).
    { unfold GzipHandler. rewrite Haccept. reflexivity. }
    destruct (exec_emits_plain _ _ _ Hemits σ) as (σ1 & Hrun & Hbody1).
    assert (HJ : header_kept CE None σ1).
    { replace σ1 with (exec (f r) response_writer σ).2 by (rewrite Hrun; reflexivity).
      apply exec_header_kept; [apply response_writer_keeps_header|exact Hkeeps|].
      split; [exact Hnone|left; exact Hst]. }
    subst σ'. unfold serve. rewrite Hplain, Hrun.
    pose proof (finishRequest_keeps_header CE _ σ1 HJ) as [_ Hsent].
    destruct (finishRequest_runs σ1) as (ρ' & Hfin & Hbody' & Hst').
    rewrite Hfin in Hsent |- *. simpl in Hsent |- *.
    destruct Hsent as [Hsent|Hsent]; [contradiction|].
    split; [exact Hsent|]. rewrite Hbody', Hbody1, Hbody. reflexivity.
Qed.

Lemma sample_gzip_stream (cs : list bytes) :
  forall hist, gzip_stream (env := sample_env) hist cs = [sample_magic ++ hist ++ concat cs].
Proof.
  induction cs as [|b cs IH]; intros hist; simpl.
  - rewrite app_nil_r. reflexivity.
  - rewrite IH, <- app_assoc. reflexivity.
Qed.

Lemma sample_gzip_law (cs : list bytes) :
  sample_gunzip (concat (gzip_stream (env := sample_env) [] cs)) = Some (concat cs).
Proof. rewrite sample_gzip_stream. simpl. rewrite app_nil_r. reflexivity. Qed.

Lemma sample_file_handler_Emits (r : Request) :
  Emits (env := sample_env) "Content-Encoding" (sample_file_handler r) [bytes_of "hello"].
Proof.
  unfold sample_file_handler, sample_serveContent.
  apply Emits_Get. intros v. destruct (String.eqb v "").
  - apply Emits_Set; [discriminate|].
    apply Emits_WriteHeader, Emits_Write, Emits_Done.
  - apply Emits_WriteHeader, Emits_Write, Emits_Done.
Qed.

(** C7 on a request that accepts gzip, for the file [a.txt]. *)
Lemma gzip_roundtrip_witness :
  let σ' := serve (GzipHandler (env := sample_env) (scripted (env := sample_env)
                                                     sample_file_handler))
              (sample_gzip_request "/a.txt") fresh_world in
  sent (resp σ') !! "Content-Encoding" = Some ["gzip"]
  /\ sample_gunzip (body (resp σ')) = Some (bytes_of "hello").
Proof.
  pose proof (gzip_roundtrip (env := sample_env) sample_gunzip sample_file_handler
                (sample_gzip_request "/a.txt") [bytes_of "hello"] fresh_world
                sample_gzip_law ltac:(discriminate)
                (sample_file_handler_Emits _) eq_refl eq_refl eq_refl) as H.
  cbv zeta in H |- *.
  assert (Hacc : strings_Contains
                   (Header_Get (env := sample_env)
                      (Request_Header (sample_gzip_request "/a.txt")) "Accept-Encoding")
                   "gzip" = true) by reflexivity.
  rewrite Hacc in H. destruct H as (Hce & _ & Hgunzip).
  split; [exact Hce|exact Hgunzip].
Defined.

(** Without [Accept-Encoding] the file goes out as it is. *)
Example gzip_not_requested :
  let σ' := serve (GzipHandler (env := sample_env) (scripted (env := sample_env)
                                                     sample_file_handler))
              (sample_request "/a.txt") fresh_world in
  sent (resp σ') !! "Content-Encoding" = None
  /\ body (resp σ') = bytes_of "hello".
Proof. cbv zeta. split; reflexivity. Qed.

(** *** Through the listener's chain

    The handler that [main] gives to a gzip-enabled listener, for a
    request routed to a plain file serve whose file exists: the chain
    under [GzipHandler] (listener headers, the mux, the interceptor,
    [http.StripPrefix], serve headers, [http.FileServer]) hands the
    compressing writer to the library's [serveContent]. *)

Lemma exec_unintercepted {env : Env} (s : StaticServeMux) (irw : nat) (w : ResponseWriter)
    (r : Request) (script : Script) :
  Unintercepted s script ->
  forall σ, exec script (interceptResponseWriter irw w r s) σ = exec script w σ.
Proof.
  intros Hs. induction Hs as
    [ | key cont _ IH | key value cont _ IH | key value cont _ IH | key cont _ IH
      | cont _ IH | code cont Hnone Hlt _ IH | b cont _ IH | p ];
    intros σ; simpl exec.
  - reflexivity.
  - unfold bind, wHeader_Get, gets. apply IH.
  - unfold bind, wHeader_Set, modify. apply IH.
  - unfold bind, wHeader_Add, modify. apply IH.
  - unfold bind, wHeader_Del, modify. apply IH.
  - unfold bind, wHeader_keys, gets. apply IH.
  - assert (Hwh : interceptResponseWriter_WriteHeader irw w r s code σ
                  = WriteHeader w code σ).
    { unfold interceptResponseWriter_WriteHeader, intercept. rewrite Hnone.
      destruct (Z.ltb_spec code 400) as [_|Hge]; [|lia]. reflexivity. }
    unfold bind. cbn [WriteHeader interceptResponseWriter]. rewrite Hwh.
    destruct (WriteHeader w code σ) as [[[]|p] σ1]; [apply IH|reflexivity].
  - unfold bind. simpl Write.
    destruct (Write w b σ) as [[[]|p] σ1]; [apply IH|reflexivity].
  - reflexivity.
Qed.

(** The loop of [CustomHeadersHandler] leaves a header that is present
    and not empty. *)
Lemma inject_runs_keeping {env : Env} (K v0 : string) (vs : list string)
    (headers : Headers) :
  v0 <> "" ->
  forall σ,
    header (resp σ) !! K = Some (v0 :: vs) ->
    exists h',
      for_each headers (fun kv =>
        do cur <- wHeader_Get kv.1;
        when (String.eqb cur "") (wHeader_Set kv.1 kv.2)) σ
      = (Ret tt, set_resp (set_header (fun _ => h')) σ)
      /\ h' !! K = Some (v0 :: vs).
Proof.
  intros Hv0. induction headers as [|[k v] rest IH]; intros σ HK.
  - exists (header (resp σ)). split; [|exact HK].
    destruct σ as [[hd st sn bd] hp]. reflexivity.
  - assert (Hbody : exists h1,
               (do cur <- wHeader_Get (k, v).1;
                when (String.eqb cur "") (wHeader_Set (k, v).1 (k, v).2)) σ
               = (Ret tt, set_resp (set_header (fun _ => h1)) σ)
               /\ h1 !! K = Some (v0 :: vs)).
    { unfold bind, wHeader_Get, gets. simpl.
      destruct (decide (CanonicalHeaderKey k = K)) as [Heq|Hne].
      - unfold Header_Get. rewrite Heq, HK.
        apply String.eqb_neq in Hv0. rewrite Hv0. simpl.
        exists (header (resp σ)). split; [|exact HK].
        destruct σ as [[hd st sn bd] hp]. reflexivity.
      - destruct (String.eqb (Header_Get (header (resp σ)) k) ""); simpl.
        + eexists. split; [reflexivity|].
          unfold Header_Set. rewrite lookup_insert_ne; [exact HK|exact Hne].
        + exists (header (resp σ)). split; [|exact HK].
          destruct σ as [[hd st sn bd] hp]. reflexivity. }
    destruct Hbody as (h1 & Hh1 & HK1).
    destruct (IH (set_resp (set_header (fun _ => h1)) σ) HK1) as (h' & Hh' & HK').
    exists h'. split; [|exact HK'].
    change (for_each ((k, v) :: rest) ?f) with (do _ <- f (k, v); for_each rest f).
    unfold bind at 1. rewrite Hh1, Hh'. reflexivity.
Qed.



Lemma sample_serveContent_Unintercepted (r : Request) (name : string) (c : bytes) :
  Unintercepted sample_mux_plain (sample_serveContent r name c).
Proof.
  unfold sample_serveContent.
  apply Unintercepted_Get. intros v. destruct (String.eqb v "").
  - apply Unintercepted_Set.
    apply Unintercepted_WriteHeader; [reflexivity|lia|].
    apply Unintercepted_Write, Unintercepted_Done.
  - apply Unintercepted_WriteHeader; [reflexivity|lia|].
    apply Unintercepted_Write, Unintercepted_Done.
Qed.



(** ** The earlier generation's error page *)

Lemma for_each_wHeader_Del {env : Env} (ks : list string) :
  forall σ,
    for_each ks wHeader_Del σ
    = (Ret tt, set_resp (set_header (fun h => foldl Header_Del h ks)) σ).
Proof.
  induction ks as [|k ks IH]; intros σ.
  - destruct σ as [[hd st sn bd] hp]. reflexivity.
  - change (for_each (k :: ks) wHeader_Del) with (do _ <- wHeader_Del k; for_each ks wHeader_Del).
    rewrite (bind_Ret (wHeader_Del k) _ σ
               (set_resp (set_header (fun h => Header_Del h k)) σ) tt eq_refl).
    rewrite IH. reflexivity.
Qed.

Lemma foldl_Header_Del_None {env : Env} (ks : list string) :
  forall (h : Header) (k : string),
    h !! k = None -> foldl Header_Del h ks !! k = None.
Proof.
  induction ks as [|k0 ks IH]; intros h k Hk; simpl.
  - exact Hk.
  - apply IH. unfold Header_Del. rewrite lookup_delete. case_decide; [reflexivity|exact Hk].
Qed.

Lemma foldl_Header_Del_In {env : Env} (ks : list string) :
  forall (h : Header) (k : string),
    In k ks -> CanonicalHeaderKey k = k -> foldl Header_Del h ks !! k = None.
Proof.
  induction ks as [|k0 ks IH]; intros h k Hin Hcanon; simpl.
  - destruct Hin.
  - destruct Hin as [->|Hin].
    + apply foldl_Header_Del_None. unfold Header_Del. rewrite Hcanon.
      apply lookup_delete_eq.
    + apply IH; assumption.
Qed.

(** In the earlier generation the error page deletes every queued header
    (header names are canonical in the map) and writes the header with
    its own status before the page is served: nothing of what the
    original handler queued is sent. *)
Lemma Gen1_error_page_clears_headers {env : Env} (e : Error) (r : Request) (σ : World) :
  status (resp σ) = None ->
  (forall k, is_Some (header (resp σ) !! k) -> CanonicalHeaderKey k = k) ->
  Gen1.Error_handler e response_writer r σ
  = http_ServeFile_on (Gen1.NoHeaderResponseWriter response_writer) r (Error_Target e)
      {| resp := {| header := ∅; status := Some (Error_Status e); sent := ∅;
                    body := body (resp σ) |};
         heap := heap σ |}
  /\ header_sent (Error_Status e) ∅ (Gen1.Error_handler e response_writer r σ).2.
Proof.
  intros Hst Hcanon.
  assert (Hclear : foldl Header_Del (header (resp σ)) (map_to_list (header (resp σ))).*1 = ∅).
  { apply map_empty. intros k.
    destruct (header (resp σ) !! k) as [v|] eqn:Hk.
    - apply foldl_Header_Del_In.
      + apply list_elem_of_In. apply list_elem_of_fmap. exists (k, v).
        split; [reflexivity|]. apply elem_of_map_to_list. exact Hk.
      + apply Hcanon. rewrite Hk. eexists. reflexivity.
    - apply foldl_Header_Del_None. exact Hk. }
  assert (Heq : Gen1.Error_handler e response_writer r σ
    = http_ServeFile_on (Gen1.NoHeaderResponseWriter response_writer) r (Error_Target e)
        {| resp := {| header := ∅; status := Some (Error_Status e); sent := ∅;
                      body := body (resp σ) |};
           heap := heap σ |}).
  { unfold Gen1.Error_handler.
    rewrite (bind_Ret wHeader_keys _ σ σ (map_to_list (header (resp σ))).*1 eq_refl).
    rewrite (bind_Ret _ _ _ _ tt (for_each_wHeader_Del _ σ)).
    rewrite (bind_Ret (WriteHeader response_writer (Error_Status e)) _ _
               {| resp := {| header := ∅; status := Some (Error_Status e); sent := ∅;
                             body := body (resp σ) |};
                  heap := heap σ |} tt); [reflexivity|].
    change (WriteHeader response_writer (Error_Status e)) with
      (response_WriteHeader (Error_Status e)).
    unfold response_WriteHeader, set_resp, set_header.
    cbn [resp status header sent body heap]. rewrite Hst, Hclear. reflexivity. }
  split; [exact Heq|].
  rewrite Heq. unfold http_ServeFile_on.
  apply exec_header_sent.
  - split.
    + exact (proj1 (response_writer_keeps_sent _ _)).
    + intros code σ0 HJ. exact HJ.
  - split; reflexivity.
Qed.

(** * Further properties of the program *)

(** ** The checks of the configuration *)

Lemma Listener_check_label {env : Env} (l : Listener) (a b : string) :
  (Listener_check l a).1 = (Listener_check l b).1.
Proof.
  unfold Listener_check.
  destruct (String.eqb (Listener_Protocol l) "http").
  - destruct (negb (String.eqb (Listener_CertFile l) "")
              || negb (String.eqb (Listener_KeyFile l) "")); reflexivity.
  - destruct (String.eqb (Listener_Protocol l) "https"); [|reflexivity].
    destruct (os_Stat_IsNotExist (Listener_CertFile l)),
             (os_Stat_IsNotExist (Listener_KeyFile l)); reflexivity.
Qed.

Lemma Serve_check_label {env : Env} (s : Serve) (a b : string) :
  (Serve_check s a).1 = (Serve_check s b).1.
Proof.
  unfold Serve_check.
  destruct (String.eqb (Serve_Path s) ""), (Serve_Error s =? 0),
           (String.eqb (Serve_Target s) ""); reflexivity.
Qed.

Lemma Listener_check_logs {env : Env} (l : Listener) (label : string) :
  (Listener_check l label).1 = true <-> (Listener_check l label).2 = [].
Proof.
  unfold Listener_check.
  destruct (String.eqb (Listener_Protocol l) "http").
  - destruct (negb (String.eqb (Listener_CertFile l) "")
              || negb (String.eqb (Listener_KeyFile l) "")); simpl; split;
      intros H; try reflexivity; discriminate H.
  - destruct (String.eqb (Listener_Protocol l) "https").
    + destruct (os_Stat_IsNotExist (Listener_CertFile l)),
               (os_Stat_IsNotExist (Listener_KeyFile l)); simpl; split;
        intros H; try reflexivity; discriminate H.
    + simpl. split; intros H; discriminate H.
Qed.

Lemma Serve_check_logs {env : Env} (s : Serve) (label : string) :
  (Serve_check s label).1 = true <-> (Serve_check s label).2 = [].
Proof.
  unfold Serve_check.
  destruct (String.eqb (Serve_Path s) ""), (Serve_Error s =? 0),
           (String.eqb (Serve_Target s) ""); simpl; split;
    intros H; try reflexivity; discriminate H.
Qed.

(** X1.  [Listener.check] and [Serve.check] reject exactly when they log
    a line: a rejected listener or serve always has a logged reason, an
    accepted one logs nothing.  The verdict does not depend on the label
    the lines are prefixed with. *)
Theorem element_checks_reject_iff_they_log {env : Env} :
  (forall (l : Listener) (label label' : string),
      ((Listener_check l label).1 = false <-> (Listener_check l label).2 <> [])
      /\ (Listener_check l label).1 = (Listener_check l label').1)
  /\ (forall (s : Serve) (label label' : string),
        ((Serve_check s label).1 = false <-> (Serve_check s label).2 <> [])
        /\ (Serve_check s label).1 = (Serve_check s label').1).
Proof.
  split.
  - intros l label label'. split; [|apply Listener_check_label].
    pose proof (Listener_check_logs l label) as [H1 H2].
    destruct (Listener_check l label) as [[|] log]; simpl in *; split; intros H.
    + discriminate H.
    + exfalso. apply H. apply H1. reflexivity.
    + intros Hlog. specialize (H2 Hlog). discriminate H2.
    + reflexivity.
  - intros s label label'. split; [|apply Serve_check_label].
    pose proof (Serve_check_logs s label) as [H1 H2].
    destruct (Serve_check s label) as [[|] log]; simpl in *; split; intros H.
    + discriminate H.
    + exfalso. apply H. apply H1. reflexivity.
    + intros Hlog. specialize (H2 Hlog). discriminate H2.
    + reflexivity.
Qed.

(** The verdict of a loop of checks whose verdicts do not depend on the
    label: every element passes, and the verdict was [true] before. *)
Lemma check_each_verdict {A} (check : A -> string -> Checked) (what : string) :
  (forall x a b, (check x a).1 = (check x b).1) ->
  forall (xs : list A) (i : nat) (acc : Checked),
    (check_each check what i xs acc).1 = forallb (fun x => (check x "").1) xs && acc.1.
Proof.
  intros Hlabel. induction xs as [|x xs IH]; intros i [ok log]; simpl.
  - reflexivity.
  - rewrite (Hlabel x "" (what +:+ " #" +:+ pretty i +:+ ":")).
    destruct (check x _) as [ok' log']. rewrite IH. simpl.
    destruct ok', ok, (forallb _ xs); reflexivity.
Qed.

Lemma ServerConfig_check_verdict {env : Env} (c : ServerConfig) :
  (ServerConfig_check c).1
  = negb (length (Listeners c) =? 0)%nat
    && forallb (fun l => (Listener_check l "").1) (Listeners c)
    && negb (length (Serves c) =? 0)%nat
    && forallb (fun s => (Serve_check s "").1) (Serves c).
Proof.
  unfold ServerConfig_check. cbv zeta.
  rewrite check_each_Redirect_check.
  rewrite (check_each_verdict Serve_check "Serve" Serve_check_label).
  destruct (length (Serves c) =? 0)%nat; simpl.
  - rewrite !andb_false_r. reflexivity.
  - rewrite (check_each_verdict Listener_check "Listener" Listener_check_label).
    destruct (length (Listeners c) =? 0)%nat; simpl;
      destruct (forallb _ (Listeners c)), (forallb _ (Serves c)); reflexivity.
Qed.

(** X2.  [ServerConfig.check] accepts a configuration exactly when it
    has a listener and a serve, every listener passes [Listener.check]
    and every serve passes [Serve.check]; the redirects and the errors
    have no part in the verdict. *)
Theorem ServerConfig_check_accepts_iff {env : Env} :
  forall c : ServerConfig,
    (ServerConfig_check c).1 = true
    <-> Listeners c <> []
        /\ Serves c <> []
        /\ (forall l label, In l (Listeners c) -> (Listener_check l label).1 = true)
        /\ (forall s label, In s (Serves c) -> (Serve_check s label).1 = true).
Proof.
  intros c. rewrite ServerConfig_check_verdict.
  rewrite !andb_true_iff, !negb_true_iff, !forallb_forall, !Nat.eqb_neq.
  split.
  - intros (((HLn & HLall) & HSn) & HS).
    split; [intros E; rewrite E in HLn; apply HLn; reflexivity|].
    split; [intros E; rewrite E in HSn; apply HSn; reflexivity|].
    split.
    + intros l label Hin. rewrite (Listener_check_label l label ""). apply HLall. exact Hin.
    + intros s label Hin. rewrite (Serve_check_label s label ""). apply HS. exact Hin.
  - intros (HLn & HSn & HLall & HSall).
    split; [split; [split|]|].
    + destruct (Listeners c); [contradiction|simpl; lia].
    + intros l Hin. apply HLall. exact Hin.
    + destruct (Serves c); [contradiction|simpl; lia].
    + intros s Hin. apply HSall. exact Hin.
Qed.

Lemma check_each_explained {A} (check : A -> string -> Checked) (what : string) :
  (forall x label, (check x label).2 = [] -> (check x label).1 = true) ->
  forall (xs : list A) (i : nat) (acc : Checked),
    (acc.2 = [] -> acc.1 = true) ->
    (check_each check what i xs acc).2 = [] -> (check_each check what i xs acc).1 = true.
Proof.
  intros Hcheck. induction xs as [|x xs IH]; intros i [ok log] Hacc; simpl.
  - exact Hacc.
  - pose proof (Hcheck x (what +:+ " #" +:+ pretty i +:+ ":")) as Hx.
    destruct (check x _) as [ok' log']. apply IH. simpl in *.
    intros Hnil. apply app_eq_nil in Hnil as [Hl Hl'].
    rewrite (Hacc Hl), (Hx Hl'). reflexivity.
Qed.

Lemma check_each_quiet {A} (check : A -> string -> Checked) (what : string) :
  forall (xs : list A),
    (forall x label, In x xs -> (check x label).1 = true -> (check x label).2 = []) ->
    forall (i : nat) (acc : Checked),
      (acc.1 = true -> acc.2 = []) ->
      (check_each check what i xs acc).1 = true -> (check_each check what i xs acc).2 = [].
Proof.
  induction xs as [|x xs IH]; intros Hcheck i [ok log] Hacc; simpl.
  - exact Hacc.
  - pose proof (Hcheck x (what +:+ " #" +:+ pretty i +:+ ":") (or_introl eq_refl)) as Hx.
    destruct (check x _) as [ok' log'].
    apply IH; [intros y label Hin; apply Hcheck; right; exact Hin|].
    simpl in *. intros Hok. apply andb_true_iff in Hok as [Hok' Hok].
    rewrite (Hacc Hok), (Hx Hok'). reflexivity.
Qed.

(** X3.  A configuration that [ServerConfig.check] rejects has at least
    one logged line.  A configuration that it accepts has none, provided
    every redirect has a [from] and a [to] (a redirect that lacks one is
    logged and accepted all the same). *)
Theorem ServerConfig_check_log {env : Env} :
  forall c : ServerConfig,
    ((ServerConfig_check c).1 = false -> (ServerConfig_check c).2 <> [])
    /\ ((forall r, In r (Redirects c) -> Redirect_From r <> "" /\ Redirect_To r <> "") ->
        (ServerConfig_check c).1 = true -> (ServerConfig_check c).2 = []).
Proof.
  intros c. split.
  - intros Hrej Hnil. rewrite <- not_true_iff_false in Hrej. apply Hrej. revert Hnil.
    unfold ServerConfig_check. cbv zeta.
    apply check_each_explained; [intros r label _; apply Redirect_check_fst|].
    apply check_each_explained; [intros s label; apply Serve_check_logs|].
    destruct (length (Serves c) =? 0)%nat.
    { simpl. intros H. apply app_eq_nil in H as [_ H]. discriminate H. }
    apply check_each_explained; [intros l label; apply Listener_check_logs|].
    destruct (length (Listeners c) =? 0)%nat; simpl; [intros H; discriminate H|reflexivity].
  - intros Hred. unfold ServerConfig_check. cbv zeta.
    apply check_each_quiet.
    { intros r label Hin _. destruct (Hred r Hin) as [Hfrom Hto].
      unfold Redirect_check.
      apply String.eqb_neq in Hfrom, Hto. rewrite Hfrom, Hto. reflexivity. }
    apply check_each_quiet; [intros s label _; apply Serve_check_logs|].
    destruct (length (Serves c) =? 0)%nat; [intros H; discriminate H|].
    apply check_each_quiet; [intros l label _; apply Listener_check_logs|].
    destruct (length (Listeners c) =? 0)%nat; simpl; [intros H; discriminate H|reflexivity].
Qed.

(** X4.  [Serve.check] tests the error status against 0 and
    [Serve.handler] tests it for being positive.  A serve with a
    negative error status, no target and a path therefore passes the
    check without a logged line, and its handler is the one of the same
    serve with no error status: it serves files from the empty target. *)
Theorem negative_error_serves_files {env : Env} :
  forall (s : Serve) (label : string),
    Serve_Error s < 0 ->
    Serve_Target s = "" ->
    Serve_Path s <> "" ->
    Serve_check s label = (true, [])
    /\ Serve_handler s
       = Serve_handler {| Serve_Target := ""; Serve_Path := Serve_Path s; Serve_Error := 0;
                          Serve_PreventListing := Serve_PreventListing s;
                          Serve_Headers := Serve_Headers s |}
    /\ (Serve_check {| Serve_Target := ""; Serve_Path := Serve_Path s; Serve_Error := 0;
                       Serve_PreventListing := Serve_PreventListing s;
                       Serve_Headers := Serve_Headers s |} label).1 = false.
Proof.
  intros s label Herr Htarget Hpath.
  apply String.eqb_neq in Hpath.
  assert (Hz : (Serve_Error s =? 0) = false) by (apply Z.eqb_neq; lia).
  assert (Hpos : (0 <? Serve_Error s) = false) by (apply Z.ltb_ge; lia).
  split; [|split].
  - unfold Serve_check. rewrite Hpath, Hz, Htarget. reflexivity.
  - unfold Serve_handler. rewrite Hpos, Htarget. reflexivity.
  - unfold Serve_check. simpl. rewrite Hpath. reflexivity.
Qed.

(** X4 on a serve with error status -1. *)
Lemma negative_error_serves_files_witness :
  Serve_Error sample_negative_serve < 0
  /\ Serve_check sample_negative_serve "Serve #0:" = (true, []).
Proof.
  split; [simpl; lia|].
  exact (proj1 (negative_error_serves_files (env := sample_env) sample_negative_serve
                  "Serve #0:" ltac:(simpl; lia) eq_refl ltac:(discriminate))).
Defined.

(** ** Defaults *)

Lemma range_copy_keeps {A} (method : A -> A * list string) (xs : list A) :
  (range_copy method xs).1 = xs
  /\ (range_copy method xs).2 = flat_map (fun x => (method x).2) xs.
Proof.
  induction xs as [|x xs [IH1 IH2]]; simpl.
  - split; reflexivity.
  - destruct (method x) as [x' log]. destruct (range_copy method xs) as [rest log'].
    simpl in *. rewrite IH1, IH2. split; reflexivity.
Qed.

Lemma flat_map_nil {A B} (f : A -> list B) (xs : list A) :
  (forall x, f x = []) -> flat_map f xs = [].
Proof.
  intros Hf. induction xs as [|x xs IH]; simpl; [reflexivity|].
  rewrite Hf, IH. reflexivity.
Qed.

(** X5.  What the defaults are worth where they are applied.  A
    listener without protocol is rejected by [Listener.check]; after
    [Listener.sanitise] it is accepted exactly when it names no
    certificate and no key.  After [Serve.sanitise] a serve is accepted
    exactly when it has either an error status or a target, whatever its
    path was.  After [Redirect.sanitise] the status is not 0.  Each of
    the three leaves a receiver that it has sanitised as it is. *)
Theorem sanitise_then_check {env : Env} :
  (forall (l : Listener) (label : string),
      Listener_Protocol l = "" ->
      (Listener_check l label).1 = false
      /\ ((Listener_check (Listener_sanitise l).1 label).1 = true
          <-> Listener_CertFile l = "" /\ Listener_KeyFile l = ""))
  /\ (forall (s : Serve) (label : string),
        (Serve_check (Serve_sanitise s).1 label).1 = true
        <-> (Serve_Error s = 0 <-> Serve_Target s <> ""))
  /\ (forall r : Redirect, Redirect_With (Redirect_sanitise r).1 <> 0)
  /\ (forall l, Listener_sanitise (Listener_sanitise l).1 = Listener_sanitise l)
  /\ (forall s, Serve_sanitise (Serve_sanitise s).1 = Serve_sanitise s)
  /\ (forall r, Redirect_sanitise (Redirect_sanitise r).1 = ((Redirect_sanitise r).1, [])).
Proof.
  split; [|split; [|split; [|split; [|split]]]].
  - intros l label Hproto. split.
    + unfold Listener_check. rewrite Hproto. reflexivity.
    + unfold Listener_sanitise, Listener_check. rewrite Hproto. simpl.
      destruct (String.eqb (Listener_Addr l) ""); simpl;
        destruct (String.eqb_spec (Listener_CertFile l) "") as [Hc|Hc];
        destruct (String.eqb_spec (Listener_KeyFile l) "") as [Hk|Hk]; simpl;
        intuition congruence.
  - intros s label. unfold Serve_sanitise, Serve_check.
    destruct (String.eqb (Serve_Path s) "") eqn:Hp; simpl; rewrite ?Hp;
      destruct (Z.eqb_spec (Serve_Error s) 0) as [He|He];
      destruct (String.eqb_spec (Serve_Target s) "") as [Ht|Ht]; simpl;
      intuition congruence.
  - intros r. unfold Redirect_sanitise.
    destruct (Z.eqb_spec (Redirect_With r) 0) as [H|H]; simpl; [lia|exact H].
  - intros l. unfold Listener_sanitise.
    destruct (String.eqb (Listener_Protocol l) "") eqn:Hp; simpl;
      destruct (String.eqb (Listener_Addr l) "") eqn:Ha; simpl;
      try rewrite Hp; try rewrite Ha; reflexivity.
  - intros s. unfold Serve_sanitise.
    destruct (String.eqb (Serve_Path s) "") eqn:Hp; simpl; try rewrite Hp; reflexivity.
  - intros r. unfold Redirect_sanitise.
    destruct (Redirect_With r =? 0) eqn:Hw; simpl; try rewrite Hw; reflexivity.
Qed.

Lemma ServerConfig_sanitise_eq (c : ServerConfig) :
  ServerConfig_sanitise c = (c, flat_map (fun r => (Redirect_sanitise r).2) (Redirects c)).
Proof.
  unfold ServerConfig_sanitise.
  pose proof (range_copy_keeps Listener_sanitise (Listeners c)) as [HL1 HL2].
  pose proof (range_copy_keeps Serve_sanitise (Serves c)) as [HS1 HS2].
  pose proof (range_copy_keeps Redirect_sanitise (Redirects c)) as [HR1 HR2].
  pose proof (range_copy_keeps Error_sanitise (Errors c)) as [HE1 HE2].
  destruct (range_copy Listener_sanitise (Listeners c)) as [ls log1].
  destruct (range_copy Serve_sanitise (Serves c)) as [ss log2].
  destruct (range_copy Redirect_sanitise (Redirects c)) as [rs log3].
  destruct (range_copy Error_sanitise (Errors c)) as [es log4].
  simpl in *. subst ls ss rs es log1 log2 log3 log4.
  rewrite (flat_map_nil (fun x => (Listener_sanitise x).2)) by reflexivity.
  rewrite (flat_map_nil (fun x => (Serve_sanitise x).2)) by reflexivity.
  rewrite (flat_map_nil (fun x => (Error_sanitise x).2)) by reflexivity.
  rewrite app_nil_r. destruct c. reflexivity.
Qed.

Lemma main_check_verdict {env : Env} (c : ServerConfig) :
  (main_check c).1 = (ServerConfig_check c).1.
Proof.
  unfold main_check. rewrite ServerConfig_sanitise_eq.
  destruct (ServerConfig_check c) as [ok log]. reflexivity.
Qed.

(** X6.  [ServerConfig.sanitise] ranges over the slices by value and
    calls the pointer methods on the loop variables: the configuration
    that [main] goes on with is the one that was read, nothing is
    defaulted in it, and the only trace of the call is the line that
    [Redirect.sanitise] logs for each redirect without status.  The
    verdict of [main] is then the one of [ServerConfig.check] on the
    configuration as read: a serve without path and a listener without
    protocol are rejected. *)
Theorem ServerConfig_sanitise_changes_nothing {env : Env} :
  forall c : ServerConfig,
    (ServerConfig_sanitise c).1 = c
    /\ (ServerConfig_sanitise c).2 = flat_map (fun r => (Redirect_sanitise r).2) (Redirects c)
    /\ (main_check c).1 = (ServerConfig_check c).1
    /\ (forall s, In s (Serves c) -> Serve_Path s = "" -> (main_check c).1 = false)
    /\ (forall l, In l (Listeners c) -> Listener_Protocol l = "" -> (main_check c).1 = false).
Proof.
  intros c.
  split; [rewrite ServerConfig_sanitise_eq; reflexivity|].
  split; [rewrite ServerConfig_sanitise_eq; reflexivity|].
  split; [apply main_check_verdict|].
  split.
  - intros s Hin Hpath. rewrite main_check_verdict, ServerConfig_check_verdict.
    apply andb_false_iff. right. apply not_true_iff_false. intros Hall.
    rewrite forallb_forall in Hall. specialize (Hall s Hin).
    unfold Serve_check in Hall. rewrite Hpath in Hall. simpl in Hall.
    destruct ((Serve_Error s =? 0) && String.eqb (Serve_Target s) ""),
             (negb (Serve_Error s =? 0) && negb (String.eqb (Serve_Target s) ""));
      discriminate Hall.
  - intros l Hin Hproto. rewrite main_check_verdict, ServerConfig_check_verdict.
    apply andb_false_iff. left. apply andb_false_iff. left.
    apply andb_false_iff. right. apply not_true_iff_false. intros Hall.
    rewrite forallb_forall in Hall. specialize (Hall l Hin).
    unfold Listener_check in Hall. rewrite Hproto in Hall. discriminate Hall.
Qed.

(** ** Start-up *)

Lemma register_errors {env : Env} (errs : list Error) :
  forall s : StaticServeMux,
    (NoDup (map Error_Status errs)
     /\ (forall e, In e errs -> errors s !! Error_Status e = None)
     /\ ofold (fun mux e => HandleError mux (Error_Status e) (Error_handler e)) errs s
        = Ret {| StaticServeMux_ServeMux := StaticServeMux_ServeMux s;
                 errors := foldl (fun m e => <[Error_Status e := Error_handler e]> m)
                             (errors s) errs |})
    \/ (~ (NoDup (map Error_Status errs)
           /\ forall e, In e errs -> errors s !! Error_Status e = None)
        /\ ofold (fun mux e => HandleError mux (Error_Status e) (Error_handler e)) errs s
           = Panic (PStr "Handler for error already registered")).
Proof.
  induction errs as [|e errs IH]; intros s.
  - left. split; [constructor|]. split; [intros e []|]. destruct s. reflexivity.
  - simpl ofold.
    destruct (errors s !! Error_Status e) as [h0|] eqn:He.
    + assert (HE : HandleError s (Error_Status e) (Error_handler e)
                   = Panic (PStr "Handler for error already registered"))
        by (unfold HandleError; rewrite He; reflexivity).
      rewrite HE. right. split; [|reflexivity]. intros [_ H].
      rewrite (H e (or_introl eq_refl)) in He. discriminate He.
    + assert (HE : HandleError s (Error_Status e) (Error_handler e)
                   = Ret {| StaticServeMux_ServeMux := StaticServeMux_ServeMux s;
                            errors := <[Error_Status e := Error_handler e]> (errors s) |})
        by (unfold HandleError; rewrite He; reflexivity).
      rewrite HE. simpl obind.
      destruct (IH {| StaticServeMux_ServeMux := StaticServeMux_ServeMux s;
                      errors := <[Error_Status e := Error_handler e]> (errors s) |})
        as [(Hnd & Hnone & Hrun)|(Hnot & Hrun)]; simpl in *.
      * left. split; [|split].
        -- simpl. apply NoDup_cons. split; [|exact Hnd].
           rewrite list_elem_of_In. intros Hin. apply in_map_iff in Hin as (e' & Heq & Hin).
           specialize (Hnone e' Hin). rewrite Heq, lookup_insert_eq in Hnone.
           discriminate Hnone.
        -- intros e' [<-|Hin]; [exact He|].
           specialize (Hnone e' Hin). apply lookup_insert_None in Hnone as [Hnone _].
           exact Hnone.
        -- exact Hrun.
      * right. split; [|exact Hrun]. intros [Hnd Hnone]. apply Hnot.
        simpl in Hnd. apply NoDup_cons in Hnd as [Hnotin Hnd].
        rewrite list_elem_of_In in Hnotin.
        split; [exact Hnd|]. intros e' Hin.
        rewrite lookup_insert_ne; [apply Hnone; right; exact Hin|].
        intros Heq. apply Hnotin. apply in_map_iff. exists e'. split; [|exact Hin].
        symmetry. exact Heq.
Qed.

Lemma registered_errors_lookup {env : Env} (errs : list Error) :
  forall m : gmap Z Handler,
    NoDup (map Error_Status errs) ->
    (forall e, In e errs ->
       foldl (fun m e => <[Error_Status e := Error_handler e]> m) m errs !! Error_Status e
       = Some (Error_handler e))
    /\ (forall c, ~ In c (map Error_Status errs) ->
          foldl (fun m e => <[Error_Status e := Error_handler e]> m) m errs !! c = m !! c).
Proof.
  induction errs as [|e errs IH]; intros m Hnd.
  - split; [intros e []|]. intros c _. reflexivity.
  - simpl in Hnd. apply NoDup_cons in Hnd as [Hnotin Hnd].
    rewrite list_elem_of_In in Hnotin.
    destruct (IH (<[Error_Status e := Error_handler e]> m) Hnd) as [IH1 IH2].
    split.
    + intros e' [<-|Hin]; simpl.
      * rewrite (IH2 _ Hnotin). apply lookup_insert_eq.
      * apply IH1. exact Hin.
    + intros c Hc. simpl. rewrite IH2.
      * apply lookup_insert_ne. intros Heq. apply Hc. left. exact Heq.
      * intros Hin. apply Hc. right. exact Hin.
Qed.

Lemma register_routes {A} (pat : A -> string) (hd : A -> Handler) (xs : list A) :
  forall s : StaticServeMux,
    (~ In "" (map pat xs)
     /\ NoDup (map pat xs)
     /\ (forall x, In x xs ->
           ~ In (pat x) (map fst (ServeMux_m (StaticServeMux_ServeMux s))))
     /\ ofold (fun mux x => StaticServeMux_Handle mux (pat x) (hd x)) xs s
        = Ret {| StaticServeMux_ServeMux :=
                   {| ServeMux_m := ServeMux_m (StaticServeMux_ServeMux s)
                                    ++ map (fun x => (pat x, hd x)) xs |};
                 errors := errors s |})
    \/ (~ (~ In "" (map pat xs)
           /\ NoDup (map pat xs)
           /\ forall x, In x xs ->
                ~ In (pat x) (map fst (ServeMux_m (StaticServeMux_ServeMux s))))
        /\ exists msg,
             ofold (fun mux x => StaticServeMux_Handle mux (pat x) (hd x)) xs s
             = Panic (PStr msg)).
Proof.
  induction xs as [|x xs IH]; intros s.
  - left. split; [intros []|]. split; [constructor|]. split; [intros x []|].
    simpl. rewrite app_nil_r. destruct s as [[m] e]. reflexivity.
  - simpl ofold.
    destruct (String.eqb (pat x) "") eqn:Hempty.
    { assert (HE : exists msg, StaticServeMux_Handle s (pat x) (hd x) = Panic (PStr msg)).
      { unfold StaticServeMux_Handle, ServeMux_Handle. rewrite Hempty.
        eexists. reflexivity. }
      destruct HE as [msg HE]. rewrite HE.
      right. split; [|exists msg; reflexivity].
      intros [H _]. apply H. left. apply String.eqb_eq. exact Hempty. }
    apply String.eqb_neq in Hempty.
    destruct (existsb (fun e => String.eqb e.1 (pat x))
                (ServeMux_m (StaticServeMux_ServeMux s))) eqn:Hex.
    { assert (HE : exists msg, StaticServeMux_Handle s (pat x) (hd x) = Panic (PStr msg)).
      { unfold StaticServeMux_Handle, ServeMux_Handle. rewrite Hex.
        destruct (String.eqb (pat x) ""); eexists; reflexivity. }
      destruct HE as [msg HE]. rewrite HE.
      right. split; [|exists msg; reflexivity].
      intros (_ & _ & H). apply (H x (or_introl eq_refl)).
      apply existsb_exists in Hex as (e & Hin & Heq).
      apply String.eqb_eq in Heq. apply in_map_iff. exists e. split; assumption. }
    assert (HE : StaticServeMux_Handle s (pat x) (hd x)
                 = Ret {| StaticServeMux_ServeMux :=
                            {| ServeMux_m := ServeMux_m (StaticServeMux_ServeMux s)
                                             ++ [(pat x, hd x)] |};
                          errors := errors s |}).
    { unfold StaticServeMux_Handle, ServeMux_Handle. rewrite Hex.
      apply String.eqb_neq in Hempty. rewrite Hempty. reflexivity. }
    rewrite HE. simpl obind.
    assert (Hfresh : ~ In (pat x) (map fst (ServeMux_m (StaticServeMux_ServeMux s)))).
    { intros Hin. apply in_map_iff in Hin as (e & Heq & Hin).
      apply not_true_iff_false in Hex. apply Hex. apply existsb_exists.
      exists e. split; [exact Hin|]. apply String.eqb_eq. exact Heq. }
    destruct (IH {| StaticServeMux_ServeMux :=
                      {| ServeMux_m := ServeMux_m (StaticServeMux_ServeMux s)
                                       ++ [(pat x, hd x)] |};
                    errors := errors s |})
      as [(Hne & Hnd & Hdis & Hrun)|(Hnot & Hrun)]; simpl in *.
    + left. split; [|split; [|split]].
      * intros [H|H]; [apply Hempty; exact H|apply Hne; exact H].
      * apply NoDup_cons. split; [|exact Hnd].
        rewrite list_elem_of_In. intros Hin. apply in_map_iff in Hin as (y & Heq & Hin).
        apply (Hdis y Hin). rewrite map_app, in_app_iff. right. left. symmetry. exact Heq.
      * intros y [<-|Hin]; [exact Hfresh|].
        intros Hy. apply (Hdis y Hin). rewrite map_app, in_app_iff. left. exact Hy.
      * rewrite Hrun, <- app_assoc. reflexivity.
    + right. split; [|exact Hrun]. intros (Hne & Hnd & Hdis). apply Hnot.
      apply NoDup_cons in Hnd as [Hnotin Hnd]. rewrite list_elem_of_In in Hnotin.
      split; [intros H; apply Hne; right; exact H|].
      split; [exact Hnd|].
      intros y Hin. rewrite map_app, in_app_iff. intros [Hy|[Hy|[]]].
      * apply (Hdis y (or_intror Hin)). exact Hy.
      * apply Hnotin. apply in_map_iff. exists y. split; [|exact Hin].
        symmetry. exact Hy.
Qed.

(** X7.  A status can be given a handler once.  [HandleError] on a
    status without handler returns, the status then has the handler
    given and every other status is as before; [HandleError] on a status
    with a handler panics, so a second registration of the same status
    always panics. *)
Theorem HandleError_registers_once :
  forall (s : StaticServeMux) (status : Z) (handler : Handler),
    (errors s !! status = None ->
     exists s',
       HandleError s status handler = Ret s'
       /\ errors s' !! status = Some handler
       /\ (forall c, c <> status -> errors s' !! c = errors s !! c)
       /\ StaticServeMux_ServeMux s' = StaticServeMux_ServeMux s)
    /\ (errors s !! status <> None ->
        HandleError s status handler = Panic (PStr "Handler for error already registered"))
    /\ (forall s' handler',
          HandleError s status handler = Ret s' ->
          HandleError s' status handler'
          = Panic (PStr "Handler for error already registered")).
Proof.
  intros s status handler.
  assert (Hsome : forall s0 h, errors s0 !! status <> None ->
            HandleError s0 status h = Panic (PStr "Handler for error already registered")).
  { intros s0 h H. unfold HandleError.
    destruct (errors s0 !! status); [reflexivity|contradiction]. }
  split; [|split].
  - intros Hnone. unfold HandleError. rewrite Hnone.
    eexists. split; [reflexivity|]. simpl.
    split; [apply lookup_insert_eq|]. split; [|reflexivity].
    intros c Hc. apply lookup_insert_ne. intros Heq. apply Hc. symmetry. exact Heq.
  - apply Hsome.
  - intros s' handler' Hrun. apply Hsome.
    unfold HandleError in Hrun. destruct (errors s !! status); [discriminate Hrun|].
    injection Hrun as <-. simpl. rewrite lookup_insert_eq. discriminate.
Qed.

Lemma main_mux_cases {env : Env} {renv : RedirectEnv} (cfg : ServerConfig) :
  (main_registrable cfg
   /\ main_mux cfg
      = Ret {| StaticServeMux_ServeMux :=
                 {| ServeMux_m :=
                      map (fun sv => (Serve_Path sv, Serve_handler sv)) (Serves cfg)
                      ++ map (fun rd => (Redirect_From rd, Redirect_handler rd))
                           (Redirects cfg) |};
               errors := foldl (fun m e => <[Error_Status e := Error_handler e]> m)
                           ∅ (Errors cfg) |})
  \/ (~ main_registrable cfg /\ exists msg, main_mux cfg = Panic (PStr msg)).
Proof.
  unfold main_mux, main_registrable, main_patterns.
  destruct (register_errors (Errors cfg) NewStaticServeMux)
    as [(Hnd & _ & Hrun1)|(Hnot & Hrun1)]; rewrite Hrun1; simpl obind.
  2: { right. split; [|eexists; reflexivity]. intros (Hnd & _). apply Hnot.
       split; [exact Hnd|]. intros e _. apply lookup_empty. }
  match goal with
  | |- context [ofold _ (Serves cfg) ?s] =>
      destruct (register_routes Serve_Path Serve_handler (Serves cfg) s)
        as [(HneS & HndS & _ & Hrun2)|(Hnot & msg & Hrun2)]; rewrite Hrun2; simpl obind
  end.
  2: { right. split; [|exists msg; reflexivity]. intros (_ & HndP & HneP). apply Hnot.
       split; [|split].
       - intros Hin. apply HneP. rewrite in_app_iff. left. exact Hin.
       - apply NoDup_app in HndP as (H & _ & _). exact H.
       - intros x _ []. }
  match goal with
  | |- context [ofold _ (Redirects cfg) ?s] =>
      destruct (register_routes Redirect_From Redirect_handler (Redirects cfg) s)
        as [(HneR & HndR & Hdis & Hrun3)|(Hnot & msg & Hrun3)]; rewrite Hrun3
  end.
  - left. simpl in Hdis. rewrite map_map in Hdis. simpl in Hdis.
    split; [|reflexivity].
    split; [exact Hnd|]. split.
    + apply NoDup_app. split; [exact HndS|]. split; [|exact HndR].
      intros p Hp Hp'. rewrite list_elem_of_In in Hp, Hp'.
      apply in_map_iff in Hp' as (rd & <- & Hrd). exact (Hdis rd Hrd Hp).
    + rewrite in_app_iff. intros [H|H]; [exact (HneS H)|exact (HneR H)].
  - right. split; [|exists msg; reflexivity]. intros (_ & HndP & HneP). apply Hnot.
    apply NoDup_app in HndP as (_ & Hdis & HndR).
    split; [|split].
    + intros Hin. apply HneP. rewrite in_app_iff. right. exact Hin.
    + exact HndR.
    + intros rd Hrd Hin. simpl in Hin. rewrite map_map in Hin. simpl in Hin.
      apply (Hdis (Redirect_From rd)); rewrite list_elem_of_In; [exact Hin|].
      apply in_map. exact Hrd.
Qed.

(** X8.  [main] registers the error pages, then the serves, then the
    redirects.  It gets through exactly when no status has two error
    pages, no pattern (serve path or redirect [from]) occurs twice and no
    pattern is empty; otherwise [HandleError] or [mux.Handle] panics.
    When it gets through, the routes of the mux are the handlers of the
    serves and of the redirects under their patterns, every configured
    status has the handler of its error page, and no other status has a
    handler. *)
Theorem main_mux_registers {env : Env} {renv : RedirectEnv} :
  forall cfg : ServerConfig,
    (main_registrable cfg <-> exists s, main_mux cfg = Ret s)
    /\ (~ main_registrable cfg <-> exists msg, main_mux cfg = Panic (PStr msg))
    /\ (forall s,
          main_mux cfg = Ret s ->
          ServeMux_m (StaticServeMux_ServeMux s)
          = map (fun sv => (Serve_Path sv, Serve_handler sv)) (Serves cfg)
            ++ map (fun rd => (Redirect_From rd, Redirect_handler rd)) (Redirects cfg)
          /\ (forall e, In e (Errors cfg) ->
                errors s !! Error_Status e = Some (Error_handler e))
          /\ (forall c, ~ In c (map Error_Status (Errors cfg)) -> errors s !! c = None)).
Proof.
  intros cfg.
  destruct (main_mux_cases cfg) as [[Hgood Hrun]|[Hbad [msg Hrun]]].
  - split; [|split].
    + split; [intros _; eexists; exact Hrun|intros _; exact Hgood].
    + split; [intros H; contradiction|].
      intros [msg H]. rewrite Hrun in H. discriminate H.
    + intros s Hs. rewrite Hrun in Hs. injection Hs as <-. simpl.
      split; [reflexivity|].
      destruct (registered_errors_lookup (Errors cfg) ∅ (proj1 Hgood)) as [H1 H2].
      split; [exact H1|].
      intros c Hc. rewrite (H2 c Hc). apply lookup_empty.
  - split; [|split].
    + split; [intros H; contradiction|].
      intros [s H]. rewrite Hrun in H. discriminate H.
    + split; [intros _; exists msg; exact Hrun|intros _; exact Hbad].
    + intros s Hs. rewrite Hrun in Hs. discriminate Hs.
Qed.

(** X9.  [ServerConfig.check] looks neither at the error pages nor at
    what the redirects hold, so it does not protect [main] from the
    panics of the registration.  A configuration that [main] accepts is
    still accepted with any other error pages and redirects; with a
    redirect that has no [from], or with two error pages for one status,
    the registration panics. *)
Theorem accepted_configuration_can_panic {env : Env} {renv : RedirectEnv} :
  forall (cfg : ServerConfig) (errs : list Error) (reds : list Redirect),
    (main_check cfg).1 = true ->
    let cfg' := {| Listeners := Listeners cfg; Serves := Serves cfg;
                   Errors := errs; Redirects := reds |} in
    (main_check cfg').1 = true
    /\ ((exists r, In r reds /\ Redirect_From r = "") ->
        exists msg, main_mux cfg' = Panic (PStr msg))
    /\ (~ NoDup (map Error_Status errs) ->
        exists msg, main_mux cfg' = Panic (PStr msg)).
Proof.
  intros cfg errs reds Hok cfg'.
  split; [|split].
  - rewrite main_check_verdict, ServerConfig_check_verdict in *. exact Hok.
  - intros (r & Hin & Hfrom).
    destruct (main_mux_cases cfg') as [[(_ & _ & Hne) _]|[_ Hrun]]; [|exact Hrun].
    exfalso. apply Hne. unfold main_patterns. rewrite in_app_iff. right.
    apply in_map_iff. exists r. split; assumption.
  - intros Hdup.
    destruct (main_mux_cases cfg') as [[(Hnd & _) _]|[_ Hrun]]; [|exact Hrun].
    contradiction.
Qed.

(** X9 on the default configuration with a redirect without [from]. *)
Lemma accepted_configuration_can_panic_witness :
  (main_check (env := sample_env) (defaultServerConfig ":8080" "")).1 = true
  /\ (main_check (env := sample_env) sample_config_empty_from).1 = true
  /\ exists msg,
       main_mux (env := sample_env) (renv := sample_redirect_env) sample_config_empty_from
       = Panic (PStr msg).
Proof.
  split; [reflexivity|].
  destruct (accepted_configuration_can_panic (env := sample_env) (renv := sample_redirect_env)
              (defaultServerConfig ":8080" "") []
              [ {| Redirect_From := ""; Redirect_To := "/new"; Redirect_With := 301 |} ]
              eq_refl) as (Hok & Hpanic & _).
  split; [exact Hok|].
  apply Hpanic. eexists. split; [left; reflexivity|reflexivity].
Defined.

(** X10.  Without configuration file [main] runs on
    [defaultServerConfig].  Whatever the flag [-addr] and the first
    argument are, that configuration is accepted without a logged line
    and registers one route, the file server of the target under [/],
    the target being [.] when there is no argument; no status has an
    error page. *)
Theorem defaultServerConfig_starts {env : Env} {renv : RedirectEnv} :
  forall (defaultAddr arg0 : string),
    main_check (defaultServerConfig defaultAddr arg0) = (true, [])
    /\ main_mux (defaultServerConfig defaultAddr arg0)
       = Ret {| StaticServeMux_ServeMux :=
                  {| ServeMux_m :=
                       [("/", http_StripPrefix "/"
                                (http_FileServer
                                   (http_Dir (if String.eqb arg0 "" then "." else arg0))))] |};
                errors := ∅ |}
    /\ (arg0 = "" -> Serves (defaultServerConfig defaultAddr arg0)
                     = [ {| Serve_Target := "."; Serve_Path := "/"; Serve_Error := 0;
                            Serve_PreventListing := false; Serve_Headers := [] |} ]).
Proof.
  intros defaultAddr arg0. split; [|split].
  - unfold main_check. rewrite ServerConfig_sanitise_eq.
    unfold defaultServerConfig.
    destruct (String.eqb arg0 "") eqn:Harg.
    + reflexivity.
    + unfold ServerConfig_check, Listener_check, Serve_check. simpl.
      rewrite Harg. reflexivity.
  - unfold main_mux, defaultServerConfig. simpl.
    unfold StaticServeMux_Handle, ServeMux_Handle. simpl.
    unfold Serve_handler. simpl. reflexivity.
  - intros ->. reflexivity.
Qed.

(** ** The interceptor, for what it lets through *)

Lemma PanicValue_eqb_eq (p q : PanicValue) : PanicValue_eqb p q = true -> p = q.
Proof.
  destruct p as [a|m], q as [b|n]; simpl; intros H; try discriminate H.
  - apply Nat.eqb_eq in H. subst. reflexivity.
  - apply String.eqb_eq in H. subst. reflexivity.
Qed.

(** X11.  A handler whose statuses are all below 400 and without
    override runs under the interceptor as it runs on the wrapped writer
    directly: same outcome, same response.  That holds when it returns
    and when it panics with a value of its own, which the interceptor
    passes on; the interceptor only stops the panic it has raised
    itself. *)
Theorem interceptor_passes_other_statuses {env : Env} :
  forall (s : StaticServeMux) (f : Request -> Script) (w : ResponseWriter) (r : Request)
         (σ σ' : World) (o : Outcome unit),
    Unintercepted s (f r) ->
    exec (f r) w {| resp := resp σ; heap := heap σ ++ [OInterceptResponseWriter] |} = (o, σ') ->
    o <> Panic (PPtr (length (heap σ))) ->
    interceptHandler s (scripted f) w r σ = (o, σ').
Proof.
  intros s f w r σ σ' o Hun Hexec Ho.
  unfold interceptHandler.
  rewrite (bind_Ret (alloc OInterceptResponseWriter) _ σ
             {| resp := resp σ; heap := heap σ ++ [OInterceptResponseWriter] |}
             (length (heap σ)) eq_refl).
  unfold recovering, scripted. rewrite (exec_unintercepted s _ w r _ Hun), Hexec.
  destruct o as [[]|p]; [reflexivity|].
  destruct (PanicValue_eqb p (PPtr (length (heap σ)))) eqn:Hp; [|reflexivity].
  apply PanicValue_eqb_eq in Hp. subst p. contradiction.
Qed.

(** X11 on the handler that serves [a.txt] with status 200. *)
Lemma interceptor_passes_other_statuses_witness :
  Unintercepted sample_mux_plain (sample_file_handler (sample_request "/a.txt"))
  /\ body (resp (interceptHandler (env := sample_env) sample_mux_plain
                   (scripted (env := sample_env) sample_file_handler)
                   response_writer (sample_request "/a.txt") fresh_world).2)
     = bytes_of "hello".
Proof.
  split; [apply sample_serveContent_Unintercepted|].
  erewrite (interceptor_passes_other_statuses (env := sample_env) sample_mux_plain
              sample_file_handler response_writer (sample_request "/a.txt") fresh_world);
    cycle 1.
  - apply sample_serveContent_Unintercepted.
  - vm_compute. reflexivity.
  - discriminate.
  - reflexivity.
Defined.

(** X12.  [statusResponseWriter] with [Status] 0 changes nothing: every
    script runs on it as on the wrapped writer.  With a negative
    [Status] no status that the handler sets goes through: from a
    response whose header was not written, the status ends as it was or
    as the 200 that the server's writer sets at the first [Write]. *)
Theorem statusResponseWriter_other_modes {env : Env} :
  (forall (w : ResponseWriter) (s : Script) (σ : World),
      exec s (statusResponseWriter w 0) σ = exec s w σ)
  /\ (forall (c : Z) (s : Script) (σ : World),
        c < 0 ->
        status (resp σ) = None ->
        let σ' := (exec s (statusResponseWriter response_writer c) σ).2 in
        status (resp σ') = None \/ status (resp σ') = Some 200).
Proof.
  split.
  - intros w s. induction s as
      [ | key cont IH | key value cont IH | key value cont IH | key cont IH
        | cont IH | code cont IH | b cont IH | p ];
      intros σ; simpl exec.
    + reflexivity.
    + unfold bind, wHeader_Get, gets. apply IH.
    + unfold bind, wHeader_Set, modify. apply IH.
    + unfold bind, wHeader_Add, modify. apply IH.
    + unfold bind, wHeader_Del, modify. apply IH.
    + unfold bind, wHeader_keys, gets. apply IH.
    + unfold bind. cbn [WriteHeader statusResponseWriter].
      unfold statusResponseWriter_WriteHeader.
      change (0 <? 0) with false. cbv iota.
      destruct (WriteHeader w code σ) as [[[]|p] σ1]; [apply IH|reflexivity].
    + unfold bind. cbn [Write statusResponseWriter].
      destruct (Write w b σ) as [[[]|p] σ1]; [apply IH|reflexivity].
    + reflexivity.
  - intros c s σ Hc Hst σ'. subst σ'.
    assert (Hc' : (c <? 0) = true) by (apply Z.ltb_lt; exact Hc).
    assert (Hgen : forall σ0,
               status (resp σ0) = None \/ status (resp σ0) = Some 200 ->
               status (resp (exec s (statusResponseWriter response_writer c) σ0).2) = None
               \/ status (resp (exec s (statusResponseWriter response_writer c) σ0).2)
                  = Some 200).
    { induction s as
        [ | key cont IH | key value cont IH | key value cont IH | key cont IH
          | cont IH | code cont IH | b cont IH | p ];
        intros σ0 H0; simpl exec.
      - exact H0.
      - unfold bind, wHeader_Get, gets. apply IH. exact H0.
      - unfold bind, wHeader_Set, modify. apply IH. exact H0.
      - unfold bind, wHeader_Add, modify. apply IH. exact H0.
      - unfold bind, wHeader_Del, modify. apply IH. exact H0.
      - unfold bind, wHeader_keys, gets. apply IH. exact H0.
      - unfold bind. cbn [WriteHeader statusResponseWriter].
        unfold statusResponseWriter_WriteHeader. rewrite Hc'. apply IH. exact H0.
      - unfold bind. cbn [Write statusResponseWriter response_writer].
        unfold response_Write, bind, gets, when, response_WriteHeader, modify. simpl.
        destruct H0 as [H0|H0]; rewrite H0; simpl.
        + rewrite H0. apply IH. right. reflexivity.
        + apply IH. right. exact H0.
      - exact H0. }
    apply Hgen. left. exact Hst.
Qed.

(** A script that first sets an error status without override, on the
    interceptor over the server's writer: the reason phrase is written
    and the call panics with the interceptor. *)
Lemma exec_sets_first_intercepted {env : Env} (s : StaticServeMux) (irw : nat)
    (r : Request) (code : Z) (script : Script) :
  SetsFirst code script ->
  errors s !! code = None ->
  400 <= code ->
  forall σ,
    status (resp σ) = None ->
    exists σ',
      exec script (interceptResponseWriter irw response_writer r s) σ
      = (Panic (PPtr irw), σ')
      /\ status (resp σ') = Some code
      /\ body (resp σ') = body (resp σ) ++ bytes_of (http_StatusText code +:+ LF)
      /\ heap σ' = heap σ.
Proof.
  intros Hs Hnone Hcode. induction Hs as
    [ cont | key cont _ IH | key value cont _ IH | key value cont _ IH
      | key cont _ IH | cont _ IH ];
    intros σ Hst; simpl exec.
  - unfold bind at 1. cbn [WriteHeader interceptResponseWriter].
    unfold interceptResponseWriter_WriteHeader, intercept. rewrite Hnone.
    destruct (Z.ltb_spec code 400) as [Hlt|_]; [lia|].
    unfold bind at 1. unfold bind at 1.
    rewrite http_Error_unsent by exact Hst.
    eexists. split; [reflexivity|]. simpl. repeat split; reflexivity.
  - unfold bind, wHeader_Get, gets. apply IH. exact Hst.
  - exact (IH (set_resp (set_header (fun h => Header_Set h key value)) σ) Hst).
  - exact (IH (set_resp (set_header (fun h => Header_Add h key value)) σ) Hst).
  - exact (IH (set_resp (set_header (fun h => Header_Del h key)) σ) Hst).
  - unfold bind, wHeader_keys, gets. apply IH. exact Hst.
Qed.

(** X13.  The [recover] of a guarded serve stops only the panic of its
    own [PreventListingDir].  Take a request that [ServeMux.Handler]
    gives to the serve (so not one it redirects).  When its file opens and
    the file server answers it with an error status (400 to 999, the
    statuses the server's writer takes) that has no override, first
    thing after its header edits, the interceptor's panic crosses the
    guard: the exchange ends normally with that status and its reason
    phrase, and not with the 403 of the guard. *)
Theorem guard_lets_interception_through {env : Env} {renv : RedirectEnv} :
  forall (s : StaticServeMux) (sv : Serve) (r : Request) (c : bytes) (code : Z)
         (σ : World),
    String.eqb (RequestURI r) "*" = false ->
    ServeMux_Handler (StaticServeMux_ServeMux s) r = Serve_handler sv ->
    Serve_Error sv <= 0 ->
    Serve_PreventListing sv = true ->
    status (resp σ) = None ->
    Serve_Path sv = "" \/ strings_HasPrefix (URL_Path r) (Serve_Path sv) = true ->
    let r' := stripped_request (Serve_Path sv) r in
    let upath := file_server_path r' in
    strings_HasSuffix upath "/index.html" = false ->
    strings_HasSuffix upath "/" = false ->
    os_Open (Serve_Target sv) (path_Clean upath) = Some (Regular c) ->
    SetsFirst code (http_serveContent (with_URL_Path r' upath) (path_Clean upath) c) ->
    400 <= code <= 999 ->
    errors s !! code = None ->
    exists σ',
      StaticServeMux_ServeHTTP s response_writer r σ = (Ret tt, σ')
      /\ status (resp σ') = Some code
      /\ body (resp σ') = body (resp σ) ++ bytes_of (http_StatusText code +:+ LF).
Proof.
  intros s sv r c code σ Huri Hroute Herr Hguard Hst Hprefix r' upath Hidx Hslash Hopen
    Hfirst Hcode Hnone.
  assert (Herr' : (0 <? Serve_Error sv) = false) by (apply Z.ltb_ge; exact Herr).
  unfold StaticServeMux_ServeHTTP. rewrite Huri.
  rewrite Hroute.
  unfold interceptHandler.
  set (irw := length (heap σ)).
  set (σ0 := {| resp := resp σ; heap := heap σ ++ [OInterceptResponseWriter] |}).
  rewrite (bind_Ret (alloc OInterceptResponseWriter) _ σ σ0 irw eq_refl).
  set (w := interceptResponseWriter irw response_writer r s).
  assert (Hcore : forall σ1,
            status (resp σ1) = None -> body (resp σ1) = body (resp σ) ->
            heap σ1 = heap σ0 ->
            exists σ',
              (do d <- alloc (OPreventListingDir (Serve_Target sv));
               recovering
                 (http_FileServer (PreventListingDir_Open d (Serve_Target sv)) w r')
                 (fun p => if PanicValue_eqb p (PPtr d)
                           then http_Error w (http_StatusText 403) 403
                           else panic p)) σ1 = (Panic (PPtr irw), σ')
              /\ status (resp σ') = Some code
              /\ body (resp σ') = body (resp σ) ++ bytes_of (http_StatusText code +:+ LF)).
  { intros σ1 Hst1 Hbody1 Hheap1.
    set (σ2 := {| resp := resp σ1; heap := heap σ1 ++ [OPreventListingDir (Serve_Target sv)] |}).
    rewrite (bind_Ret (alloc (OPreventListingDir (Serve_Target sv))) _ σ1 σ2
               (length (heap σ1)) eq_refl).
    destruct (exec_sets_first_intercepted s irw r code _ Hfirst Hnone (proj1 Hcode) σ2 Hst1)
      as (σ' & Hrun & Hst' & Hbody' & _).
    assert (Hfs : http_FileServer (PreventListingDir_Open (length (heap σ1)) (Serve_Target sv))
                    w r' σ2 = (Panic (PPtr irw), σ')).
    { unfold http_FileServer, serveFile.
      change (if strings_HasPrefix (URL_Path r') "/" then URL_Path r'
              else "/" +:+ URL_Path r') with upath.
      change (URL_Path (with_URL_Path r' upath)) with upath.
      rewrite Hidx. unfold bind at 1.
      unfold PreventListingDir_Open at 1, http_Dir, bind at 1, ret. rewrite Hopen.
      simpl IsDir. rewrite Hslash. simpl. exact Hrun. }
    exists σ'. unfold recovering. rewrite Hfs.
    assert (Hne : PanicValue_eqb (PPtr irw) (PPtr (length (heap σ1))) = false).
    { simpl. apply Nat.eqb_neq. rewrite Hheap1. subst σ0 irw. simpl.
      rewrite length_app. simpl. lia. }
    rewrite Hne. split; [reflexivity|]. split; [exact Hst'|].
    rewrite Hbody'. simpl. rewrite Hbody1. reflexivity. }
  assert (Hserve : exists σ',
            Serve_handler sv w r σ0 = (Panic (PPtr irw), σ')
            /\ status (resp σ') = Some code
            /\ body (resp σ') = body (resp σ) ++ bytes_of (http_StatusText code +:+ LF)).
  { unfold Serve_handler. rewrite Herr', Hguard.
    rewrite (StripPrefix_strips _ _ _ _ Hprefix). fold r'.
    destruct (0 <? length (Serve_Headers sv))%nat.
    - unfold CustomHeadersHandler, bind at 1.
      destruct (inject_runs (Serve_Headers sv) σ0) as [h' ->].
      apply Hcore; [exact Hst|reflexivity|reflexivity].
    - apply Hcore; [exact Hst|reflexivity|reflexivity]. }
  destruct Hserve as (σ' & Hrun & Hst' & Hbody').
  exists σ'. unfold recovering. rewrite Hrun. simpl. rewrite Nat.eqb_refl.
  split; [reflexivity|]. split; assumption.
Qed.

(** X13 on the guarded sample serve, with a [serveContent] that answers
    416 for [a.txt]. *)
Lemma guard_lets_interception_through_witness :
  os_Open (Env := sample_env_416) (Serve_Target sample_serve) "/a.txt"
    = Some (Regular (bytes_of "hello"))
  /\ status (resp (StaticServeMux_ServeHTTP (env := sample_env_416) (renv := sample_redirect_env)
      sample_mux_serve_416
                     response_writer (sample_request "/a.txt") fresh_world).2)
     = Some 416.
Proof.
  split; [reflexivity|].
  destruct (guard_lets_interception_through (env := sample_env_416) (renv := sample_redirect_env)
      sample_mux_serve_416
              sample_serve (sample_request "/a.txt") (bytes_of "hello") 416 fresh_world
              eq_refl eq_refl ltac:(simpl; lia) eq_refl eq_refl (or_intror eq_refl)
              eq_refl eq_refl eq_refl
              (SetsFirst_Set 416 _ _ _ (SetsFirst_WriteHeader 416 _))
              ltac:(lia) eq_refl) as (σ' & Hrun & Hst & _).
  rewrite Hrun. exact Hst.
Defined.

(** ** Invariants that ignore the header map and the heap *)

Section Blind.
Context {env : Env} (J : World -> Prop).
Hypothesis HJ : header_blind J.

Lemma blind_header (f : Header -> Header) : hoare J (modify (set_resp (set_header f))) J.
Proof. intros σ H. exact (proj1 HJ f σ H). Qed.

Lemma blind_gets {A} (f : World -> A) : hoare J (gets f) J.
Proof. intros σ H. exact H. Qed.

Lemma blind_load (a : nat) : hoare J (load a) J.
Proof. intros σ H. exact H. Qed.

Lemma blind_store (a : nat) (o : Obj) : hoare J (store a o) J.
Proof. intros [ρ hp] H. exact (proj2 HJ ρ hp _ H). Qed.

Lemma blind_GzipResponseWriter (grw gz : nat) (w : ResponseWriter) :
  writer_keeps J w -> writer_keeps J (GzipResponseWriter grw gz w).
Proof.
  intros Hw. split; [|exact (proj2 Hw)].
  intros b.
  change (hoare J (GzipResponseWriter_Write grw gz w b) J).
  unfold GzipResponseWriter_Write.
  apply keeps_bind; [apply blind_load|intros [[| | | |got]|]]; try apply keeps_panic.
  apply keeps_bind.
  - apply keeps_when. apply keeps_bind; [apply blind_gets|intros ct].
    apply keeps_bind; [|intros _; apply blind_store].
    apply keeps_when. apply blind_header.
  - intros _. unfold gzip_Writer_Write.
    apply keeps_bind; [apply blind_load|intros [[| | |hist|]|]]; try apply keeps_panic.
    apply keeps_bind; [apply blind_store|intros _].
    apply keeps_for_each. exact (proj1 Hw).
Qed.

End Blind.

Lemma header_sent_blind (st : Z) (hs : Header) : header_blind (header_sent st hs).
Proof.
  split.
  - intros f σ H. exact H.
  - intros ρ hp hp' H. exact H.
Qed.

(** ** Header injection, by itself *)

Lemma inject_as_fold {env : Env} (headers : Headers) :
  forall σ,
    for_each headers (fun kv =>
      do cur <- wHeader_Get kv.1;
      when (String.eqb cur "") (wHeader_Set kv.1 kv.2)) σ
    = (Ret tt, set_resp (set_header (fun _ => foldl set_if_empty (header (resp σ)) headers)) σ).
Proof.
  induction headers as [|[k v] rest IH]; intros σ.
  - destruct σ as [[hd st sn bd] hp]. reflexivity.
  - assert (Hbody : (do cur <- wHeader_Get (k, v).1;
                     when (String.eqb cur "") (wHeader_Set (k, v).1 (k, v).2)) σ
                    = (Ret tt, set_resp (set_header
                                 (fun _ => set_if_empty (header (resp σ)) (k, v))) σ)).
    { unfold bind, wHeader_Get, gets, set_if_empty. simpl.
      destruct (String.eqb (Header_Get (header (resp σ)) k) ""); simpl.
      - reflexivity.
      - destruct σ as [[hd st sn bd] hp]. reflexivity. }
    change (for_each ((k, v) :: rest) ?f) with (do _ <- f (k, v); for_each rest f).
    unfold bind at 1. rewrite Hbody, IH. reflexivity.
Qed.

Lemma set_if_empty_other {env : Env} (hd : Header) (kv : string * string) (K : string) :
  CanonicalHeaderKey kv.1 <> K -> set_if_empty hd kv !! K = hd !! K.
Proof.
  intros Hne. unfold set_if_empty.
  destruct (String.eqb (Header_Get hd kv.1) ""); [|reflexivity].
  unfold Header_Set. apply lookup_insert_ne. exact Hne.
Qed.

Lemma fold_set_if_empty_present {env : Env} (headers : Headers) (K v0 : string)
    (vs : list string) :
  v0 <> "" ->
  forall hd, hd !! K = Some (v0 :: vs) -> foldl set_if_empty hd headers !! K = Some (v0 :: vs).
Proof.
  intros Hv0. induction headers as [|kv rest IH]; intros hd HK; simpl; [exact HK|].
  apply IH. destruct (decide (CanonicalHeaderKey kv.1 = K)) as [Heq|Hne].
  - unfold set_if_empty, Header_Get. rewrite Heq, HK.
    apply String.eqb_neq in Hv0. rewrite Hv0. exact HK.
  - rewrite set_if_empty_other by exact Hne. exact HK.
Qed.

Lemma fold_set_if_empty_absent {env : Env} (headers : Headers) (k v : string) :
  v <> "" ->
  (forall k' v', In (k', v') headers ->
     CanonicalHeaderKey k' = CanonicalHeaderKey k -> v' = v) ->
  forall hd,
    hd !! CanonicalHeaderKey k = Some [v]
    \/ (Header_Get hd k = ""
        /\ exists k1, In (k1, v) headers /\ CanonicalHeaderKey k1 = CanonicalHeaderKey k) ->
    foldl set_if_empty hd headers !! CanonicalHeaderKey k = Some [v].
Proof.
  intros Hv. induction headers as [|[k' v'] rest IH]; intros Hall hd Hcases.
  - destruct Hcases as [H|[_ [k1 [[] _]]]]. exact H.
  - simpl. apply IH.
    { intros k'' v'' Hin. apply Hall. right. exact Hin. }
    destruct (decide (CanonicalHeaderKey k' = CanonicalHeaderKey k)) as [Heq|Hne].
    + assert (v' = v) as -> by (apply (Hall k'); [left; reflexivity|exact Heq]).
      left. unfold set_if_empty. simpl.
      destruct Hcases as [Hsome|[Hget _]].
      * unfold Header_Get. rewrite Heq, Hsome.
        apply String.eqb_neq in Hv. rewrite Hv. exact Hsome.
      * assert (Hget' : Header_Get hd k' = "").
        { unfold Header_Get in *. rewrite Heq. exact Hget. }
        rewrite Hget'. simpl. unfold Header_Set. rewrite Heq. apply lookup_insert_eq.
    + assert (Hsame : set_if_empty hd (k', v') !! CanonicalHeaderKey k
                      = hd !! CanonicalHeaderKey k)
        by (apply set_if_empty_other; exact Hne).
      destruct Hcases as [Hsome|[Hget [k1 [Hin Hk1]]]].
      * left. rewrite Hsame. exact Hsome.
      * right. split.
        -- unfold Header_Get in *. rewrite Hsame. exact Hget.
        -- exists k1. split; [|exact Hk1].
           destruct Hin as [Heq|Hin]; [|exact Hin].
           injection Heq as -> ->. contradiction.
Qed.

(** X16.  [CustomHeadersHandler] edits the header map, and nothing
    else, before the wrapped handler runs: the wrapped handler starts in
    the world it would have started in, with the header map the loop
    leaves.  In that map a header that was present with a first value
    that is not empty is as it was; a header that [Get] found empty and
    that the configuration gives one value (not empty) has that value
    alone; and a header that is not configured is as it was. *)
Theorem CustomHeadersHandler_sets_empty_headers {env : Env} :
  forall (h : Handler) (headers : Headers) (w : ResponseWriter) (r : Request) (σ : World),
    let hd' := foldl set_if_empty (header (resp σ)) headers in
    CustomHeadersHandler h headers w r σ = h w r (set_resp (set_header (fun _ => hd')) σ)
    /\ (forall K v0 vs,
          header (resp σ) !! K = Some (v0 :: vs) -> v0 <> "" -> hd' !! K = Some (v0 :: vs))
    /\ (forall k v,
          In (k, v) headers ->
          v <> "" ->
          (forall k' v', In (k', v') headers ->
             CanonicalHeaderKey k' = CanonicalHeaderKey k -> v' = v) ->
          Header_Get (header (resp σ)) k = "" ->
          hd' !! CanonicalHeaderKey k = Some [v])
    /\ (forall K,
          (forall k v, In (k, v) headers -> CanonicalHeaderKey k <> K) ->
          hd' !! K = header (resp σ) !! K).
Proof.
  intros h headers w r σ hd'. subst hd'.
  split; [|split; [|split]].
  - unfold CustomHeadersHandler.
    rewrite (bind_Ret _ _ _ _ tt (inject_as_fold headers σ)). reflexivity.
  - intros K v0 vs HK Hv0. apply fold_set_if_empty_present; assumption.
  - intros k v Hin Hv Hall Hget. apply fold_set_if_empty_absent; [exact Hv|exact Hall|].
    right. split; [exact Hget|]. exists k. split; [exact Hin|reflexivity].
  - intros K. generalize (header (resp σ)).
    induction headers as [|[k v] rest IH]; intros hd Hnot; simpl; [reflexivity|].
    rewrite IH.
    + apply set_if_empty_other. apply (Hnot k v). left. reflexivity.
    + intros k' v' Hin. apply (Hnot k' v'). right. exact Hin.
Qed.

(** ** Compression: the content type, and a handler that panics *)

Lemma response_Write_shape (b : bytes) (σ : World) :
  exists ρ',
    response_Write b σ = (Ret tt, {| resp := ρ'; heap := heap σ |})
    /\ header ρ' = header (resp σ)
    /\ body ρ' = body (resp σ) ++ b.
Proof.
  unfold response_Write, bind, gets, when, response_WriteHeader, modify. simpl.
  destruct (status (resp σ)) as [st|] eqn:Hst; simpl.
  - eexists. repeat split; reflexivity.
  - rewrite Hst. eexists. repeat split; reflexivity.
Qed.

Lemma for_each_response_Write_header (cs : list bytes) :
  forall σ, header (resp (for_each cs response_Write σ).2) = header (resp σ).
Proof.
  induction cs as [|b cs IH]; intros σ; simpl.
  - reflexivity.
  - destruct (response_Write_shape b σ) as (ρ1 & Hrun1 & Hh1 & _).
    unfold bind. rewrite Hrun1, IH. exact Hh1.
Qed.

Lemma gzip_Writer_Write_header {env : Env} (gz : nat) (hist b : bytes) (σ : World) :
  heap σ !! gz = Some (OGzipWriter hist) ->
  header (resp (gzip_Writer_Write gz response_writer b σ).2) = header (resp σ).
Proof.
  intros Hgz. unfold gzip_Writer_Write, bind at 1, load. rewrite Hgz.
  unfold bind at 1, store.
  change (Write response_writer) with response_Write.
  rewrite for_each_response_Write_header. reflexivity.
Qed.

(** What one [GzipResponseWriter.Write] does to the header map. *)
Lemma GzipResponseWriter_Write_header {env : Env} (grw gz : nat) (hist b : bytes)
    (got : bool) (σ : World) :
  heap σ !! gz = Some (OGzipWriter hist) ->
  heap σ !! grw = Some (OGzipResponseWriter got) ->
  header (resp (GzipResponseWriter_Write grw gz response_writer b σ).2)
  = if got then header (resp σ)
    else set_if_empty (header (resp σ)) ("Content-Type", http_DetectContentType b).
Proof.
  intros Hgz Hgrw.
  assert (Hne : gz <> grw) by (intros ->; rewrite Hgz in Hgrw; discriminate Hgrw).
  unfold GzipResponseWriter_Write, bind at 1, load. rewrite Hgrw.
  destruct got.
  - change (when (negb true) ?m) with (ret (A := unit) tt).
    unfold bind at 1, ret. apply (gzip_Writer_Write_header gz hist). exact Hgz.
  - change (when (negb false) ?m) with m.
    unfold bind at 1. unfold bind at 1. unfold wHeader_Get at 1, gets.
    unfold set_if_empty. cbn [fst snd].
    destruct (String.eqb (Header_Get (header (resp σ)) "Content-Type") "").
    + unfold when, bind at 1, wHeader_Set at 1, modify, store.
      rewrite (gzip_Writer_Write_header gz hist).
      * reflexivity.
      * simpl. rewrite list_lookup_insert_ne by (intros Heq; apply Hne; symmetry; exact Heq).
        exact Hgz.
    + unfold when, bind at 1, ret, store.
      rewrite (gzip_Writer_Write_header gz hist).
      * reflexivity.
      * simpl. rewrite list_lookup_insert_ne by (intros Heq; apply Hne; symmetry; exact Heq).
        exact Hgz.
Qed.

Lemma GzipResponseWriter_later_writes {env : Env} (grw gz : nat) (rest : list bytes) :
  forall (σ : World) (hist : bytes),
    heap σ !! gz = Some (OGzipWriter hist) ->
    heap σ !! grw = Some (OGzipResponseWriter true) ->
    header (resp (for_each rest (GzipResponseWriter_Write grw gz response_writer) σ).2)
    = header (resp σ).
Proof.
  induction rest as [|b rest IH]; intros σ hist Hgz Hgrw.
  - reflexivity.
  - pose proof (GzipResponseWriter_Write_header grw gz hist b true σ Hgz Hgrw) as Hh.
    destruct (GzipResponseWriter_Write_runs grw gz hist b true σ Hgz Hgrw)
      as (σ1 & Hrun & Hgz1 & Hgrw1 & _).
    change (for_each (b :: rest) ?f) with (do _ <- f b; for_each rest f).
    unfold bind. rewrite Hrun in *. simpl in Hh.
    rewrite (IH σ1 _ Hgz1 Hgrw1). exact Hh.
Qed.

(** X17.  [GzipResponseWriter] looks at the [Content-Type] once, at
    its first [Write].  After any number of writes, the first one
    included, the header map is the one the handler had made, except
    that a [Content-Type] that [Get] found empty at the first write has
    become what [http.DetectContentType] says of the first chunk; the
    later chunks have no part in it. *)
Theorem content_type_is_detected_once {env : Env} :
  forall (grw gz : nat) (hist b1 : bytes) (rest : list bytes) (σ : World),
    heap σ !! gz = Some (OGzipWriter hist) ->
    heap σ !! grw = Some (OGzipResponseWriter false) ->
    header (resp (for_each (b1 :: rest) (Write (GzipResponseWriter grw gz response_writer))
                    σ).2)
    = if String.eqb (Header_Get (header (resp σ)) "Content-Type") ""
      then Header_Set (header (resp σ)) "Content-Type" (http_DetectContentType b1)
      else header (resp σ).
Proof.
  intros grw gz hist b1 rest σ Hgz Hgrw.
  pose proof (GzipResponseWriter_Write_header grw gz hist b1 false σ Hgz Hgrw) as Hh.
  destruct (GzipResponseWriter_Write_runs grw gz hist b1 false σ Hgz Hgrw)
    as (σ1 & Hrun & Hgz1 & Hgrw1 & _).
  change (Write (GzipResponseWriter grw gz response_writer))
    with (GzipResponseWriter_Write grw gz response_writer).
  change (for_each (b1 :: rest) ?f) with (do _ <- f b1; for_each rest f).
  unfold bind. rewrite Hrun in *. simpl in Hh.
  rewrite (GzipResponseWriter_later_writes grw gz rest σ1 _ Hgz1 Hgrw1).
  exact Hh.
Qed.

(** X17 on two chunks written without [Content-Type]. *)
Lemma content_type_is_detected_once_witness :
  heap sample_gzip_world !! 0%nat = Some (OGzipWriter [])
  /\ header (resp (for_each [bytes_of "<p>"; bytes_of "one"]
                     (Write (GzipResponseWriter (env := sample_env) 1 0 response_writer))
                     sample_gzip_world).2)
     = {[ "Content-Type" := ["text/plain; charset=utf-8"] ]}.
Proof.
  split; [reflexivity|].
  rewrite (content_type_is_detected_once (env := sample_env) 1 0 [] (bytes_of "<p>")
             [bytes_of "one"] sample_gzip_world eq_refl eq_refl).
  reflexivity.
Defined.

Lemma gzip_Writer_Close_sent {env : Env} (gz : nat) (σ : World) (st : Z) (hs : Header) :
  header_sent st hs σ -> header_sent st hs (gzip_Writer_Close gz response_writer σ).2.
Proof.
  revert σ. change (hoare (header_sent st hs) (gzip_Writer_Close gz response_writer)
                      (header_sent st hs)).
  unfold gzip_Writer_Close.
  apply keeps_bind; [intros σ H; exact H|intros [[| | |hist|]|]]; try apply keeps_panic.
  apply keeps_for_each. exact (proj1 (response_writer_keeps_sent st hs)).
Qed.

(** X18.  [GzipHandler] defers [gz.Close()]: when the wrapped handler
    panics, the [gzip.Writer] is closed all the same, on the response the
    handler left, and the panic goes on to the caller. *)
Theorem GzipHandler_closes_on_panic {env : Env} :
  forall (h : Handler) (r : Request) (σ σ4 : World) (p : PanicValue) (hist : bytes),
    strings_Contains (Header_Get (Request_Header r) "Accept-Encoding") "gzip" = true ->
    h (GzipResponseWriter (length (heap σ ++ [OGzipWriter []])) (length (heap σ))
         response_writer) r
      {| resp := set_header (fun hd => Header_Set hd "Content-Encoding" "gzip") (resp σ);
         heap := (heap σ ++ [OGzipWriter []]) ++ [OGzipResponseWriter false] |}
      = (Panic p, σ4) ->
    heap σ4 !! length (heap σ) = Some (OGzipWriter hist) ->
    exists ρ',
      GzipHandler h response_writer r σ = (Panic p, {| resp := ρ'; heap := heap σ4 |})
      /\ body ρ' = body (resp σ4) ++ concat (gzip_close hist).
Proof.
  intros h r σ σ4 p hist Haccept Hrun Hgz4. unfold GzipHandler. rewrite Haccept.
  change (negb true) with false. cbv iota.
  set (σ1 := set_resp (set_header (fun hd => Header_Set hd "Content-Encoding" "gzip")) σ).
  set (gz := length (heap σ)) in *.
  set (σ1' := {| resp := resp σ1; heap := heap σ ++ [OGzipWriter []] |}).
  set (grw := length (heap σ ++ [OGzipWriter []])) in *.
  rewrite (bind_Ret (wHeader_Set "Content-Encoding" "gzip") _ σ σ1 tt eq_refl).
  rewrite (bind_Ret (alloc (OGzipWriter [])) _ σ1 σ1' gz eq_refl).
  destruct (gzip_Writer_Close_runs gz _ σ4 Hgz4) as (ρ' & Hclose & Hbody').
  exists ρ'. split; [|exact Hbody'].
  unfold deferring.
  rewrite (bind_Ret (alloc (OGzipResponseWriter false)) _ σ1'
             {| resp := resp σ1; heap := heap σ1' ++ [OGzipResponseWriter false] |}
             grw eq_refl).
  change (h (GzipResponseWriter grw gz response_writer) r
            {| resp := resp σ1; heap := heap σ1' ++ [OGzipResponseWriter false] |})
    with (h (GzipResponseWriter grw gz response_writer) r
            {| resp := set_header (fun hd => Header_Set hd "Content-Encoding" "gzip") (resp σ);
               heap := (heap σ ++ [OGzipWriter []]) ++ [OGzipResponseWriter false] |}).
  rewrite Hrun, Hclose. reflexivity.
Qed.

(** X18 on a handler that writes [par] and panics: the stream is closed
    over [par]. *)
Lemma GzipHandler_closes_on_panic_witness :
  let res := GzipHandler (env := sample_env) (scripted (env := sample_env)
                                                sample_failing_handler)
               response_writer (sample_gzip_request "/x") fresh_world in
  res.1 = Panic (PStr "boom")
  /\ sample_gunzip (body (resp res.2)) = Some (bytes_of "par").
Proof.
  cbv zeta.
  destruct (GzipHandler_closes_on_panic (env := sample_env)
              (scripted (env := sample_env) sample_failing_handler)
              (sample_gzip_request "/x") fresh_world
              (scripted (env := sample_env) sample_failing_handler
                 (GzipResponseWriter (env := sample_env) 1 0 response_writer)
                 (sample_gzip_request "/x")
                 {| resp := set_header (fun hd => Header_Set (env := sample_env) hd
                                                    "Content-Encoding" "gzip")
                              fresh_response;
                    heap := [OGzipWriter []; OGzipResponseWriter false] |}).2
              (PStr "boom") (bytes_of "par") eq_refl eq_refl eq_refl)
    as (ρ' & Hrun & Hbody).
  rewrite Hrun. simpl fst. simpl snd. split; [reflexivity|].
  cbn [resp]. rewrite Hbody. reflexivity.
Defined.

(** [http.Error] on the compressing writer, before the header is
    written: the status is set on the server's writer and the message
    goes through the [gzip.Writer]. *)
Lemma http_Error_gzip {env : Env} (grw gz : nat) (msg : string) (code : Z)
    (hist : bytes) (got : bool) (σ : World) :
  status (resp σ) = None ->
  heap σ !! gz = Some (OGzipWriter hist) ->
  heap σ !! grw = Some (OGzipResponseWriter got) ->
  exists σ',
    http_Error (GzipResponseWriter grw gz response_writer) msg code σ = (Ret tt, σ')
    /\ status (resp σ') = Some code
    /\ heap σ' !! gz = Some (OGzipWriter (hist ++ bytes_of (msg +:+ LF)))
    /\ body (resp σ') = body (resp σ) ++ concat (gzip_write hist (bytes_of (msg +:+ LF))).
Proof.
  intros Hst Hgz Hgrw. unfold http_Error.
  set (σ1 := set_resp (set_header (fun h => Header_Set h "Content-Type"
                                              "text/plain; charset=utf-8")) σ).
  rewrite (bind_Ret (wHeader_Set "Content-Type" "text/plain; charset=utf-8") _ σ σ1 tt eq_refl).
  set (σ2 := set_resp (fun ρ => {| header := header ρ; status := Some code;
                                   sent := header ρ; body := body ρ |}) σ1).
  assert (Hwh : WriteHeader (GzipResponseWriter grw gz response_writer) code σ1 = (Ret tt, σ2)).
  { cbn [WriteHeader GzipResponseWriter response_writer].
    unfold response_WriteHeader. subst σ1. simpl. rewrite Hst. reflexivity. }
  rewrite (bind_Ret _ _ _ _ tt Hwh).
  destruct (GzipResponseWriter_Write_runs grw gz hist (bytes_of (msg +:+ LF)) got σ2 Hgz Hgrw)
    as (σ3 & Hrun & Hgz3 & _ & Hbody3).
  assert (Hsent : header_sent code (header (resp σ1)) σ3).
  { replace σ3 with (Write (GzipResponseWriter grw gz response_writer)
                       (bytes_of (msg +:+ LF)) σ2).2
      by (cbn [Write GzipResponseWriter]; rewrite Hrun; reflexivity).
    apply (proj1 (blind_GzipResponseWriter _ (header_sent_blind _ _) grw gz response_writer
                    (response_writer_keeps_sent _ _))).
    split; reflexivity. }
  exists σ3. cbn [Write GzipResponseWriter]. split; [exact Hrun|].
  split; [exact (proj1 Hsent)|]. split; [exact Hgz3|]. exact Hbody3.
Qed.

Lemma exec_sets_first_intercepted_gzip {env : Env} (s : StaticServeMux) (irw grw gz : nat)
    (r : Request) (code : Z) (script : Script) :
  SetsFirst code script ->
  errors s !! code = None ->
  400 <= code ->
  forall (σ : World) (hist : bytes) (got : bool),
    status (resp σ) = None ->
    heap σ !! gz = Some (OGzipWriter hist) ->
    heap σ !! grw = Some (OGzipResponseWriter got) ->
    exists σ',
      exec script
        (interceptResponseWriter irw (GzipResponseWriter grw gz response_writer) r s) σ
      = (Panic (PPtr irw), σ')
      /\ status (resp σ') = Some code
      /\ heap σ' !! gz
         = Some (OGzipWriter (hist ++ bytes_of (http_StatusText code +:+ LF)))
      /\ body (resp σ')
         = body (resp σ) ++ concat (gzip_write hist (bytes_of (http_StatusText code +:+ LF))).
Proof.
  intros Hs Hnone Hcode. induction Hs as
    [ cont | key cont _ IH | key value cont _ IH | key value cont _ IH
      | key cont _ IH | cont _ IH ];
    intros σ hist got Hst Hgz Hgrw; simpl exec.
  - unfold bind at 1. cbn [WriteHeader interceptResponseWriter].
    unfold interceptResponseWriter_WriteHeader, intercept. rewrite Hnone.
    destruct (Z.ltb_spec code 400) as [Hlt|_]; [lia|].
    destruct (http_Error_gzip grw gz (http_StatusText code) code hist got σ Hst Hgz Hgrw)
      as (σ' & Hrun & Hst' & Hgz' & Hbody').
    unfold bind at 1. unfold bind at 1. rewrite Hrun.
    exists σ'. split; [reflexivity|]. repeat split; assumption.
  - unfold bind, wHeader_Get, gets. apply (IH _ σ hist got Hst Hgz Hgrw).
  - exact (IH (set_resp (set_header (fun h => Header_Set h key value)) σ) hist got Hst Hgz Hgrw).
  - exact (IH (set_resp (set_header (fun h => Header_Add h key value)) σ) hist got Hst Hgz Hgrw).
  - exact (IH (set_resp (set_header (fun h => Header_Del h key)) σ) hist got Hst Hgz Hgrw).
  - unfold bind, wHeader_keys, gets. apply (IH _ σ hist got Hst Hgz Hgrw).
Qed.

(** X19.  The interceptor sits under the compression: the writer it
    answers on is the compressing writer.  For a request that accepts
    gzip and that [ServeMux.Handler] gives to a handler (so not one it
    redirects) that first sets an error status (400 to 999) without
    override, the exchange ends normally with that status, and the body
    is the stream of a [gzip.Writer] that was given the reason phrase
    and a line feed, and closed: the substituted text is sent
    compressed. *)
Theorem error_text_is_compressed {env : Env} {renv : RedirectEnv} :
  forall (s : StaticServeMux) (f : Request -> Script) (r : Request)
         (code : Z) (σ : World),
    strings_Contains (Header_Get (Request_Header r) "Accept-Encoding") "gzip" = true ->
    String.eqb (RequestURI r) "*" = false ->
    ServeMux_Handler (StaticServeMux_ServeMux s) r = scripted f ->
    SetsFirst code (f r) ->
    400 <= code <= 999 ->
    errors s !! code = None ->
    status (resp σ) = None ->
    exists σ',
      GzipHandler (StaticServeMux_ServeHTTP s) response_writer r σ = (Ret tt, σ')
      /\ status (resp σ') = Some code
      /\ body (resp σ')
         = body (resp σ)
           ++ concat (gzip_stream [] [bytes_of (http_StatusText code +:+ LF)]).
Proof.
  intros s f r code σ Haccept Huri Hroute Hfirst Hcode Hnone Hst.
  set (gz := length (heap σ)).
  set (grw := length (heap σ ++ [OGzipWriter []])).
  set (σ2 := {| resp := set_header (fun hd => Header_Set hd "Content-Encoding" "gzip")
                          (resp σ);
                heap := (heap σ ++ [OGzipWriter []]) ++ [OGzipResponseWriter false] |}).
  set (irw := length (heap σ2)).
  set (σ3 := {| resp := resp σ2; heap := heap σ2 ++ [OInterceptResponseWriter] |}).
  assert (Hgz3 : heap σ3 !! gz = Some (OGzipWriter [])).
  { subst σ3 σ2 gz. simpl.
    rewrite lookup_app_l by (rewrite !length_app; simpl; lia).
    rewrite lookup_app_l by (rewrite length_app; simpl; lia).
    apply list_lookup_middle. reflexivity. }
  assert (Hgrw3 : heap σ3 !! grw = Some (OGzipResponseWriter false)).
  { subst σ3 σ2 grw. simpl.
    rewrite lookup_app_l by (rewrite !length_app; simpl; lia).
    apply list_lookup_middle. reflexivity. }
  destruct (exec_sets_first_intercepted_gzip s irw grw gz r code (f r) Hfirst Hnone
              (proj1 Hcode) σ3 [] false Hst Hgz3 Hgrw3) as (σ4 & Hexec & Hst4 & Hgz4 & Hbody4).
  assert (Hmux : StaticServeMux_ServeHTTP s (GzipResponseWriter grw gz response_writer) r σ2
                 = (Ret tt, σ4)).
  { unfold StaticServeMux_ServeHTTP. rewrite Huri.
    rewrite Hroute. unfold interceptHandler.
    rewrite (bind_Ret (alloc OInterceptResponseWriter) _ σ2 σ3 irw eq_refl).
    unfold recovering, scripted. rewrite Hexec. simpl. rewrite Nat.eqb_refl. reflexivity. }
  destruct (GzipHandler_around (StaticServeMux_ServeHTTP s) r σ σ4 _ Haccept Hmux Hgz4)
    as (ρ' & Hrun & Hbody' & _).
  exists {| resp := ρ'; heap := heap σ4 |}. split; [exact Hrun|].
  assert (Hsent : header_sent code (sent (resp σ4)) {| resp := ρ'; heap := heap σ4 |}).
  { pose proof (gzip_Writer_Close_sent gz σ4 code (sent (resp σ4))
                  (conj Hst4 eq_refl)) as H.
    destruct (gzip_Writer_Close_runs gz _ σ4 Hgz4) as (ρ'' & Hclose & _).
    assert (Hsame : (GzipHandler (StaticServeMux_ServeHTTP s) response_writer r σ).2
                    = (gzip_Writer_Close gz response_writer σ4).2).
    { unfold GzipHandler. rewrite Haccept. change (negb true) with false. cbv iota.
      rewrite (bind_Ret (wHeader_Set "Content-Encoding" "gzip") _ σ
                 (set_resp (set_header (fun hd => Header_Set hd "Content-Encoding" "gzip")) σ)
                 tt eq_refl).
      rewrite (bind_Ret (alloc (OGzipWriter [])) _
                 (set_resp (set_header (fun hd => Header_Set hd "Content-Encoding" "gzip")) σ)
                 {| resp := set_header (fun hd => Header_Set hd "Content-Encoding" "gzip")
                              (resp σ);
                    heap := heap σ ++ [OGzipWriter []] |} gz eq_refl).
      unfold deferring.
      rewrite (bind_Ret (alloc (OGzipResponseWriter false)) _
                 {| resp := set_header (fun hd => Header_Set hd "Content-Encoding" "gzip")
                              (resp σ);
                    heap := heap σ ++ [OGzipWriter []] |} σ2 grw eq_refl).
      rewrite Hmux, Hclose. reflexivity. }
    rewrite Hrun in Hsame. simpl in Hsame. rewrite Hsame. exact H. }
  split; [exact (proj1 Hsent)|].
  cbn [resp]. rewrite Hbody', Hbody4. simpl.
  rewrite concat_app, <- app_assoc. reflexivity.
Qed.

(** X19 on a handler that sets status 404 and goes on writing. *)
Lemma error_text_is_compressed_witness :
  let σ' := (GzipHandler (env := sample_env)
               (StaticServeMux_ServeHTTP (env := sample_env) (renv := sample_redirect_env)
                   sample_mux_scripted_404)
               response_writer (sample_gzip_request "/x") fresh_world).2 in
  SetsFirst 404 (sample_handler_404 (sample_gzip_request "/x"))
  /\ status (resp σ') = Some 404
  /\ sample_gunzip (body (resp σ')) = Some (bytes_of ("Not Found" +:+ LF)).
Proof.
  cbv zeta. split; [apply SetsFirst_WriteHeader|].
  destruct (error_text_is_compressed (env := sample_env) (renv := sample_redirect_env)
      sample_mux_scripted_404
              sample_handler_404 (sample_gzip_request "/x") 404 fresh_world
              eq_refl eq_refl eq_refl (SetsFirst_WriteHeader 404 _) ltac:(lia)
              eq_refl eq_refl) as (σ' & Hrun & Hst & Hbody).
  rewrite Hrun. split; [exact Hst|]. cbn [snd]. rewrite Hbody. reflexivity.
Defined.

(** ** A serve with a fixed error status *)



(** ** The earlier generation *)

Lemma exec_unregistered {env : Env} (handlers : gmap Z Handler) (ehrw : nat)
    (w : ResponseWriter) (r : Request) (script : Script) :
  Codes (fun c => handlers !! c = None) script ->
  forall σ, exec script (Gen1.ErrorHandlingResponseWriter ehrw w r handlers) σ
            = exec script w σ.
Proof.
  intros Hs. induction Hs as
    [ | key cont _ IH | key value cont _ IH | key value cont _ IH | key cont _ IH
      | cont _ IH | code cont Hnone _ IH | b cont _ IH | p ];
    intros σ; simpl exec.
  - reflexivity.
  - unfold bind, wHeader_Get, gets. apply IH.
  - unfold bind, wHeader_Set, modify. apply IH.
  - unfold bind, wHeader_Add, modify. apply IH.
  - unfold bind, wHeader_Del, modify. apply IH.
  - unfold bind, wHeader_keys, gets. apply IH.
  - unfold bind. cbn [WriteHeader Gen1.ErrorHandlingResponseWriter].
    unfold Gen1.ErrorHandlingResponseWriter_WriteHeader. rewrite Hnone.
    destruct (WriteHeader w code σ) as [[[]|p] σ1]; [apply IH|reflexivity].
  - unfold bind. cbn [Write Gen1.ErrorHandlingResponseWriter].
    destruct (Write w b σ) as [[[]|p] σ1]; [apply IH|reflexivity].
  - reflexivity.
Qed.

(** X22.  In the earlier generation a status without registered handler
    goes through [ErrorHandler] untouched, error statuses included: a
    handler whose statuses have no registered handler runs as on the
    wrapped writer, and the client gets the handler's own response (the
    later generation substitutes the reason phrase from 400 on). *)
Theorem Gen1_unregistered_statuses_pass {env : Env} :
  forall (handlers : gmap Z Handler) (f : Request -> Script) (w : ResponseWriter)
         (r : Request) (σ σ' : World) (o : Outcome unit),
    Codes (fun c => handlers !! c = None) (f r) ->
    exec (f r) w {| resp := resp σ; heap := heap σ ++ [OErrorHandlingResponseWriter] |}
      = (o, σ') ->
    o <> Panic (PPtr (length (heap σ))) ->
    Gen1.ErrorHandler (scripted f) handlers w r σ = (o, σ').
Proof.
  intros handlers f w r σ σ' o Hcodes Hexec Ho.
  unfold Gen1.ErrorHandler.
  rewrite (bind_Ret (alloc OErrorHandlingResponseWriter) _ σ
             {| resp := resp σ; heap := heap σ ++ [OErrorHandlingResponseWriter] |}
             (length (heap σ)) eq_refl).
  unfold recovering, scripted. rewrite (exec_unregistered handlers _ w r _ Hcodes), Hexec.
  destruct o as [[]|p]; [reflexivity|].
  destruct (PanicValue_eqb p (PPtr (length (heap σ)))) eqn:Hp; [|reflexivity].
  apply PanicValue_eqb_eq in Hp. subst p. contradiction.
Qed.

(** X22 on a handler that answers 404 with its own text, and the same
    handler under the later generation's interceptor. *)
Lemma Gen1_unregistered_statuses_pass_witness :
  body (resp (Gen1.ErrorHandler (scripted (env := sample_env) sample_own_404)
                ∅ response_writer (sample_request "/x") fresh_world).2)
  = bytes_of "nothing here"
  /\ body (resp (interceptHandler (env := sample_env) sample_mux
                   (scripted (env := sample_env) sample_own_404)
                   response_writer (sample_request "/x") fresh_world).2)
     = bytes_of ("Not Found" +:+ LF).
Proof.
  split; [|reflexivity].
  erewrite (Gen1_unregistered_statuses_pass (env := sample_env) ∅ sample_own_404
              response_writer (sample_request "/x") fresh_world); cycle 1.
  - apply Codes_WriteHeader; [reflexivity|]. apply Codes_Write, Codes_Done.
  - vm_compute. reflexivity.
  - discriminate.
  - reflexivity.
Defined.

Lemma Gen1_errorHandlers_fold {env : Env} (errs : list Error) :
  forall (m : gmap Z Handler) (c : Z) (h : Handler),
    foldl (fun m e => <[Error_Status e := Gen1.Error_handler e]> m) m errs !! c = Some h ->
    (exists e, In e errs /\ Error_Status e = c /\ h = Gen1.Error_handler e)
    \/ m !! c = Some h.
Proof.
  induction errs as [|e errs IH]; intros m c h Hc; simpl in Hc.
  - right. exact Hc.
  - destruct (IH _ _ _ Hc) as [(e' & Hin & Hst & Hh)|Hm].
    + left. exists e'. split; [right; exact Hin|]. split; assumption.
    + apply lookup_insert_Some in Hm as [[Heq <-]|[_ Hm]].
      * left. exists e. split; [left; reflexivity|]. split; [exact Heq|reflexivity].
      * right. exact Hm.
Qed.

(** X23.  The earlier generation's [main] stores the error pages in a
    map, one assignment per page: two pages for one status are no error,
    the page configured last is the one in the map, and every handler in
    the map is the page of a configured error under its own status.
    (The later generation's [HandleError] panics on the second page.) *)
Theorem Gen1_last_error_page_wins {env : Env} :
  forall (errs1 errs2 : list Error) (e : Error),
    (forall e', In e' errs2 -> Error_Status e' <> Error_Status e) ->
    Gen1Main.errorHandlers (errs1 ++ e :: errs2) !! Error_Status e
      = Some (Gen1.Error_handler e)
    /\ (forall c h,
          Gen1Main.errorHandlers (errs1 ++ e :: errs2) !! c = Some h ->
          exists e', In e' (errs1 ++ e :: errs2)
                     /\ Error_Status e' = c /\ h = Gen1.Error_handler e').
Proof.
  intros errs1 errs2 e Hlater. split.
  - unfold Gen1Main.errorHandlers. rewrite foldl_app. simpl.
    assert (Hkeep : forall errs (m' : gmap Z Handler),
               (forall e', In e' errs -> Error_Status e' <> Error_Status e) ->
               foldl (fun m e0 => <[Error_Status e0 := Gen1.Error_handler e0]> m) m' errs
                 !! Error_Status e = m' !! Error_Status e).
    { induction errs as [|e0 errs IH]; intros m' Hne; simpl; [reflexivity|].
      rewrite IH by (intros e' Hin; apply Hne; right; exact Hin).
      apply lookup_insert_ne. apply Hne. left. reflexivity. }
    rewrite (Hkeep errs2 _ Hlater). apply lookup_insert_eq.
  - intros c h Hc. unfold Gen1Main.errorHandlers in Hc.
    destruct (Gen1_errorHandlers_fold _ _ _ _ Hc) as [H|H]; [exact H|].
    rewrite lookup_empty in H. discriminate H.
Qed.

(** X23 on two pages for 404. *)
Lemma Gen1_last_error_page_wins_witness :
  Gen1Main.errorHandlers (env := sample_env) sample_errors !! 404
  = Some (Gen1.Error_handler (env := sample_env)
            {| Error_Status := 404; Error_Target := "/srv/404.html" |}).
Proof.
  exact (proj1 (Gen1_last_error_page_wins (env := sample_env)
                  [ {| Error_Status := 404; Error_Target := "/srv/first.html" |};
                    {| Error_Status := 500; Error_Target := "/srv/500.html" |} ]
                  []
                  {| Error_Status := 404; Error_Target := "/srv/404.html" |}
                  (fun e' Hin => match Hin with end))).
Defined.

Lemma canonical_keys_edit {env : Env} (hd : Header) (key value : string) :
  (forall k, CanonicalHeaderKey (CanonicalHeaderKey k) = CanonicalHeaderKey k) ->
  canonical_keys hd ->
  canonical_keys (Header_Set hd key value)
  /\ canonical_keys (Header_Add hd key value)
  /\ canonical_keys (Header_Del hd key).
Proof.
  intros Hidem Hhd. unfold canonical_keys, Header_Set, Header_Add, Header_Del.
  split; [|split]; intros k [v Hk].
  - apply lookup_insert_Some in Hk as [[<- _]|[_ Hk]]; [apply Hidem|].
    apply Hhd. exists v. exact Hk.
  - apply lookup_insert_Some in Hk as [[<- _]|[_ Hk]]; [apply Hidem|].
    apply Hhd. exists v. exact Hk.
  - apply lookup_delete_Some in Hk as [_ Hk]. apply Hhd. exists v. exact Hk.
Qed.

(** The earlier generation's [WriteHeader] for a status with a
    configured page: the page is served and the call panics. *)
Lemma Gen1_WriteHeader_page {env : Env} (handlers : gmap Z Handler) (ehrw : nat)
    (r : Request) (c : Z) (e : Error) (σ : World) :
  handlers !! c = Some (Gen1.Error_handler e) ->
  status (resp σ) = None ->
  canonical_keys (header (resp σ)) ->
  exists p σ',
    Gen1.ErrorHandlingResponseWriter_WriteHeader ehrw response_writer r handlers c σ
    = (Panic p, σ')
    /\ header_sent (Error_Status e) ∅ σ'.
Proof.
  intros Hc Hst Hcanon.
  pose proof (proj2 (Gen1_error_page_clears_headers e r σ Hst Hcanon)) as Hsent.
  unfold Gen1.ErrorHandlingResponseWriter_WriteHeader. rewrite Hc. unfold bind.
  destruct (Gen1.Error_handler e response_writer r σ) as [[[]|p] σ']; simpl in Hsent.
  - exists (PPtr ehrw), σ'. split; [reflexivity|exact Hsent].
  - exists p, σ'. split; [reflexivity|exact Hsent].
Qed.

Lemma Gen1_exec_sets_first {env : Env} (handlers : gmap Z Handler) (ehrw : nat)
    (r : Request) (c : Z) (e : Error) (script : Script) :
  (forall k, CanonicalHeaderKey (CanonicalHeaderKey k) = CanonicalHeaderKey k) ->
  handlers !! c = Some (Gen1.Error_handler e) ->
  SetsFirst c script ->
  forall σ,
    status (resp σ) = None ->
    canonical_keys (header (resp σ)) ->
    header_sent (Error_Status e) ∅
      (exec script (Gen1.ErrorHandlingResponseWriter ehrw response_writer r handlers) σ).2.
Proof.
  intros Hidem Hc Hs. induction Hs as
    [ cont | key cont _ IH | key value cont _ IH | key value cont _ IH
      | key cont _ IH | cont _ IH ];
    intros σ Hst Hcanon; simpl exec.
  - unfold bind. cbn [WriteHeader Gen1.ErrorHandlingResponseWriter].
    destruct (Gen1_WriteHeader_page handlers ehrw r c e σ Hc Hst Hcanon)
      as (p & σ' & -> & Hsent). exact Hsent.
  - unfold bind, wHeader_Get, gets. apply IH; assumption.
  - apply (IH (set_resp (set_header (fun h => Header_Set h key value)) σ) Hst).
    apply (canonical_keys_edit _ key value Hidem Hcanon).
  - apply (IH (set_resp (set_header (fun h => Header_Add h key value)) σ) Hst).
    apply (canonical_keys_edit _ key value Hidem Hcanon).
  - apply (IH (set_resp (set_header (fun h => Header_Del h key)) σ) Hst).
    apply (canonical_keys_edit _ key "" Hidem Hcanon).
  - unfold bind, wHeader_keys, gets. apply IH; assumption.
Qed.

Lemma Gen1_registered_page {env : Env} (errs : list Error) (c : Z) :
  is_Some (Gen1Main.errorHandlers errs !! c) ->
  exists e, Error_Status e = c
            /\ Gen1Main.errorHandlers errs !! c = Some (Gen1.Error_handler e).
Proof.
  intros [h Hh]. unfold Gen1Main.errorHandlers in *.
  destruct (Gen1_errorHandlers_fold _ _ _ _ Hh) as [(e & _ & Hst & ->)|H].
  - exists e. split; [exact Hst|exact Hh].
  - rewrite lookup_empty in H. discriminate H.
Qed.

(** X21.  The earlier generation, with the error pages as its [main]
    registers them.  When a handler first sets a status that has a
    page (200 to 999), before the header was written, the response
    header is written
    with that status and with no header at all: the page deletes every
    header the handler had queued, and the code that serves the page
    cannot write the header again. *)
Theorem Gen1_intercepted_status_gets_page {env : Env} :
  forall (errs : list Error) (f : Request -> Script) (r : Request) (c : Z) (σ : World),
    (forall k, CanonicalHeaderKey (CanonicalHeaderKey k) = CanonicalHeaderKey k) ->
    canonical_keys (header (resp σ)) ->
    status (resp σ) = None ->
    SetsFirst c (f r) ->
    200 <= c <= 999 ->
    is_Some (Gen1Main.errorHandlers errs !! c) ->
    header_sent c ∅
      (Gen1.ErrorHandler (scripted f) (Gen1Main.errorHandlers errs) response_writer r σ).2.
Proof.
  intros errs f r c σ Hidem Hcanon Hst Hfirst _ Hreg.
  destruct (Gen1_registered_page errs c Hreg) as (e & <- & Hc).
  unfold Gen1.ErrorHandler.
  rewrite (bind_Ret (alloc OErrorHandlingResponseWriter) _ σ
             {| resp := resp σ; heap := heap σ ++ [OErrorHandlingResponseWriter] |}
             (length (heap σ)) eq_refl).
  apply (hoare_recovering
           (fun σ0 => status (resp σ0) = None /\ canonical_keys (header (resp σ0)))
           (header_sent (Error_Status e) ∅)).
  - intros σ0 [Hst0 Hcanon0]. unfold scripted.
    apply (Gen1_exec_sets_first _ _ r _ e _ Hidem Hc Hfirst σ0 Hst0 Hcanon0).
  - intros p. destruct (PanicValue_eqb p _); [apply keeps_ret|apply keeps_panic].
  - split; [exact Hst|exact Hcanon].
Qed.

(** X21 on the handler that answers 404 with its own text, after it has
    queued a header. *)
Lemma Gen1_intercepted_status_gets_page_witness :
  header (resp sample_queued_world) !! "X-Stale" = Some ["1"]
  /\ header_sent 404 ∅
       (Gen1.ErrorHandler (scripted (env := sample_env) sample_own_404)
          (Gen1Main.errorHandlers (env := sample_env) sample_errors_404)
          response_writer (sample_request "/x") sample_queued_world).2.
Proof.
  split; [reflexivity|].
  apply (Gen1_intercepted_status_gets_page (env := sample_env) sample_errors_404
           sample_own_404 (sample_request "/x") 404 sample_queued_world).
  - reflexivity.
  - intros k _. reflexivity.
  - reflexivity.
  - apply SetsFirst_WriteHeader.
  - lia.
  - eexists. reflexivity.
Defined.

(** X24.  The earlier generation's serve, as its [main] registers it,
    for a request whose file cannot be opened, with a page configured
    for 404: the 404 of the file server is intercepted, and the response
    header is written with status 404 and without any header. *)
Theorem Gen1_missing_file_gets_page {env : Env} :
  forall (errs : list Error) (target path : string) (r : Request) (σ : World),
    (forall k, CanonicalHeaderKey (CanonicalHeaderKey k) = CanonicalHeaderKey k) ->
    canonical_keys (header (resp σ)) ->
    status (resp σ) = None ->
    path = "" \/ strings_HasPrefix (URL_Path r) path = true ->
    let upath := file_server_path (stripped_request path r) in
    strings_HasSuffix upath "/index.html" = false ->
    os_Open target (path_Clean upath) = None ->
    is_Some (Gen1Main.errorHandlers errs !! 404) ->
    header_sent 404 ∅
      (Gen1Main.serve_handler target path (Gen1Main.errorHandlers errs)
         response_writer r σ).2.
Proof.
  intros errs target path r σ Hidem Hcanon Hst Hprefix upath Hidx Hopen Hreg.
  destruct (Gen1_registered_page errs 404 Hreg) as (e & He & Hc).
  unfold Gen1Main.serve_handler.
  rewrite (StripPrefix_strips _ _ _ _ Hprefix).
  set (r' := stripped_request path r) in *.
  unfold Gen1.ErrorHandler.
  set (ehrw := length (heap σ)).
  set (σ0 := {| resp := resp σ; heap := heap σ ++ [OErrorHandlingResponseWriter] |}).
  rewrite (bind_Ret (alloc OErrorHandlingResponseWriter) _ σ σ0 ehrw eq_refl).
  set (w := Gen1.ErrorHandlingResponseWriter ehrw response_writer r'
              (Gen1Main.errorHandlers errs)).
  set (σ1 := set_resp (set_header (fun h => Header_Set h "Content-Type"
                                              "text/plain; charset=utf-8")) σ0).
  assert (Hcanon1 : canonical_keys (header (resp σ1))).
  { subst σ1 σ0. simpl.
    apply (canonical_keys_edit _ "Content-Type" "text/plain; charset=utf-8" Hidem Hcanon). }
  destruct (Gen1_WriteHeader_page (Gen1Main.errorHandlers errs) ehrw r' 404 e σ1 Hc Hst Hcanon1)
    as (p & σ' & Hwh & Hsent).
  assert (Hfs : http_FileServer (http_Dir target) w r' σ0 = (Panic p, σ')).
  { unfold http_FileServer, serveFile.
    change (if strings_HasPrefix (URL_Path r') "/" then URL_Path r'
            else "/" +:+ URL_Path r') with upath.
    change (URL_Path (with_URL_Path r' upath)) with upath.
    rewrite Hidx. unfold bind at 1. unfold http_Dir at 1, ret. rewrite Hopen.
    unfold http_NotFound, http_Error.
    rewrite (bind_Ret (wHeader_Set "Content-Type" "text/plain; charset=utf-8") _ σ0 σ1
               tt eq_refl).
    unfold bind at 1. subst w. cbn [WriteHeader Gen1.ErrorHandlingResponseWriter].
    rewrite Hwh. reflexivity. }
  unfold recovering. rewrite Hfs. rewrite <- He.
  destruct (PanicValue_eqb p (PPtr ehrw)); exact Hsent.
Qed.

(** X24 on a file that does not exist, with a page for 404. *)
Lemma Gen1_missing_file_gets_page_witness :
  os_Open (Env := sample_env) "/srv" "/nope" = None
  /\ header_sent 404 ∅
       (Gen1Main.serve_handler (env := sample_env) "/srv" "/"
          (Gen1Main.errorHandlers (env := sample_env) sample_errors_404)
          response_writer (sample_request "/nope") fresh_world).2.
Proof.
  split; [reflexivity|].
  apply (Gen1_missing_file_gets_page (env := sample_env) sample_errors_404 "/srv" "/"
           (sample_request "/nope") fresh_world).
  - reflexivity.
  - intros k _. reflexivity.
  - reflexivity.
  - right. reflexivity.
  - reflexivity.
  - reflexivity.
  - eexists. reflexivity.
Defined.

(** ** The guard, when the files open *)

Lemma heap_free_bind {A B} (mx : M A) (k : A -> M B) :
  heap_free mx -> (forall a, heap_free (k a)) -> heap_free (bind mx k).
Proof.
  intros Hm Hk ρ. destruct (Hm ρ) as ([a|p] & ρ1 & H1).
  - destruct (Hk a ρ1) as (o & ρ2 & H2). exists o, ρ2. intros hp.
    unfold bind. rewrite H1. apply H2.
  - exists (Panic p), ρ1. intros hp. unfold bind. rewrite H1. reflexivity.
Qed.

Lemma heap_free_ret {A} (a : A) : heap_free (ret a).
Proof. intros ρ. exists (Ret a), ρ. reflexivity. Qed.

Lemma heap_free_panic {A} (p : PanicValue) : heap_free (@panic A p).
Proof. intros ρ. exists (Panic p), ρ. reflexivity. Qed.

Lemma heap_free_header {env : Env} (f : Header -> Header) :
  heap_free (modify (set_resp (set_header f))).
Proof. intros ρ. exists (Ret tt), (set_header f ρ). reflexivity. Qed.

Lemma heap_free_Get {env : Env} (key : string) : heap_free (wHeader_Get key).
Proof. intros ρ. exists (Ret (Header_Get (header ρ) key)), ρ. reflexivity. Qed.

Lemma heap_free_keys {env : Env} : heap_free wHeader_keys.
Proof. intros ρ. exists (Ret (map_to_list (header ρ)).*1), ρ. reflexivity. Qed.

Lemma heap_free_WriteHeader (code : Z) : heap_free (response_WriteHeader code).
Proof.
  intros ρ. unfold response_WriteHeader, set_resp. cbn.
  destruct (status ρ); eexists; eexists; intros hp; reflexivity.
Qed.

Lemma heap_free_Write (b : bytes) : heap_free (response_Write b).
Proof.
  intros ρ. destruct (status ρ) as [st|] eqn:Hst.
  - exists (Ret tt), {| header := header ρ; status := status ρ; sent := sent ρ;
                        body := body ρ ++ b |}.
    intros hp.
    unfold response_Write, bind, gets, when, response_WriteHeader, modify, set_resp. simpl.
    rewrite Hst. simpl. rewrite ?Hst. reflexivity.
  - exists (Ret tt), {| header := header ρ; status := Some 200; sent := header ρ;
                        body := body ρ ++ b |}.
    intros hp.
    unfold response_Write, bind, gets, when, response_WriteHeader, modify, set_resp. simpl.
    rewrite Hst. simpl. rewrite ?Hst. reflexivity.
Qed.

Lemma heap_free_exec {env : Env} (s : Script) : heap_free (exec s response_writer).
Proof.
  induction s as
    [ | key cont IH | key value cont IH | key value cont IH | key cont IH
      | cont IH | code cont IH | b cont IH | p ]; simpl exec.
  - apply heap_free_ret.
  - apply heap_free_bind; [apply heap_free_Get|exact IH].
  - apply heap_free_bind; [apply heap_free_header|intros _; exact IH].
  - apply heap_free_bind; [apply heap_free_header|intros _; exact IH].
  - apply heap_free_bind; [apply heap_free_header|intros _; exact IH].
  - apply heap_free_bind; [apply heap_free_keys|exact IH].
  - apply heap_free_bind; [apply heap_free_WriteHeader|intros _; exact IH].
  - apply heap_free_bind; [apply heap_free_Write|intros _; exact IH].
  - apply heap_free_panic.
Qed.

Lemma heap_free_http_Error {env : Env} (msg : string) (code : Z) :
  heap_free (http_Error response_writer msg code).
Proof.
  unfold http_Error.
  apply heap_free_bind; [apply heap_free_header|intros _].
  apply heap_free_bind; [apply heap_free_WriteHeader|intros _].
  apply heap_free_Write.
Qed.

Lemma heap_free_localRedirect {env : Env} (r : Request) (newPath : string) :
  heap_free (localRedirect response_writer r newPath).
Proof.
  unfold localRedirect.
  apply heap_free_bind; [apply heap_free_header|intros _].
  apply heap_free_WriteHeader.
Qed.

Lemma heap_free_FileServer {env : Env} (target : string) (r : Request) :
  heap_free (http_FileServer (http_Dir target) response_writer r).
Proof.
  unfold http_FileServer, serveFile.
  destruct (strings_HasSuffix _ "/index.html"); [apply heap_free_localRedirect|].
  apply heap_free_bind; [apply heap_free_ret|intros [d|]];
    [|apply heap_free_http_Error].
  destruct (true && IsDir d && negb (strings_HasSuffix _ "/"));
    [apply heap_free_localRedirect|].
  destruct (true && negb (IsDir d) && strings_HasSuffix _ "/");
    [apply heap_free_localRedirect|].
  destruct d as [c|entries].
  - apply heap_free_exec.
  - apply heap_free_bind; [apply heap_free_ret|intros [[c|entries']|]];
      apply heap_free_exec.
Qed.

(** When no open fails, the file server on the guard's file system is
    the file server on the directory. *)
Lemma guarded_FileServer_opens {env : Env} (target : string) (w : ResponseWriter)
    (r : Request) (d : nat) (σ : World) :
  strings_HasSuffix (file_server_path r) "/index.html" = true
  \/ (exists f,
        os_Open target (path_Clean (file_server_path r)) = Some f
        /\ (IsDir f = true ->
            strings_HasSuffix (file_server_path r) "/" = true ->
            os_Open target (path_Clean (file_server_path r) +:+ "/index.html") <> None)) ->
  http_FileServer (PreventListingDir_Open d target) w r σ
  = http_FileServer (http_Dir target) w r σ.
Proof.
  intros Hopens. unfold http_FileServer, serveFile.
  change (if strings_HasPrefix (URL_Path r) "/" then URL_Path r else "/" +:+ URL_Path r)
    with (file_server_path r).
  change (URL_Path (with_URL_Path r (file_server_path r))) with (file_server_path r).
  destruct (strings_HasSuffix (file_server_path r) "/index.html") eqn:Hidx; [reflexivity|].
  destruct Hopens as [H|(f & Hopen & Hindex)]; [discriminate H|].
  unfold bind at 1 3. unfold PreventListingDir_Open at 1, http_Dir at 1 2, bind at 1, ret.
  rewrite Hopen.
  destruct f as [c|entries]; simpl IsDir.
  - reflexivity.
  - destruct (strings_HasSuffix (file_server_path r) "/") eqn:Hslash; simpl; [|reflexivity].
    unfold bind at 1 2. unfold PreventListingDir_Open at 1, http_Dir at 1 2, bind at 1, ret.
    destruct (os_Open target (path_Clean (file_server_path r) +:+ "/index.html")) eqn:Hi;
      [reflexivity|].
    exfalso. apply (Hindex eq_refl eq_refl). reflexivity.
Qed.

(** X27.  A guarded serve answers as the same serve without the guard
    whenever the files it opens for the request do open (the file, and
    the [index.html] of a directory that is listed): on the server's
    writer the outcome and the response are the same, and the only
    trace of the guard is the [PreventListingDir] it allocated. *)
Theorem guard_is_invisible_when_files_open {env : Env} :
  forall (sv : Serve) (r : Request) (σ : World),
    Serve_Error sv <= 0 ->
    Serve_PreventListing sv = true ->
    Serve_Path sv = "" \/ strings_HasPrefix (URL_Path r) (Serve_Path sv) = true ->
    let upath := file_server_path (stripped_request (Serve_Path sv) r) in
    strings_HasSuffix upath "/index.html" = true
    \/ (exists f,
          os_Open (Serve_Target sv) (path_Clean upath) = Some f
          /\ (IsDir f = true ->
              strings_HasSuffix upath "/" = true ->
              os_Open (Serve_Target sv) (path_Clean upath +:+ "/index.html") <> None)) ->
    exists o ρ',
      Serve_handler {| Serve_Target := Serve_Target sv; Serve_Path := Serve_Path sv;
                       Serve_Error := Serve_Error sv; Serve_PreventListing := false;
                       Serve_Headers := Serve_Headers sv |} response_writer r σ
      = (o, {| resp := ρ'; heap := heap σ |})
      /\ (o <> Panic (PPtr (length (heap σ))) ->
          Serve_handler sv response_writer r σ
          = (o, {| resp := ρ';
                   heap := heap σ ++ [OPreventListingDir (Serve_Target sv)] |})).
Proof.
  intros sv r σ Herr Hguard Hprefix upath Hopens.
  assert (Herr' : (0 <? Serve_Error sv) = false) by (apply Z.ltb_ge; exact Herr).
  set (r' := stripped_request (Serve_Path sv) r) in *.
  assert (Hcore : forall ρ1, exists o ρ',
            http_FileServer (http_Dir (Serve_Target sv)) response_writer r'
              {| resp := ρ1; heap := heap σ |} = (o, {| resp := ρ'; heap := heap σ |})
            /\ (o <> Panic (PPtr (length (heap σ))) ->
                (do d <- alloc (OPreventListingDir (Serve_Target sv));
                 recovering
                   (http_FileServer (PreventListingDir_Open d (Serve_Target sv))
                      response_writer r')
                   (fun p => if PanicValue_eqb p (PPtr d)
                             then http_Error response_writer (http_StatusText 403) 403
                             else panic p)) {| resp := ρ1; heap := heap σ |}
                = (o, {| resp := ρ';
                         heap := heap σ ++ [OPreventListingDir (Serve_Target sv)] |}))).
  { intros ρ1. destruct (heap_free_FileServer (Serve_Target sv) r' ρ1) as (o & ρ' & Hfree).
    exists o, ρ'. split; [apply Hfree|]. intros Ho.
    unfold bind at 1, alloc at 1. cbn [resp heap].
    unfold recovering.
    rewrite (guarded_FileServer_opens _ _ _ _ _ Hopens), Hfree.
    destruct o as [[]|p]; [reflexivity|].
    destruct (PanicValue_eqb p (PPtr (length (heap σ)))) eqn:Hp; [|reflexivity].
    apply PanicValue_eqb_eq in Hp. subst p. contradiction. }
  unfold Serve_handler. cbn [Serve_Error Serve_PreventListing Serve_Target Serve_Headers
                               Serve_Path].
  rewrite Herr', Hguard.
  rewrite !(StripPrefix_strips _ _ _ _ Hprefix). fold r'.
  destruct (0 <? length (Serve_Headers sv))%nat.
  - unfold CustomHeadersHandler.
    rewrite !(bind_Ret _ _ _ _ tt (inject_as_fold (Serve_Headers sv) σ)).
    apply (Hcore (set_header (fun _ => foldl set_if_empty (header (resp σ)) (Serve_Headers sv))
                    (resp σ))).
  - destruct σ as [ρ hp]. apply (Hcore ρ).
Qed.

(** X27 on the file [a.txt] under the guarded sample serve. *)
Lemma guard_is_invisible_when_files_open_witness :
  os_Open (Env := sample_env) (Serve_Target sample_serve) "/a.txt"
    = Some (Regular (bytes_of "hello"))
  /\ body (resp (Serve_handler (env := sample_env) sample_serve response_writer
                   (sample_request "/a.txt") fresh_world).2)
     = bytes_of "hello".
Proof.
  split; [reflexivity|].
  destruct (guard_is_invisible_when_files_open (env := sample_env) sample_serve
              (sample_request "/a.txt") fresh_world ltac:(simpl; lia) eq_refl
              (or_intror eq_refl)
              (or_intror (ex_intro _ (Regular (bytes_of "hello"))
                            (conj eq_refl (fun H _ => False_ind _
                               (Bool.diff_false_true H))))))
    as (o & ρ' & Hplain & Hguarded).
  assert (Ho : o = Ret tt /\ body ρ' = bytes_of "hello").
  { vm_compute in Hplain. injection Hplain as <- <-. split; reflexivity. }
  destruct Ho as [-> Hbody].
  rewrite Hguarded by discriminate. exact Hbody.
Defined.

(** ** A missing file and its error page *)




(** ** The wildcard request behind a compressing listener *)

(** X29.  [main] puts [GzipHandler] around the mux.  A request for [*]
    that accepts gzip, on a listener with compression, is answered 400
    by the dispatcher as on any listener, but the response is sent with
    [Content-Encoding: gzip] and its body is extended by what the
    [gzip.Writer] writes when it is closed without having been given a
    byte. *)
Theorem wildcard_behind_gzip {env : Env} {renv : RedirectEnv} :
  forall (listener : Listener) (s : StaticServeMux) (r : Request) (σ : World),
    RequestURI r = "*" ->
    Listener_Gzip listener = true ->
    strings_Contains (Header_Get (Request_Header r) "Accept-Encoding") "gzip" = true ->
    CanonicalHeaderKey "Connection" <> CanonicalHeaderKey "Content-Encoding" ->
    status (resp σ) = None ->
    exists σ',
      listener_handler listener s response_writer r σ = (Ret tt, σ')
      /\ status (resp σ') = Some 400
      /\ sent (resp σ') !! CanonicalHeaderKey "Content-Encoding" = Some ["gzip"]
      /\ body (resp σ') = body (resp σ) ++ concat (gzip_close []).
Proof.
  intros listener s r σ Huri Hgzip Haccept Hconn Hst.
  set (CE := CanonicalHeaderKey "Content-Encoding") in *.
  assert (Hne : "gzip" <> "") by discriminate.
  set (H := if (0 <? length (Listener_Headers listener))%nat
            then CustomHeadersHandler (StaticServeMux_ServeHTTP s)
                   (Listener_Headers listener)
            else StaticServeMux_ServeHTTP s).
  set (gz := length (heap σ)).
  set (grw := length (heap σ ++ [OGzipWriter []])).
  set (σ2 := {| resp := set_header (fun hd => Header_Set hd "Content-Encoding" "gzip")
                          (resp σ);
                heap := (heap σ ++ [OGzipWriter []]) ++ [OGzipResponseWriter false] |}).
  set (w := GzipResponseWriter grw gz response_writer).
  assert (Hmux : forall σ0,
             status (resp σ0) = None ->
             header (resp σ0) !! CE = Some ["gzip"] ->
             exists σ',
               StaticServeMux_ServeHTTP s w r σ0 = (Ret tt, σ')
               /\ header_sent 400 (sent (resp σ')) σ'
               /\ sent (resp σ') !! CE = Some ["gzip"]
               /\ body (resp σ') = body (resp σ0)
               /\ heap σ' = heap σ0).
  { intros σ0 Hst0 HK0. unfold StaticServeMux_ServeHTTP. rewrite Huri.
    change (String.eqb "*" "*") with true. cbv iota.
    unfold bind, when. subst w. cbn [WriteHeader GzipResponseWriter response_writer].
    destruct (ProtoAtLeast r 1 1).
    - unfold wHeader_Set, modify, response_WriteHeader. simpl. rewrite Hst0.
      eexists. split; [reflexivity|]. simpl.
      split; [split; reflexivity|]. split; [|split; reflexivity].
      unfold Header_Set. rewrite lookup_insert_ne by exact Hconn. exact HK0.
    - unfold ret, response_WriteHeader. rewrite Hst0.
      eexists. split; [reflexivity|]. simpl.
      split; [split; reflexivity|]. split; [exact HK0|split; reflexivity]. }
  assert (Hchain : exists σ4,
             H w r σ2 = (Ret tt, σ4)
             /\ header_sent 400 (sent (resp σ4)) σ4
             /\ sent (resp σ4) !! CE = Some ["gzip"]
             /\ body (resp σ4) = body (resp σ)
             /\ heap σ4 = heap σ2).
  { assert (HK2 : header (resp σ2) !! CE = Some ["gzip"])
      by (simpl; unfold Header_Set; apply lookup_insert_eq).
    subst H. destruct (0 <? length (Listener_Headers listener))%nat.
    - destruct (inject_runs_keeping CE "gzip" [] (Listener_Headers listener) Hne σ2 HK2)
        as (h1 & Hrun1 & HK1).
      destruct (Hmux (set_resp (set_header (fun _ => h1)) σ2) Hst HK1)
        as (σ4 & Hrun & Hsent & Hce & Hbody & Hheap).
      exists σ4. unfold CustomHeadersHandler. rewrite (bind_Ret _ _ _ _ tt Hrun1).
      split; [exact Hrun|]. split; [exact Hsent|]. split; [exact Hce|].
      split; [exact Hbody|exact Hheap].
    - destruct (Hmux σ2 Hst HK2) as (σ4 & Hrun & Hsent & Hce & Hbody & Hheap).
      exists σ4. split; [exact Hrun|]. split; [exact Hsent|]. split; [exact Hce|].
      split; [exact Hbody|exact Hheap]. }
  destruct Hchain as (σ4 & Hrun & Hsent & Hce & Hbody & Hheap).
  assert (Hgz4 : heap σ4 !! gz = Some (OGzipWriter [])).
  { rewrite Hheap. subst σ2 gz. simpl.
    rewrite lookup_app_l by (rewrite length_app; simpl; lia).
    apply list_lookup_middle. reflexivity. }
  destruct (GzipHandler_around H r σ σ4 _ Haccept Hrun Hgz4) as (ρ' & Hrun' & Hbody' & _).
  pose proof (gzip_Writer_Close_sent gz σ4 400 (sent (resp σ4)) Hsent) as Hclose.
  destruct (gzip_Writer_Close_runs gz _ σ4 Hgz4) as (ρ'' & Hrun'' & _).
  assert (Hsame : ρ'' = ρ').
  { assert (E : (GzipHandler H response_writer r σ).2
                = (gzip_Writer_Close gz response_writer σ4).2).
    { unfold GzipHandler. rewrite Haccept. change (negb true) with false. cbv iota.
      rewrite (bind_Ret (wHeader_Set "Content-Encoding" "gzip") _ σ
                 (set_resp (set_header (fun hd => Header_Set hd "Content-Encoding" "gzip")) σ)
                 tt eq_refl).
      rewrite (bind_Ret (alloc (OGzipWriter [])) _
                 (set_resp (set_header (fun hd => Header_Set hd "Content-Encoding" "gzip")) σ)
                 {| resp := set_header (fun hd => Header_Set hd "Content-Encoding" "gzip")
                              (resp σ);
                    heap := heap σ ++ [OGzipWriter []] |} gz eq_refl).
      unfold deferring.
      rewrite (bind_Ret (alloc (OGzipResponseWriter false)) _
                 {| resp := set_header (fun hd => Header_Set hd "Content-Encoding" "gzip")
                              (resp σ);
                    heap := heap σ ++ [OGzipWriter []] |} σ2 grw eq_refl).
      fold w. rewrite Hrun, Hrun''. reflexivity. }
    rewrite Hrun', Hrun'' in E. simpl in E. injection E as E. symmetry. exact E. }
  rewrite Hrun'' in Hclose. subst ρ''. destruct Hclose as [Hst' Hsent'].
  exists {| resp := ρ'; heap := heap σ4 |}.
  unfold listener_handler. rewrite Hgzip. fold H.
  split; [exact Hrun'|]. simpl in *.
  split; [exact Hst'|]. split; [rewrite Hsent'; exact Hce|].
  rewrite Hbody', Hbody. reflexivity.
Qed.

(** X29 on the sample listener with compression. *)
Lemma wildcard_behind_gzip_witness :
  let σ' := (listener_handler (env := sample_env) (renv := sample_redirect_env)
      (sample_listener true) sample_mux
               response_writer (sample_gzip_request "*") fresh_world).2 in
  RequestURI (sample_gzip_request "*") = "*"
  /\ status (resp σ') = Some 400
  /\ body (resp σ') = sample_magic.
Proof.
  cbv zeta. split; [reflexivity|].
  destruct (wildcard_behind_gzip (env := sample_env) (renv := sample_redirect_env)
      (sample_listener true) sample_mux
              (sample_gzip_request "*") fresh_world eq_refl eq_refl eq_refl
              ltac:(discriminate) eq_refl) as (σ' & Hrun & Hst & _ & Hbody).
  rewrite Hrun. split; [exact Hst|]. cbn [snd]. rewrite Hbody. reflexivity.
Defined.

(** ** A redirect without status *)

(** X30.  For a redirect configured without status, [main] logs that it
    defaults the status to 301 and then registers, under the redirect's
    pattern, the redirect handler with status 0: the default was given
    to the loop variable of [ServerConfig.sanitise] and not to the
    configuration. *)
Theorem redirect_without_status_keeps_status_0 {env : Env} {renv : RedirectEnv} :
  forall (cfg : ServerConfig) (rd : Redirect),
    main_registrable cfg ->
    In rd (Redirects cfg) ->
    Redirect_With rd = 0 ->
    In ("Defaulting status code " +:+ pretty 301 +:+ " for redirect "
        +:+ Redirect_From rd +:+ LF) (ServerConfig_sanitise cfg).2
    /\ exists s,
         main_mux (ServerConfig_sanitise cfg).1 = Ret s
         /\ In (Redirect_From rd,
                scripted (fun req => http_Redirect req (Redirect_To rd) 0))
              (ServeMux_m (StaticServeMux_ServeMux s)).
Proof.
  intros cfg rd Hgood Hin Hwith. rewrite ServerConfig_sanitise_eq. cbn [fst snd]. split.
  - apply in_flat_map. exists rd. split; [exact Hin|].
    unfold Redirect_sanitise. rewrite Hwith. left. reflexivity.
  - destruct (main_mux_cases cfg) as [[_ Hrun]|[Hbad _]]; [|contradiction].
    eexists. split; [exact Hrun|]. simpl.
    apply in_app_iff. right. apply in_map_iff. exists rd. split; [|exact Hin].
    unfold Redirect_handler. rewrite Hwith. reflexivity.
Qed.

(** X30 on the default configuration with a redirect without status. *)
Lemma redirect_without_status_keeps_status_0_witness :
  (ServerConfig_sanitise sample_config_redirect).2
  = ["Defaulting status code 301 for redirect /old" +:+ LF]
  /\ exists s,
       main_mux (env := sample_env) (renv := sample_redirect_env)
         (ServerConfig_sanitise sample_config_redirect).1 = Ret s
       /\ In ("/old", scripted (env := sample_env)
                        (fun req => http_Redirect (RedirectEnv := sample_redirect_env)
                                      req "/new" 0))
            (ServeMux_m (StaticServeMux_ServeMux s)).
Proof.
  split; [reflexivity|].
  apply (redirect_without_status_keeps_status_0 (env := sample_env)
           (renv := sample_redirect_env) sample_config_redirect
           {| Redirect_From := "/old"; Redirect_To := "/new"; Redirect_With := 0 |}).
  - split; [|split].
    + constructor.
    + simpl. apply NoDup_cons. split; [|apply NoDup_cons; split; [|constructor]].
      * rewrite list_elem_of_In. intros [H|[]]. discriminate H.
      * rewrite list_elem_of_In. intros [].
    + simpl. intros [H|[H|[]]]; discriminate H.
  - left. reflexivity.
  - reflexivity.
Defined.
